(** * ship-logbook: the fleet registry and vessel model of [boat_ui.py]

    A shallow embedding of the classes [Boat], [CargoBoat], [MilitaryBoat]
    and [Fleet].  Python objects live in a store indexed by reference, so
    that identity ([boat in self.boats], [self.boats.remove(boat)]) and
    aliasing (one vessel appended to several registries) are the ones of the
    program.  Methods that mutate objects or may raise are written in a
    state-and-exception monad over that store. *)

From Stdlib Require Import ZArith NArith List Bool Lia String Ascii.
From Stdlib Require Import Floats.SpecFloat DecimalString.
From stdpp Require Import base list option gmap sorting.

Set Warnings "-register-all".

(** ** Python strings

    A [str] is a sequence of Unicode code points. *)

Abbreviation pystr := (list N).

Definition lit (s : string) : pystr :=
  map N_of_ascii (list_ascii_of_string s).

Definition nl : pystr := [10%N].

(** [str.isspace] on one code point (CPython's [_PyUnicode_IsWhitespace]). *)
Definition isspace (c : N) : bool :=
  ((9 <=? c) && (c <=? 13) || (28 <=? c) && (c <=? 32)
   || (c =? 133) || (c =? 160) || (c =? 5760)
   || (8192 <=? c) && (c <=? 8202)
   || (c =? 8232) || (c =? 8233) || (c =? 8239) || (c =? 8287)
   || (c =? 12288))%N.

Fixpoint lstrip (s : pystr) : pystr :=
  match s with
  | c :: s' => if isspace c then lstrip s' else s
  | [] => []
  end.

Definition rstrip (s : pystr) : pystr := rev (lstrip (rev s)).

(** [s.strip()] *)
Definition strip (s : pystr) : pystr := rstrip (lstrip s).

(** [sub in s] for two strings. *)
Definition contains (sub s : pystr) : Prop :=
  exists pre post, s = pre ++ sub ++ post.

(** Lexicographic comparison of two strings by code point: [a <= b]. *)
Fixpoint str_leb (a b : pystr) : bool :=
  match a, b with
  | [], _ => true
  | _ :: _, [] => false
  | x :: a', y :: b' =>
      if (x <? y)%N then true
      else if (y <? x)%N then false
      else str_leb a' b'
  end.

(** [str(n)] for an integer. *)
Definition str_int (z : Z) : pystr :=
  lit (NilZero.string_of_int (Z.to_int z)).

(** ** Python values *)

Record date := mkDate { year : Z; month : Z; day : Z }.

Inductive pyval :=
| VNone
| VBool (b : bool)
| VInt (z : Z)
| VFloat (f : spec_float)
| VStr (s : pystr)
| VDate (d : date)
| VList (l : list pyval)
| VDict (d : gmap pystr pyval).

Inductive exn_class :=
| ValueError
| TypeError
| KeyError
| AttributeError
| OverflowError
| OSError
| FileNotFoundError
| JSONDecodeError.

(** An exception: its class and [str(e)]. *)
Inductive exn := Exn (cls : exn_class) (msg : pystr).

Definition exn_cls (e : exn) : exn_class := let 'Exn c _ := e in c.
Definition exn_msg (e : exn) : pystr := let 'Exn _ m := e in m.

Inductive res (A : Type) :=
| Ok (a : A)
| Raise (e : exn).
Arguments Ok {A} a.
Arguments Raise {A} e.

Definition res_bind {A B} (r : res A) (k : A -> res B) : res B :=
  match r with
  | Ok a => k a
  | Raise e => Raise e
  end.

Notation "'let?' x ':=' r 'in' k" := (res_bind r (fun x => k))
  (at level 10, x name, r at level 100, k at level 200).

(** [isinstance(v, str)], [isinstance(v, (int, float))] ([bool] is a
    subclass of [int]) and [isinstance(v, bool)]. *)
Definition isinstance_str (v : pyval) : bool :=
  match v with VStr _ => true | _ => false end.

Definition isinstance_number (v : pyval) : bool :=
  match v with VBool _ | VInt _ | VFloat _ => true | _ => false end.

Definition isinstance_bool (v : pyval) : bool :=
  match v with VBool _ => true | _ => false end.

(** ** Numbers: binary64 floats and unbounded integers *)

Definition prec : Z := 53.
Definition emax : Z := 1024.

Definition float_zero : spec_float := S754_zero false.

(** [float(z)]: round to nearest even, [OverflowError] when out of range. *)
Definition int_to_float (z : Z) : res spec_float :=
  match binary_normalize prec emax z 0 false with
  | S754_infinity _ =>
      Raise (Exn OverflowError (lit "int too large to convert to float"))
  | f => Ok f
  end.

Definition bool_to_Z (b : bool) : Z := if b then 1 else 0.

(** [v < 0] for a number [v]. *)
Definition lt_zero (v : pyval) : bool :=
  match v with
  | VBool b => (bool_to_Z b <? 0)%Z
  | VInt z => (z <? 0)%Z
  | VFloat f => SFltb f float_zero
  | _ => false
  end.

(** [a + b] on numbers; other operands do not occur where it is used. *)
Definition py_add (a b : pyval) : res pyval :=
  let as_int v :=
    match v with
    | VBool b => Some (bool_to_Z b)
    | VInt z => Some z
    | _ => None
    end in
  match a, b with
  | VFloat x, VFloat y => Ok (VFloat (SFadd prec emax x y))
  | VFloat x, _ =>
      match as_int b with
      | Some z => let? y := int_to_float z in Ok (VFloat (SFadd prec emax x y))
      | None => Raise (Exn TypeError (lit "unsupported operand type(s) for +"))
      end
  | _, VFloat y =>
      match as_int a with
      | Some z => let? x := int_to_float z in Ok (VFloat (SFadd prec emax x y))
      | None => Raise (Exn TypeError (lit "unsupported operand type(s) for +"))
      end
  | _, _ =>
      match as_int a, as_int b with
      | Some x, Some y => Ok (VInt (x + y))
      | _, _ => Raise (Exn TypeError (lit "unsupported operand type(s) for +"))
      end
  end.

(** [sum(xs)]: from the integer 0, left to right.  (CPython 3.12 and later
    compensate the rounding errors of a float sum; the two agree whenever
    no addition rounds.) *)
Fixpoint sum_from (acc : pyval) (xs : list pyval) : res pyval :=
  match xs with
  | [] => Ok acc
  | x :: xs' => let? acc' := py_add acc x in sum_from acc' xs'
  end.

Definition py_sum (xs : list pyval) : res pyval := sum_from (VInt 0) xs.

(** Two decimal digits, zero padded. *)
Definition two_digits (z : Z) : pystr :=
  str_int (z / 10) ++ str_int (z mod 10).

(** [format(f, ".2f")] of the magnitude [m * 2^e]: the exact value rounded
    to two decimals, ties to even. *)
Definition fixed2 (m : positive) (e : Z) : pystr :=
  let hundredths :=
    match e with
    | Zneg p =>
        let d := Z.pow 2 (Zpos p) in
        let x := (Zpos m * 100)%Z in
        let q := (x / d)%Z in
        let r := (x mod d)%Z in
        if (d <? 2 * r)%Z then (q + 1)%Z
        else if (2 * r =? d)%Z && Z.odd q then (q + 1)%Z
        else q
    | _ => (Zpos m * Z.pow 2 e * 100)%Z
    end in
  str_int (hundredths / 100) ++ lit "." ++ two_digits (hundredths mod 100).

Definition sign_str (s : bool) : pystr := if s then lit "-" else [].

Definition format_float_2f (f : spec_float) : pystr :=
  match f with
  | S754_nan => lit "nan"
  | S754_infinity s => sign_str s ++ lit "inf"
  | S754_zero s => sign_str s ++ lit "0.00"
  | S754_finite s m e => sign_str s ++ fixed2 m e
  end.

(** [f"{v:.2f}"] for a number [v]; integers are converted to float first.
    The program formats numbers only. *)
Definition format_2f (v : pyval) : res pystr :=
  match v with
  | VFloat f => Ok (format_float_2f f)
  | VInt z => let? f := int_to_float z in Ok (format_float_2f f)
  | VBool b => let? f := int_to_float (bool_to_Z b) in Ok (format_float_2f f)
  | _ => Raise (Exn TypeError (lit "unsupported format string"))
  end.

(** [str(d)] for a [datetime.date]: ISO form [YYYY-MM-DD]. *)
Definition pad_left (n : nat) (s : pystr) : pystr :=
  replicate (n - length s) 48%N ++ s.

Definition date_isoformat (d : date) : pystr :=
  pad_left 4 (str_int (year d)) ++ lit "-" ++
  pad_left 2 (str_int (month d)) ++ lit "-" ++
  pad_left 2 (str_int (day d)).


(** [str(v)].  The text of containers and floats is left to [str_other];
    a launch date is a string or a date wherever the program prints one. *)
Definition py_str (str_other : pyval -> pystr) (v : pyval) : pystr :=
  match v with
  | VStr s => s
  | VDate d => date_isoformat d
  | VNone => lit "None"
  | VBool true => lit "True"
  | VBool false => lit "False"
  | VInt z => str_int z
  | _ => str_other v
  end.

(** ** Objects: vessels and registries *)

Abbreviation boat_ref := nat.
Abbreviation fleet_ref := nat.

(** The class of a vessel object with the attributes its subclass adds. *)
Inductive boat_class :=
| ClsBoat
| ClsCargoBoat (cargo_capacity : pyval)
| ClsMilitaryBoat (weapon_count : pyval) (is_authorised_by_gov : pyval).

Record Boat := mkBoat {
  name : pystr;
  launch_date : pyval;
  home_port : pystr;
  flag : pystr;
  current_fleet : option fleet_ref;
  fleet_history : list fleet_ref;
  current_position : pyval;
  position_logs : pyval;
  cls : boat_class
}.

Record Fleet := mkFleet {
  boats : list boat_ref;
  logs : pyval
}.

Definition isinstance_CargoBoat (b : Boat) : bool :=
  match cls b with ClsCargoBoat _ => true | _ => false end.

Definition isinstance_MilitaryBoat (b : Boat) : bool :=
  match cls b with ClsMilitaryBoat _ _ => true | _ => false end.

Definition set_current_fleet (f : option fleet_ref) (b : Boat) : Boat :=
  mkBoat (name b) (launch_date b) (home_port b) (flag b) f
    (fleet_history b) (current_position b) (position_logs b) (cls b).

Definition set_fleet_history (h : list fleet_ref) (b : Boat) : Boat :=
  mkBoat (name b) (launch_date b) (home_port b) (flag b) (current_fleet b)
    h (current_position b) (position_logs b) (cls b).

Definition set_current_position (p : pyval) (b : Boat) : Boat :=
  mkBoat (name b) (launch_date b) (home_port b) (flag b) (current_fleet b)
    (fleet_history b) p (position_logs b) (cls b).

Definition set_position_logs (p : pyval) (b : Boat) : Boat :=
  mkBoat (name b) (launch_date b) (home_port b) (flag b) (current_fleet b)
    (fleet_history b) (current_position b) p (cls b).

Definition set_cls (c : boat_class) (b : Boat) : Boat :=
  mkBoat (name b) (launch_date b) (home_port b) (flag b) (current_fleet b)
    (fleet_history b) (current_position b) (position_logs b) c.

Definition set_boats (l : list boat_ref) (f : Fleet) : Fleet :=
  mkFleet l (logs f).

Definition set_logs (l : pyval) (f : Fleet) : Fleet :=
  mkFleet (boats f) l.

(** Operations of the interpreter whose error text the program only passes
    on. *)
Inductive builtin_op :=
| OpGetAttr (attr : pystr)
| OpIter
| OpSubscript.

(** ** Construction, [to_dict] and reconstruction from a document *)

Section Vessels.

(** [datetime.fromtimestamp(t).date()]: depends on the local time zone and
    raises outside the platform's range. *)
Variable fromtimestamp_date : pyval -> res date.
Variable str_other : pyval -> pystr.
(** [str(e)] of the exception a failed builtin operation raises. *)
Variable builtin_msg : builtin_op -> pyval -> pystr.

(** [if not isinstance(v, str) or not v.strip(): raise ValueError(msg)] *)
Definition require_text (v : pyval) (msg : string) : res pystr :=
  match v with
  | VStr s =>
      match strip s with
      | [] => Raise (Exn ValueError (lit msg))
      | _ :: _ => Ok s
      end
  | _ => Raise (Exn ValueError (lit msg))
  end.

(** [Boat.__init__] *)
Definition Boat_init (name launch_date home_port flag : pyval) : res Boat :=
  let? name := require_text name "Ship name must be a non-empty string." in
  let? home_port :=
    require_text home_port "Home port must be a non-empty string." in
  let? flag := require_text flag "Flag must be a non-empty string." in
  match launch_date with
  | VNone =>
      Raise (Exn ValueError
               (lit "Launch date cannot be empty. Please input a date."))
  | _ =>
      let? launch_date :=
        if isinstance_number launch_date
        then let? d := fromtimestamp_date launch_date in Ok (VDate d)
        else Ok launch_date in
      Ok (mkBoat name launch_date home_port flag None [] VNone (VList [])
            ClsBoat)
  end.

(** [CargoBoat.__init__] *)
Definition CargoBoat_init (name launch_date home_port flag cargo_capacity : pyval)
  : res Boat :=
  let? self := Boat_init name launch_date home_port flag in
  if negb (isinstance_number cargo_capacity)
  then Raise (Exn TypeError
                (lit "Cargo capacity must be a number (int or float)."))
  else if lt_zero cargo_capacity
  then Raise (Exn ValueError
                (lit "Cargo capacity must be a positive value greater than zero."))
  else Ok (set_cls (ClsCargoBoat cargo_capacity) self).

(** [MilitaryBoat.__init__] *)
Definition MilitaryBoat_init
  (name launch_date home_port flag weapon_count is_authorised_by_gov : pyval)
  : res Boat :=
  let? self := Boat_init name launch_date home_port flag in
  if negb (isinstance_number weapon_count)
  then Raise (Exn TypeError
                (lit "Weapon count must be a number (int or float)."))
  else if lt_zero weapon_count
  then Raise (Exn ValueError
                (lit "Weapon count must be zero or a positive value."))
  else if negb (isinstance_bool is_authorised_by_gov)
  then Raise (Exn TypeError
                (lit "Authorisation status must be a boolean value (True or False)."))
  else Ok (set_cls (ClsMilitaryBoat weapon_count is_authorised_by_gov) self).

(** [Boat.to_dict] *)
Definition Boat_to_dict (self : Boat) : gmap pystr pyval :=
  <[lit "position_logs" := position_logs self]>
  (<[lit "current_position" := current_position self]>
  (<[lit "flag" := VStr (flag self)]>
  (<[lit "home_port" := VStr (home_port self)]>
  (<[lit "launch_date" := VStr (py_str str_other (launch_date self))]>
  (<[lit "name" := VStr (name self)]> ∅))))).

(** [to_dict] as dispatched on the class of [self]: [CargoBoat.to_dict] and
    [MilitaryBoat.to_dict] extend the dictionary of [Boat.to_dict]. *)
Definition to_dict (self : Boat) : pyval :=
  let base_dict := Boat_to_dict self in
  match cls self with
  | ClsBoat => VDict base_dict
  | ClsCargoBoat cargo_capacity =>
      VDict (<[lit "cargo_capacity" := cargo_capacity]> base_dict)
  | ClsMilitaryBoat weapon_count is_authorised_by_gov =>
      VDict (<[lit "is_authorised_by_gov" := is_authorised_by_gov]>
             (<[lit "weapon_count" := weapon_count]> base_dict))
  end.

(** [boat_data[key]] on a dictionary. *)
Definition getitem (boat_data : gmap pystr pyval) (key : string) : res pyval :=
  match boat_data !! lit key with
  | Some v => Ok v
  | None => Raise (Exn KeyError (lit "'" ++ lit key ++ lit "'"))
  end.

(** [key in boat_data] on a dictionary. *)
Definition has_key (boat_data : gmap pystr pyval) (key : string) : bool :=
  bool_decide (is_Some (boat_data !! lit key)).

(** The body of the loop of [Fleet.load_from_file] up to the restored
    position data: the vessel rebuilt from one document. *)
Definition from_dict (boat_data : pyval) : res Boat :=
  match boat_data with
  | VDict boat_data =>
      let? launch_date := getitem boat_data "launch_date" in
      let? boat :=
        if has_key boat_data "cargo_capacity" then
          let? name := getitem boat_data "name" in
          let? home_port := getitem boat_data "home_port" in
          let? flag := getitem boat_data "flag" in
          let? cargo_capacity := getitem boat_data "cargo_capacity" in
          CargoBoat_init name launch_date home_port flag cargo_capacity
        else if has_key boat_data "weapon_count" then
          let? name := getitem boat_data "name" in
          let? home_port := getitem boat_data "home_port" in
          let? flag := getitem boat_data "flag" in
          let? weapon_count := getitem boat_data "weapon_count" in
          let? is_authorised_by_gov :=
            getitem boat_data "is_authorised_by_gov" in
          MilitaryBoat_init name launch_date home_port flag weapon_count
            is_authorised_by_gov
        else
          let? name := getitem boat_data "name" in
          let? home_port := getitem boat_data "home_port" in
          let? flag := getitem boat_data "flag" in
          Boat_init name launch_date home_port flag in
      let boat :=
        match boat_data !! lit "current_position" with
        | Some p => set_current_position p boat
        | None => boat
        end in
      let boat :=
        match boat_data !! lit "position_logs" with
        | Some p => set_position_logs p boat
        | None => boat
        end in
      Ok boat
  | _ => Raise (Exn TypeError (builtin_msg OpSubscript boat_data))
  end.

End Vessels.

(** ** The object store and the monad of methods *)

Record world := mkWorld {
  boat_objs : list Boat;
  fleet_objs : list Fleet;
  (** number of times the clock has been read *)
  ticks : nat
}.

(** What [open("fleet_data.json")] followed by [json.load] finds. *)
Inductive file_state :=
| NoFile
| BadFile (e : exn)
| JsonFile (data : pyval).

(** The argument of [add_boat]: any object. *)
Inductive pyobj :=
| OBoat (b : boat_ref)
| OFleet (f : fleet_ref)
| OVal (v : pyval).

Definition M (A : Type) : Type := world -> res A * world.

Definition ret {A} (a : A) : M A := fun w => (Ok a, w).

Definition bind {A B} (m : M A) (k : A -> M B) : M B :=
  fun w =>
    match m w with
    | (Ok a, w') => k a w'
    | (Raise e, w') => (Raise e, w')
    end.

Definition lift {A} (r : res A) : M A := fun w => (r, w).

(** [try: m  except ... as e: h e] *)
Definition try_except {A} (m : M A) (h : exn -> M A) : M A :=
  fun w =>
    match m w with
    | (Ok a, w') => (Ok a, w')
    | (Raise e, w') => h e w'
    end.

Notation "x <- m ;; k" := (bind m (fun x => k))
  (at level 100, m at level 99, k at level 200, right associativity).
Notation "m ;;; k" := (bind m (fun _ => k))
  (at level 100, k at level 200, right associativity).

Definition get_world : M world := fun w => (Ok w, w).

Definition no_boat : Boat := mkBoat [] VNone [] [] None [] VNone VNone ClsBoat.
Definition no_fleet : Fleet := mkFleet [] VNone.

(** Dereferencing.  Every reference the program holds points to a live
    object; the default is never read on such references. *)
Definition boat_at (w : world) (b : boat_ref) : Boat :=
  default no_boat (boat_objs w !! b).

Definition fleet_at (w : world) (f : fleet_ref) : Fleet :=
  default no_fleet (fleet_objs w !! f).

(** Assignment to attributes of the object behind a reference. *)
Definition upd_boat (b : boat_ref) (g : Boat -> Boat) (w : world) : world :=
  mkWorld (alter g b (boat_objs w)) (fleet_objs w) (ticks w).

Definition upd_fleet (f : fleet_ref) (g : Fleet -> Fleet) (w : world) : world :=
  mkWorld (boat_objs w) (alter g f (fleet_objs w)) (ticks w).

Definition tick (w : world) : world :=
  mkWorld (boat_objs w) (fleet_objs w) (S (ticks w)).

Definition update_boat (b : boat_ref) (g : Boat -> Boat) : M unit :=
  fun w => (Ok tt, upd_boat b g w).

Definition update_fleet (f : fleet_ref) (g : Fleet -> Fleet) : M unit :=
  fun w => (Ok tt, upd_fleet f g w).

(** A new object gets the next free reference. *)
Definition alloc_boat (b : Boat) : M boat_ref :=
  fun w => (Ok (length (boat_objs w)),
            mkWorld (boat_objs w ++ [b]) (fleet_objs w) (ticks w)).

Definition alloc_fleet (f : Fleet) : M fleet_ref :=
  fun w => (Ok (length (fleet_objs w)),
            mkWorld (boat_objs w) (fleet_objs w ++ [f]) (ticks w)).

(** [l.remove(x)]: the first occurrence goes. *)
Fixpoint list_remove (x : nat) (l : list nat) : list nat :=
  match l with
  | [] => []
  | y :: l' => if decide (x = y) then l' else y :: list_remove x l'
  end.

(** [l.sort(key=...)] is a stable sort, and the result of a stable sort is
    determined by the list and the order of the keys: insertion from the
    right, each element going before the first one that is not smaller. *)
Fixpoint sort_insert {A} (key : A -> pystr) (x : A) (l : list A) : list A :=
  match l with
  | [] => [x]
  | y :: l' =>
      if str_leb (key x) (key y) then x :: y :: l'
      else y :: sort_insert key x l'
  end.

Fixpoint list_sort {A} (key : A -> pystr) (l : list A) : list A :=
  match l with
  | [] => []
  | x :: l' => sort_insert key x (list_sort key l')
  end.

Definition emoji_check : pystr := [9989%N].
Definition emoji_cross : pystr := [10060%N].
Definition emoji_repeat : pystr := [128257%N].
Definition emoji_pin : pystr := [128205%N].
Definition emoji_chart : pystr := [128202%N].
Definition emoji_info : pystr := [8505%N; 65039%N].

Section Registry.

Variable fromtimestamp_date : pyval -> res date.
Variable builtin_msg : builtin_op -> pyval -> pystr.
(** [datetime.now().strftime("%Y-%m-%d %H:%M:%S")] at the n-th reading of
    the clock. *)
Variable strftime_now : nat -> pystr.

Definition now : M pystr :=
  fun w => (Ok (strftime_now (ticks w)), tick w).

(** [f"[{timestamp}] {message}"] *)
Definition format_entry (timestamp message : pystr) : pystr :=
  lit "[" ++ timestamp ++ lit "] " ++ message.

(** [Fleet.__init__] *)
Definition Fleet_init : M fleet_ref := alloc_fleet (mkFleet [] (VList [])).

(** [obj.append(x)] on the value of an attribute. *)
Definition py_append (obj x : pyval) : res pyval :=
  match obj with
  | VList l => Ok (VList (l ++ [x]))
  | _ => Raise (Exn AttributeError (builtin_msg (OpGetAttr (lit "append")) obj))
  end.

(** [Fleet.record_log] *)
Definition record_log (self : fleet_ref) (message : pystr) : M unit :=
  timestamp <- now ;;
  let entry := format_entry timestamp message in
  w <- get_world ;;
  logs' <- lift (py_append (logs (fleet_at w self)) (VStr entry)) ;;
  update_fleet self (set_logs logs').

(** [Boat.log_position] *)
Definition log_position (self : boat_ref) (position : pystr) : M pystr :=
  timestamp <- now ;;
  update_boat self (set_current_position (VStr position)) ;;;
  let log_entry := format_entry timestamp (lit "Position: " ++ position) in
  w <- get_world ;;
  logs' <- lift (py_append (position_logs (boat_at w self)) (VStr log_entry)) ;;
  update_boat self (set_position_logs logs') ;;;
  ret (emoji_pin ++ lit " " ++ name (boat_at w self)
       ++ lit " position logged: " ++ position).

(** [Fleet.add_boat] *)
Definition add_boat (self : fleet_ref) (boat : pyobj) : M pystr :=
  match boat with
  | OBoat boat =>
      update_fleet self (fun f => set_boats (boats f ++ [boat]) f) ;;;
      update_boat boat (set_current_fleet (Some self)) ;;;
      update_boat boat (fun b => set_fleet_history (fleet_history b ++ [self]) b) ;;;
      w <- get_world ;;
      record_log self (name (boat_at w boat) ++ lit " joined the fleet.") ;;;
      ret (emoji_check ++ lit " " ++ name (boat_at w boat)
           ++ lit " successfully added to fleet")
  | _ => ret (emoji_cross ++ lit " Only Boat objects can be added.")
  end.

(** [Fleet.sort_boats]; the argument [by] is not read. *)
Definition sort_boats (self : fleet_ref) (by_ : pyval) : M pystr :=
  w <- get_world ;;
  match boats (fleet_at w self) with
  | [] => ret (lit "Empty fleet, no boats to sort")
  | _ :: _ =>
      update_fleet self
        (fun f => set_boats (list_sort (fun boat => name (boat_at w boat)) (boats f)) f) ;;;
      ret (emoji_check ++ lit " Fleet sorted by ship name.")
  end.

(** [Fleet.transfer_boat] *)
Definition transfer_boat (self : fleet_ref) (boat : boat_ref) (new_fleet : fleet_ref)
  : M pystr :=
  w <- get_world ;;
  let boat_name := name (boat_at w boat) in
  if negb (bool_decide (boat ∈ boats (fleet_at w self)))
  then ret (emoji_cross ++ lit " " ++ boat_name ++ lit " not found in this fleet.")
  else
    update_fleet self (fun f => set_boats (list_remove boat (boats f)) f) ;;;
    record_log self (boat_name ++ lit " left this fleet for another.") ;;;
    add_boat new_fleet (OBoat boat) ;;;
    record_log self (boat_name ++ lit " transferred to new fleet.") ;;;
    ret (emoji_repeat ++ lit " " ++ boat_name ++ lit " transferred successfully.").

(** [Fleet.remove_boat] *)
Definition remove_boat (self : fleet_ref) (boat : boat_ref) : M pystr :=
  w <- get_world ;;
  let boat_name := name (boat_at w boat) in
  if negb (bool_decide (boat ∈ boats (fleet_at w self)))
  then ret (emoji_cross ++ lit " " ++ boat_name ++ lit " not found in this fleet.")
  else
    update_fleet self (fun f => set_boats (list_remove boat (boats f)) f) ;;;
    update_boat boat (set_current_fleet None) ;;;
    record_log self (boat_name ++ lit " was removed from the fleet.") ;;;
    ret (emoji_check ++ lit " " ++ boat_name ++ lit " successfully removed from fleet").

(** [Fleet.record_arrival] *)
Definition record_arrival (self : fleet_ref) (boat : boat_ref) (location : pystr)
  : M pystr :=
  w <- get_world ;;
  let boat_name := name (boat_at w boat) in
  if negb (bool_decide (boat ∈ boats (fleet_at w self)))
  then ret (emoji_cross ++ lit " " ++ boat_name ++ lit " is not in this fleet.")
  else
    record_log self (boat_name ++ lit " arrived at " ++ location ++ lit ".") ;;;
    ret (emoji_pin ++ lit " " ++ boat_name ++ lit " arrival recorded at "
         ++ location ++ lit ".").

(** The [cargo_capacity] of the cargo vessels among [bs], in order. *)
Fixpoint cargo_capacities (bs : list Boat) : list pyval :=
  match bs with
  | [] => []
  | b :: bs' =>
      match cls b with
      | ClsCargoBoat cargo_capacity => cargo_capacity :: cargo_capacities bs'
      | _ => cargo_capacities bs'
      end
  end.

Definition count (p : Boat -> bool) (bs : list Boat) : Z :=
  Z.of_nat (length (List.filter p bs)).

(** [Fleet.generate_status_report] *)
Definition generate_status_report (self : fleet_ref) : M pystr :=
  w <- get_world ;;
  let bs := map (boat_at w) (boats (fleet_at w self)) in
  match bs with
  | [] =>
      ret (emoji_chart ++ lit " Fleet Status Report:" ++ nl ++ nl
           ++ lit "Fleet is currently empty.")
  | _ :: _ =>
      let total_boats := Z.of_nat (length bs) in
      let cargo_boats := count isinstance_CargoBoat bs in
      let military_boats := count isinstance_MilitaryBoat bs in
      let regular_boats := (total_boats - cargo_boats - military_boats)%Z in
      let report :=
        emoji_chart ++ lit " Fleet Status Report:" ++ nl ++ nl
        ++ lit "Total Boats: " ++ str_int total_boats ++ nl
        ++ lit "Regular Boats: " ++ str_int regular_boats ++ nl
        ++ lit "Cargo Boats: " ++ str_int cargo_boats ++ nl
        ++ lit "Military Boats: " ++ str_int military_boats ++ nl in
      if (0 <? cargo_boats)%Z then
        total_cargo_capacity <- lift (py_sum (cargo_capacities bs)) ;;
        text <- lift (format_2f total_cargo_capacity) ;;
        ret (report ++ lit "Total Cargo Capacity: " ++ text ++ lit " tons" ++ nl)
      else ret report
  end.

(** [data.get(key, [])] *)
Definition dict_get (data : pyval) (key : string) : res pyval :=
  match data with
  | VDict d => Ok (default (VList []) (d !! lit key))
  | _ => Raise (Exn AttributeError (builtin_msg (OpGetAttr (lit "get")) data))
  end.

(** The items a [for] loop draws from a value. *)
Definition py_iter (v : pyval) : res (list pyval) :=
  match v with
  | VList l => Ok l
  | VStr s => Ok (map (fun c => VStr [c]) s)
  | VDict d => Ok (map (fun kv => VStr (fst kv)) (map_to_list d))
  | _ => Raise (Exn TypeError (builtin_msg OpIter v))
  end.

Fixpoint for_each {A} (items : list A) (body : A -> M unit) : M unit :=
  match items with
  | [] => ret tt
  | x :: items' => body x ;;; for_each items' body
  end.

(** [open(filename, 'r')] and [json.load(f)] *)
Definition read_json (file : file_state) : res pyval :=
  match file with
  | NoFile =>
      Raise (Exn FileNotFoundError
               (lit "[Errno 2] No such file or directory: 'fleet_data.json'"))
  | BadFile e => Raise e
  | JsonFile data => Ok data
  end.

(** One round of the loop of [load_from_file]. *)
Definition load_boat (self : fleet_ref) (boat_data : pyval) : M unit :=
  boat <- lift (from_dict fromtimestamp_date builtin_msg boat_data) ;;
  boat <- alloc_boat boat ;;
  update_fleet self (fun f => set_boats (boats f ++ [boat]) f) ;;;
  update_boat boat (set_current_fleet (Some self)) ;;;
  update_boat boat (fun b => set_fleet_history (fleet_history b ++ [self]) b).

(** The two [except] clauses of [load_from_file]. *)
Definition load_except (e : exn) : M pystr :=
  match exn_cls e with
  | FileNotFoundError =>
      ret (emoji_info
           ++ lit " No saved fleet data found. Starting with empty fleet.")
  | _ => ret (emoji_cross ++ lit " Error loading fleet data: " ++ exn_msg e)
  end.

(** [Fleet.load_from_file] *)
Definition load_from_file (file : file_state) (self : fleet_ref) : M pystr :=
  try_except
    (data <- lift (read_json file) ;;
     update_fleet self (set_boats []) ;;;
     logs' <- lift (dict_get data "logs") ;;
     update_fleet self (set_logs logs') ;;;
     boats' <- lift (dict_get data "boats") ;;
     items <- lift (py_iter boats') ;;
     for_each items (load_boat self) ;;;
     w <- get_world ;;
     ret (emoji_check ++ lit " Loaded "
          ++ str_int (Z.of_nat (length (boats (fleet_at w self))))
          ++ lit " boats from fleet_data.json"))
    load_except.

End Registry.

(** ** Display, search and the handlers of the interface *)

Definition emoji_notepad : pystr := [128466%N; 65039%N].
Definition emoji_magnifier : pystr := [128269%N].

(** The truth value of an object, as [if x] and [not x] take it. *)
Definition truthy (v : pyval) : bool :=
  match v with
  | VNone => false
  | VBool b => b
  | VInt z => negb (z =? 0)%Z
  | VFloat (S754_zero _) => false
  | VFloat _ => true
  | VStr [] => false
  | VStr (_ :: _) => true
  | VDate _ => true
  | VList [] => false
  | VList (_ :: _) => true
  | VDict d => negb (Nat.eqb (size d) 0)
  end.

(** [x or y] *)
Definition py_or (x y : pyval) : pyval := if truthy x then x else y.

(** [s == v] for a string [s] and any object [v]. *)
Definition str_eq (s : pystr) (v : pyval) : bool :=
  match v with
  | VStr t => bool_decide (s = t)
  | _ => false
  end.

(** [sub in s] computed: [sub] starts [s], or occurs further on. *)
Fixpoint starts_with (sub s : pystr) : bool :=
  match sub, s with
  | [], _ => true
  | _ :: _, [] => false
  | x :: sub', y :: s' => (x =? y)%N && starts_with sub' s'
  end.

Fixpoint str_in (sub s : pystr) : bool :=
  match s with
  | [] => starts_with sub []
  | _ :: s' => starts_with sub s || str_in sub s'
  end.

(** [sep.join(items)] on strings. *)
Fixpoint join_strs (sep : pystr) (items : list pystr) : pystr :=
  match items with
  | [] => []
  | [x] => x
  | x :: rest => x ++ sep ++ join_strs sep rest
  end.

(** [except ValueError] also catches the subclasses of [ValueError]. *)
Definition is_ValueError (c : exn_class) : bool :=
  match c with
  | ValueError | JSONDecodeError => true
  | _ => false
  end.

(** The choices of the ship type dropdown. *)
Inductive ship_type :=
| TypeBoat
| TypeCargoShip
| TypeMilitaryBoat.

Section Display.

Variable fromtimestamp_date : pyval -> res date.
(** [datetime.fromisoformat(s).date()] *)
Variable fromisoformat_date : pystr -> res date.
Variable str_other : pyval -> pystr.
(** [s.lower()] *)
Variable str_lower : pystr -> pystr.
Variable builtin_msg : builtin_op -> pyval -> pystr.
(** [str(e)] of the [TypeError] of [join] for item [i] that is no string. *)
Variable item_msg : nat -> pyval -> pystr.
Variable strftime_now : nat -> pystr.

(** The strings among [items] from index [i] on, or the [TypeError] for the
    first item that is none. *)
Fixpoint str_items (i : nat) (items : list pyval) : res (list pystr) :=
  match items with
  | [] => Ok []
  | VStr s :: rest => let? t := str_items (S i) rest in Ok (s :: t)
  | x :: _ => Raise (Exn TypeError (item_msg i x))
  end.

(** [sep.join(v)] for any object [v]. *)
Definition str_join (sep : pystr) (v : pyval) : res pystr :=
  let? items := py_iter builtin_msg v in
  let? strs := str_items 0 items in
  Ok (join_strs sep strs).

(** [Boat.get_position_history] *)
Definition get_position_history (self : boat_ref) : M pystr :=
  w <- get_world ;;
  let b := boat_at w self in
  if negb (truthy (position_logs b))
  then ret (emoji_notepad ++ lit " No position logs recorded for "
            ++ name b ++ lit ".")
  else
    text <- lift (str_join nl (position_logs b)) ;;
    ret (emoji_pin ++ lit " Position History for " ++ name b ++ lit ":" ++ nl
         ++ text).

(** [Fleet.show_logs] *)
Definition show_logs (self : fleet_ref) : M pystr :=
  w <- get_world ;;
  if negb (truthy (logs (fleet_at w self)))
  then ret (emoji_notepad ++ lit " No logs recorded yet.")
  else lift (str_join nl (logs (fleet_at w self))).

(** The launch date as [Boat.__repr__] prints it. *)
Definition repr_launch_date (launch_date : pyval) : res pyval :=
  match launch_date with
  | VBool _ | VInt _ | VFloat _ =>
      let? d := fromtimestamp_date launch_date in Ok (VStr (date_isoformat d))
  | VStr s =>
      match fromisoformat_date s with
      | Ok d => Ok (VStr (date_isoformat d))
      | Raise e => if is_ValueError (exn_cls e) then Ok (VStr s) else Raise e
      end
  | _ => Ok launch_date
  end.

(** [Boat.__repr__] *)
Definition Boat_repr (self : Boat) : res pystr :=
  let? launch_date := repr_launch_date (launch_date self) in
  let position_info :=
    if truthy (current_position self)
    then lit "Current Position: " ++ py_str str_other (current_position self)
    else lit "Current Position: Unknown" in
  Ok (lit "Ship Name: " ++ name self ++ nl
      ++ lit "Launch Date: " ++ py_str str_other launch_date ++ nl
      ++ lit "Home Port: " ++ home_port self ++ nl
      ++ lit "Flag: " ++ flag self ++ nl
      ++ position_info).

(** [str(b)]: [__repr__] as dispatched on the class of [self]. *)
Definition repr (self : Boat) : res pystr :=
  match cls self with
  | ClsBoat => Boat_repr self
  | ClsCargoBoat cargo_capacity =>
      let? base_info := Boat_repr self in
      let? text := format_2f cargo_capacity in
      Ok (base_info ++ nl ++ lit "Cargo Capacity: " ++ text ++ lit " tons")
  | ClsMilitaryBoat weapon_count is_authorised_by_gov =>
      let? base_info := Boat_repr self in
      Ok (base_info ++ nl
          ++ lit "Weapon Count: " ++ py_str str_other weapon_count ++ nl
          ++ lit "Authorised by Government: "
          ++ py_str str_other is_authorised_by_gov)
  end.

(** [str(b) for b in bs], drawn to the end or to the first exception. *)
Fixpoint reprs (bs : list Boat) : res (list pystr) :=
  match bs with
  | [] => Ok []
  | b :: bs' => let? s := repr b in let? t := reprs bs' in Ok (s :: t)
  end.

(** [Fleet.list_boats] *)
Definition list_boats (self : fleet_ref) : M pystr :=
  w <- get_world ;;
  match boats (fleet_at w self) with
  | [] => ret (lit "The fleet is empty!")
  | bs =>
      texts <- lift (reprs (map (boat_at w) bs)) ;;
      ret (join_strs (nl ++ nl) texts)
  end.

(** The test of the comprehension in [filter_boats]. *)
Definition matches (keyword : pystr) (b : Boat) : bool :=
  str_in (str_lower keyword) (str_lower (name b))
  || str_in (str_lower keyword) (str_lower (home_port b))
  || str_in (str_lower keyword) (str_lower (flag b)).

(** [Fleet.filter_boats] *)
Definition filter_boats (self : fleet_ref) (keyword : pystr) : M pystr :=
  w <- get_world ;;
  match boats (fleet_at w self) with
  | [] => ret (lit "Fleet is empty, no boats to filter.")
  | bs =>
      let results := List.filter (matches keyword) (map (boat_at w) bs) in
      match results with
      | [] => ret (lit "No results found for " ++ keyword ++ lit ".")
      | _ :: _ =>
          texts <- lift (reprs results) ;;
          ret (join_strs (nl ++ nl) texts)
      end
  end.

(** The constructor call that [add_and_update] makes for a ship type. *)
Definition construct (ship_type : ship_type)
  (name launch_date location flag cargo_capacity weapon_count gov_auth : pyval)
  : res Boat :=
  match ship_type with
  | TypeBoat => Boat_init fromtimestamp_date name launch_date location flag
  | TypeCargoShip =>
      CargoBoat_init fromtimestamp_date name launch_date location flag
        (py_or cargo_capacity (VInt 1000))
  | TypeMilitaryBoat =>
      MilitaryBoat_init fromtimestamp_date name launch_date location flag
        (py_or weapon_count (VInt 0)) gov_auth
  end.

(** [add_and_update]: the new text of the console and the echoed inputs. *)
Definition add_and_update (registry : fleet_ref)
  (name location flag launch_date : pyval) (ship_type : ship_type)
  (cargo_capacity weapon_count gov_auth : pyval) (current_log : pystr)
  : M (pystr * list pyval) :=
  result <-
    try_except
      (new_boat <- lift (construct ship_type name launch_date location flag
                           cargo_capacity weapon_count gov_auth) ;;
       new_boat <- alloc_boat new_boat ;;
       add_boat builtin_msg strftime_now registry (OBoat new_boat))
      (fun e => ret (emoji_cross ++ lit " Error adding ship: " ++ exn_msg e)) ;;
  ret (current_log ++ nl ++ lit "> " ++ result,
       [name; location; flag; launch_date; cargo_capacity; weapon_count;
        gov_auth]).

(** The loop of the handlers that look a ship up by name: the first vessel
    of the registry with that name. *)
Fixpoint find_ship (w : world) (ship_name : pyval) (bs : list boat_ref)
  : option boat_ref :=
  match bs with
  | [] => None
  | boat :: bs' =>
      if str_eq (name (boat_at w boat)) ship_name then Some boat
      else find_ship w ship_name bs'
  end.

Definition not_found (ship_name : pyval) : pystr :=
  emoji_cross ++ lit " Ship '" ++ py_str str_other ship_name
  ++ lit "' not found in fleet.".

(** [record_arrival_and_update] *)
Definition record_arrival_and_update (registry : fleet_ref)
  (ship_name : pyval) (location current_log : pystr) : M pystr :=
  result <-
    (if negb (truthy ship_name) || negb (truthy (VStr location))
     then ret (emoji_cross ++ lit " Please select a ship and enter a location.")
     else
       w <- get_world ;;
       match find_ship w ship_name (boats (fleet_at w registry)) with
       | Some selected_ship =>
           record_arrival builtin_msg strftime_now registry selected_ship
             location
       | None => ret (not_found ship_name)
       end) ;;
  ret (current_log ++ nl ++ lit "> " ++ result).

(** [log_position_and_update] *)
Definition log_position_and_update (registry : fleet_ref)
  (ship_name : pyval) (position current_log : pystr) : M pystr :=
  result <-
    (if negb (truthy ship_name) || negb (truthy (VStr position))
     then ret (emoji_cross ++ lit " Please select a ship and enter a position.")
     else
       w <- get_world ;;
       match find_ship w ship_name (boats (fleet_at w registry)) with
       | Some selected_ship =>
           log_position builtin_msg strftime_now selected_ship position
       | None => ret (not_found ship_name)
       end) ;;
  ret (current_log ++ nl ++ lit "> " ++ result).

(** [view_position_history_and_update] *)
Definition view_position_history_and_update (registry : fleet_ref)
  (ship_name : pyval) (current_log : pystr) : M pystr :=
  result <-
    (if negb (truthy ship_name)
     then ret (emoji_cross ++ lit " Please select a ship to view history.")
     else
       w <- get_world ;;
       match find_ship w ship_name (boats (fleet_at w registry)) with
       | Some selected_ship => get_position_history selected_ship
       | None => ret (not_found ship_name)
       end) ;;
  ret (current_log ++ nl ++ nl ++ result ++ nl).

(** [remove_boat_and_update] *)
Definition remove_boat_and_update (registry : fleet_ref)
  (ship_name : pyval) (current_log : pystr) : M pystr :=
  result <-
    (if negb (truthy ship_name)
     then ret (emoji_cross ++ lit " Please select a ship to remove.")
     else
       w <- get_world ;;
       match find_ship w ship_name (boats (fleet_at w registry)) with
       | Some selected_ship =>
           remove_boat builtin_msg strftime_now registry selected_ship
       | None => ret (not_found ship_name)
       end) ;;
  ret (current_log ++ nl ++ lit "> " ++ result).

(** [filter_and_update] *)
Definition filter_and_update (registry : fleet_ref)
  (keyword current_log : pystr) : M pystr :=
  result <-
    (if negb (truthy (VStr keyword)) || negb (truthy (VStr (strip keyword)))
     then ret (emoji_cross ++ lit " Please enter a keyword to filter by.")
     else filter_boats registry (strip keyword)) ;;
  ret (current_log ++ nl ++ nl ++ emoji_magnifier
       ++ lit " Filter Results for '" ++ keyword ++ lit "':" ++ nl
       ++ result ++ nl).

(** The document that [save_to_file] hands to [json.dump]; [today] is
    [str(date.today())]. *)
Definition save_data (today : pystr) (w : world) (self : fleet_ref) : pyval :=
  VDict (<[lit "saved_date" := VStr today]>
         (<[lit "logs" := logs (fleet_at w self)]>
         (<[lit "boats" :=
              VList (map (fun boat => to_dict str_other (boat_at w boat))
                       (boats (fleet_at w self)))]> ∅))).

End Display.

(** * Properties *)

(** ** Construction *)

(** The shape [YYYY-MM-DD] that [str] gives a date and that
    [datetime.fromisoformat] reads back. *)
Definition is_digit (c : N) : bool := ((48 <=? c) && (c <=? 57))%N.

Definition iso_date_shape (s : pystr) : bool :=
  match s with
  | [y1; y2; y3; y4; d1; m1; m2; d2; a1; a2] =>
      forallb is_digit [y1; y2; y3; y4; m1; m2; a1; a2]
      && (d1 =? 45)%N && (d2 =? 45)%N
  | _ => false
  end.

(** Not part of the program: the launch dates that the specification calls
    interpretable as a date (a date value, a numeric timestamp, or an
    ISO-formatted string), to compare with what [Boat.__init__] accepts. *)
Definition spec_interpretable_as_date (v : pyval) : bool :=
  match v with
  | VDate _ => true
  | VInt _ | VFloat _ => true
  | VStr s => iso_date_shape s
  | _ => false
  end.

(** A string that passes [isinstance(v, str) and v.strip()]. *)
Definition valid_text (s : pystr) : Prop := strip s <> [].

(** The sign of a number, read off its representation. *)
Definition is_negative (v : pyval) : bool :=
  match v with
  | VInt z => (z <? 0)%Z
  | VFloat (S754_infinity true) => true
  | VFloat (S754_finite true _ _) => true
  | _ => false
  end.

Definition is_zero_or_positive (v : pyval) : bool :=
  match v with
  | VBool _ => true
  | VInt z => (0 <=? z)%Z
  | VFloat (S754_zero _) => true
  | VFloat (S754_infinity false) => true
  | VFloat (S754_finite false _ _) => true
  | _ => false
  end.

(** What a constructor establishes about the attributes of its subclass. *)
Definition valid_cls (c : boat_class) : Prop :=
  match c with
  | ClsBoat => True
  | ClsCargoBoat cargo_capacity =>
      isinstance_number cargo_capacity = true /\ lt_zero cargo_capacity = false
  | ClsMilitaryBoat weapon_count is_authorised_by_gov =>
      isinstance_number weapon_count = true /\ lt_zero weapon_count = false
      /\ isinstance_bool is_authorised_by_gov = true
  end.

(** What every constructor establishes about the object it returns. *)
Record valid_boat (b : Boat) : Prop := {
  valid_name : valid_text (name b);
  valid_home_port : valid_text (home_port b);
  valid_flag : valid_text (flag b);
  valid_launch_date :
    launch_date b <> VNone /\ isinstance_number (launch_date b) = false;
  valid_boat_cls : valid_cls (cls b)
}.

(** The vessel [from_dict] rebuilds from [to_dict b]: unbound, and with the
    launch date in its string form. *)
Definition restored (str_other : pyval -> pystr) (b : Boat) : Boat :=
  mkBoat (name b) (VStr (py_str str_other (launch_date b))) (home_port b)
    (flag b) None [] (current_position b) (position_logs b) (cls b).

(** Sample surroundings on which the statements below are run: a platform
    whose local zone is UTC and that converts the timestamps of the first
    day of the epoch only, a clock that counts its readings, and fixed
    texts for what the interpreter prints. *)
Definition sample_fromtimestamp (t : pyval) : res date :=
  match t with
  | VInt z =>
      if ((0 <=? z) && (z <? 86400))%Z then Ok (mkDate 1970 1 1)
      else Raise (Exn OverflowError (lit "timestamp out of range"))
  | _ => Raise (Exn OverflowError (lit "timestamp out of range"))
  end.

Definition sample_str_other (v : pyval) : pystr := lit "<object>".

Definition sample_builtin_msg (op : builtin_op) (v : pyval) : pystr :=
  lit "unsupported operation".

Definition sample_clock (n : nat) : pystr :=
  lit "2024-01-01 00:00:" ++ pad_left 2 (str_int (Z.of_nat n)).

Definition txt (s : string) : pyval := VStr (lit s).

Definition float_500 : spec_float := S754_finite false 8796093022208000 (-44).

(** ** Registries: what the methods leave behind *)

(** [self.logs.append(entry)] on a registry whose [logs] is a list. *)
Definition push_log (entry : pystr) (f : Fleet) : Fleet :=
  match logs f with
  | VList l => set_logs (VList (l ++ [VStr entry])) f
  | _ => f
  end.

(** The three assignments with which [add_boat] and [load_from_file] bind
    a vessel to the registry [self]. *)
Definition bound_to (self : fleet_ref) (b : Boat) : Boat :=
  set_fleet_history (fleet_history b ++ [self])
    (set_current_fleet (Some self) b).

Definition append_boat (boat : boat_ref) (f : Fleet) : Fleet :=
  set_boats (boats f ++ [boat]) f.

Definition drop_boat (boat : boat_ref) (f : Fleet) : Fleet :=
  set_boats (list_remove boat (boats f)) f.

(** The registry has a list as its [logs], as [Fleet.__init__] leaves it. *)
Definition has_log_list (w : world) (f : fleet_ref) : Prop :=
  exists l, logs (fleet_at w f) = VList l.

(** An entry of the log [v] contains the text [sub]. *)
Definition log_mentions (v : pyval) (sub : pystr) : Prop :=
  exists l e, v = VList l /\ VStr e ∈ l /\ contains sub e.

(** The [current_fleet] of the vessel behind [b] is unset or refers to a
    registry that has [b] among its [boats]. *)
Definition vessel_bound_ok (w : world) (b : boat_ref) : Prop :=
  forall B f,
    boat_objs w !! b = Some B -> current_fleet B = Some f ->
    exists F, fleet_objs w !! f = Some F /\ b ∈ boats F.

Definition membership_invariant (w : world) : Prop :=
  forall b, vessel_bound_ok w b.

(** [x] is in [l] exactly once. *)
Definition occurs_once (x : nat) (l : list nat) : Prop :=
  exists l1 l2, l = l1 ++ x :: l2 /\ (x ∉ l1) /\ (x ∉ l2).

(** The four count lines of the status report, below its heading. *)
Definition counts_text (total regular cargo military : Z) : pystr :=
  emoji_chart ++ lit " Fleet Status Report:" ++ nl ++ nl
  ++ lit "Total Boats: " ++ str_int total ++ nl
  ++ lit "Regular Boats: " ++ str_int regular ++ nl
  ++ lit "Cargo Boats: " ++ str_int cargo ++ nl
  ++ lit "Military Boats: " ++ str_int military ++ nl.

(** A vessel of the base class itself. *)
Definition is_regular (b : Boat) : bool :=
  match cls b with ClsBoat => true | _ => false end.


(** The answers of [load_from_file] on success and on a missing file. *)
Definition loaded_message (n : nat) : pystr :=
  emoji_check ++ lit " Loaded " ++ str_int (Z.of_nat n)
  ++ lit " boats from fleet_data.json".

Definition no_saved_data : pystr :=
  emoji_info ++ lit " No saved fleet data found. Starting with empty fleet.".

Definition load_succeeded (r : res pystr) : Prop :=
  exists n, r = Ok (loaded_message n).

(** The world after the loop of [load_from_file] has rebuilt the vessels
    [bs]: they are new objects, bound to [self] and appended to its
    [boats] in the order of the document. *)
Definition loaded_world (self : fleet_ref) (bs : list Boat) (w : world) : world :=
  mkWorld (boat_objs w ++ map (bound_to self) bs)
    (alter (fun f => set_boats
                       (boats f ++ seq (length (boat_objs w)) (length bs)) f)
       self (fleet_objs w))
    (ticks w).

(** The value under [key] in the parsed document, [[]] if there is none. *)
Definition document_field (d : gmap pystr pyval) (key : string) : pyval :=
  default (VList []) (d !! lit key).

(** The calls of a session on a fixed set of registries and vessels. *)
Inductive call :=
| CallAdd (self : fleet_ref) (boat : boat_ref)
| CallRemove (self : fleet_ref) (boat : boat_ref)
| CallTransfer (self : fleet_ref) (boat : boat_ref) (new_fleet : fleet_ref).

Definition call_in_range (nfleets nboats : nat) (c : call) : Prop :=
  match c with
  | CallAdd self boat => self < nfleets /\ boat < nboats
  | CallRemove self boat => self < nfleets /\ boat < nboats
  | CallTransfer self boat new_fleet =>
      self < nfleets /\ boat < nboats /\ new_fleet < nfleets
  end.

(** [nfleets] registries as [Fleet()] creates them and the given vessels. *)
Definition fresh_world (nfleets : nat) (vessels : list Boat) : world :=
  mkWorld vessels (replicate nfleets (mkFleet [] (VList []))) 0.

Section Sessions.

Variable builtin_msg : builtin_op -> pyval -> pystr.
Variable strftime_now : nat -> pystr.

(** The world after [record_log] on a registry with a list of logs. *)
Definition logged (self : fleet_ref) (message : pystr) (w : world) : world :=
  upd_fleet self (push_log (format_entry (strftime_now (ticks w)) message))
    (tick w).

(** The world after a successful [add_boat]. *)
Definition added (self : fleet_ref) (boat : boat_ref) (w : world) : world :=
  logged self (name (boat_at w boat) ++ lit " joined the fleet.")
    (upd_boat boat (bound_to self) (upd_fleet self (append_boat boat) w)).

(** The world after a successful [remove_boat]. *)
Definition removed (self : fleet_ref) (boat : boat_ref) (w : world) : world :=
  logged self (name (boat_at w boat) ++ lit " was removed from the fleet.")
    (upd_boat boat (set_current_fleet None)
       (upd_fleet self (drop_boat boat) w)).

(** The world after a successful [transfer_boat]. *)
Definition transferred (self : fleet_ref) (boat : boat_ref)
  (new_fleet : fleet_ref) (w : world) : world :=
  logged self (name (boat_at w boat) ++ lit " transferred to new fleet.")
    (added new_fleet boat
       (logged self (name (boat_at w boat) ++ lit " left this fleet for another.")
          (upd_fleet self (drop_boat boat) w))).

(** The entries that [transfer_boat] writes for the vessel named [n] when
    the clock has been read [t] times before. *)
Definition left_entry (n : pystr) (t : nat) : pyval :=
  VStr (format_entry (strftime_now t) (n ++ lit " left this fleet for another.")).
Definition joined_entry (n : pystr) (t : nat) : pyval :=
  VStr (format_entry (strftime_now (S t)) (n ++ lit " joined the fleet.")).
Definition transferred_entry (n : pystr) (t : nat) : pyval :=
  VStr (format_entry (strftime_now (S (S t))) (n ++ lit " transferred to new fleet.")).

(** The vessels [bs] are what the documents [items] reconstruct to. *)
Definition reconstructs (fromtimestamp_date : pyval -> res date)
  (items : list pyval) (bs : list Boat) : Prop :=
  Forall2 (fun item b => from_dict fromtimestamp_date builtin_msg item = Ok b)
    items bs.

Definition run_call (c : call) : M pystr :=
  match c with
  | CallAdd self boat => add_boat builtin_msg strftime_now self (OBoat boat)
  | CallRemove self boat => remove_boat builtin_msg strftime_now self boat
  | CallTransfer self boat new_fleet =>
      transfer_boat builtin_msg strftime_now self boat new_fleet
  end.

(** The world after a sequence of calls, whatever each returns or raises. *)
Fixpoint run_calls (cs : list call) (w : world) : world :=
  match cs with
  | [] => w
  | c :: cs' => run_calls cs' (snd (run_call c w))
  end.

End Sessions.

(** A vessel and two registries for the examples. *)
Definition aurora : Boat :=
  mkBoat (lit "Aurora") (VDate (mkDate 2020 1 1)) (lit "Oslo") (lit "NO")
    None [] VNone (VList []) ClsBoat.

Definition two_fleets : world := fresh_world 2 [aurora].

(** [aurora] added once, and added twice, to the first registry. *)
Definition aurora_added : world :=
  run_calls sample_builtin_msg sample_clock [CallAdd 0 0] two_fleets.

Definition aurora_added_twice : world :=
  run_calls sample_builtin_msg sample_clock [CallAdd 0 0; CallAdd 0 0]
    two_fleets.

(** The registry of the scenario: one cargo vessel of capacity 500.0 and
    one military vessel with 4 weapons, built and added by the program. *)
Definition scenario_fleet : world :=
  snd ((self <- Fleet_init ;;
        cargo <- lift (CargoBoat_init sample_fromtimestamp (txt "Baltic Trader")
                         (txt "2019-05-17") (txt "Gdansk") (txt "PL")
                         (VFloat float_500)) ;;
        cargo <- alloc_boat cargo ;;
        military <- lift (MilitaryBoat_init sample_fromtimestamp (txt "Defender")
                            (txt "2011-03-02") (txt "Portsmouth") (txt "UK")
                            (VInt 4) (VBool true)) ;;
        military <- alloc_boat military ;;
        add_boat sample_builtin_msg sample_clock self (OBoat cargo) ;;;
        add_boat sample_builtin_msg sample_clock self (OBoat military))
         (mkWorld [] [] 0)).

(** A saved document with one cargo vessel and one log entry, and a
    registry that holds [aurora] when the document is loaded into it. *)
Definition baltic_trader : Boat :=
  mkBoat (lit "Baltic Trader") (txt "2019-05-17") (lit "Gdansk") (lit "PL")
    None [] (txt "Kiel") (VList [txt "[2024-01-01 00:00:07] Position: Kiel"])
    (ClsCargoBoat (VFloat float_500)).

Definition saved_document : pyval :=
  VDict (<[lit "saved_date" := txt "2024-01-02"]>
         (<[lit "logs" :=
              VList [txt "[2024-01-01 00:00:05] Baltic Trader joined the fleet."]]>
         (<[lit "boats" := VList [to_dict sample_str_other baltic_trader]]> ∅))).

(** ** Further notions *)

(** The string has a character that [strip] keeps. *)
Definition has_nonspace (s : pystr) : Prop :=
  Exists (fun c => isspace c = false) s.

(** The keys of the dictionary of [Boat.to_dict], and the keys that the
    subclasses add. *)
Definition base_keys : gset pystr :=
  {[ lit "name"; lit "launch_date"; lit "home_port"; lit "flag";
     lit "current_position"; lit "position_logs" ]}.

Definition class_keys (c : boat_class) : gset pystr :=
  match c with
  | ClsBoat => ∅
  | ClsCargoBoat _ => {[ lit "cargo_capacity" ]}
  | ClsMilitaryBoat _ _ => {[ lit "weapon_count"; lit "is_authorised_by_gov" ]}
  end.

(** The attributes of its subclass are the ones that the document [d]
    holds under the keys by which [load_from_file] tells the classes. *)
Definition class_from_document (d : gmap pystr pyval) (c : boat_class) : Prop :=
  match c with
  | ClsCargoBoat cargo_capacity =>
      d !! lit "cargo_capacity" = Some cargo_capacity
  | ClsMilitaryBoat weapon_count is_authorised_by_gov =>
      d !! lit "cargo_capacity" = None /\
      d !! lit "weapon_count" = Some weapon_count /\
      d !! lit "is_authorised_by_gov" = Some is_authorised_by_gov
  | ClsBoat =>
      d !! lit "cargo_capacity" = None /\ d !! lit "weapon_count" = None
  end.

(** The vessel documents of a saved file [d]: the entries of the list under
    [boats], which are dictionaries; there are none when the key is absent
    or holds an empty string or an empty dictionary. *)
Definition file_documents (d : gmap pystr pyval)
  (docs : list (gmap pystr pyval)) : Prop :=
  match d !! lit "boats" with
  | None => docs = []
  | Some (VList items) => items = map VDict docs
  | Some (VStr s) => s = [] /\ docs = []
  | Some (VDict m) => m = ∅ /\ docs = []
  | Some _ => False
  end.

(** The launch date a vessel has when the file holds [saved]: the date of a
    numeric timestamp, and any other value as it is; [None] gives no
    vessel. *)
Definition stored_launch_date (fromtimestamp_date : pyval -> res date)
  (saved stored : pyval) : Prop :=
  match saved with
  | VNone => False
  | VBool _ | VInt _ | VFloat _ =>
      exists d, fromtimestamp_date saved = Ok d /\ stored = VDate d
  | _ => stored = saved
  end.

(** The vessel [b] holds the contents of the document [doc], field by
    field, and is bound to no registry. *)
Definition holds_document (fromtimestamp_date : pyval -> res date)
  (doc : gmap pystr pyval) (b : Boat) : Prop :=
  doc !! lit "name" = Some (VStr (name b)) /\
  doc !! lit "home_port" = Some (VStr (home_port b)) /\
  doc !! lit "flag" = Some (VStr (flag b)) /\
  (exists saved, doc !! lit "launch_date" = Some saved /\
                 stored_launch_date fromtimestamp_date saved (launch_date b)) /\
  current_position b = default VNone (doc !! lit "current_position") /\
  position_logs b = default (VList []) (doc !! lit "position_logs") /\
  class_from_document doc (cls b) /\
  current_fleet b = None /\ fleet_history b = [].

(** More sample surroundings: date strings are read back only in the form
    of the first day of 2020, lower case is that of ASCII. *)
Definition sample_fromisoformat (s : pystr) : res date :=
  if bool_decide (s = lit "2020-01-01") then Ok (mkDate 2020 1 1)
  else Raise (Exn ValueError (lit "Invalid isoformat string")).

Definition sample_lower (s : pystr) : pystr :=
  map (fun c => if ((65 <=? c) && (c <=? 90))%N then (c + 32)%N else c) s.

Definition sample_item_msg (i : nat) (v : pyval) : pystr :=
  lit "expected str instance".

(** Every log that is a list has only gained entries from [w] to [w']. *)
Definition logs_grow (w w' : world) : Prop :=
  forall f l, logs (fleet_at w f) = VList l ->
              exists l', logs (fleet_at w' f) = VList (l ++ l').

(** Every fleet history has only gained entries from [w] to [w']. *)
Definition histories_grow (w w' : world) : Prop :=
  forall b, exists h,
    fleet_history (boat_at w' b) = fleet_history (boat_at w b) ++ h.

(** The method leaves the logs, and the fleet histories, only longer,
    whether it returns or raises. *)
Definition grows {A} (m : M A) : Prop :=
  forall w, logs_grow w (snd (m w)) /\ histories_grow w (snd (m w)).

(** A bound vessel has the registry it points to as the last entry of its
    fleet history, and its history names registries only. *)
Definition history_ok (nfleets : nat) (b : Boat) : Prop :=
  (forall f, current_fleet b = Some f -> last (fleet_history b) = Some f) /\
  Forall (fun f => f < nfleets) (fleet_history b).

(** What is kept from call to call. *)
Definition session_ok (nfleets : nat) (w : world) : Prop :=
  (forall f, f < nfleets -> has_log_list w f) /\
  membership_invariant w /\
  (forall b B, boat_objs w !! b = Some B -> history_ok nfleets B).

(** The calls of a session and the other methods that act on the store. *)
Inductive action :=
| ActCall (c : call)
| ActArrival (self : fleet_ref) (boat : boat_ref) (location : pystr)
| ActSort (self : fleet_ref) (by_ : pyval)
| ActLogPosition (boat : boat_ref) (position : pystr).

Definition action_in_range (nfleets nboats : nat) (a : action) : Prop :=
  match a with
  | ActCall c => call_in_range nfleets nboats c
  | ActArrival self boat _ => self < nfleets /\ boat < nboats
  | ActSort self _ => self < nfleets
  | ActLogPosition boat _ => boat < nboats
  end.

Section Actions.

Variable builtin_msg : builtin_op -> pyval -> pystr.
Variable strftime_now : nat -> pystr.

Definition run_action (a : action) : M pystr :=
  match a with
  | ActCall c => run_call builtin_msg strftime_now c
  | ActArrival self boat location =>
      record_arrival builtin_msg strftime_now self boat location
  | ActSort self by_ => sort_boats self by_
  | ActLogPosition boat position =>
      log_position builtin_msg strftime_now boat position
  end.

Fixpoint run_actions (acts : list action) (w : world) : world :=
  match acts with
  | [] => w
  | a :: acts' => run_actions acts' (snd (run_action a w))
  end.

End Actions.

(** A file whose second vessel document has no keys at all. *)
Definition broken_boats : gmap pystr pyval :=
  <[lit "boats" := VList [to_dict sample_str_other baltic_trader; VDict ∅]]> ∅.

(** Lookups of literal keys in a dictionary built by [to_dict]. *)
Ltac eval_lookups :=
  repeat first
    [ rewrite lookup_insert_eq
    | rewrite lookup_insert_ne by (vm_compute; discriminate)
    | rewrite lookup_empty ].

Section VesselFacts.

Variable fromtimestamp_date : pyval -> res date.
Variable str_other : pyval -> pystr.
Variable builtin_msg : builtin_op -> pyval -> pystr.

Lemma require_text_ok (s : pystr) (msg : string) :
  valid_text s -> require_text (VStr s) msg = Ok s.
Proof.
  unfold valid_text, require_text. destruct (strip s); congruence.
Qed.

Lemma require_text_inv (v : pyval) (msg : string) (s : pystr) :
  require_text v msg = Ok s -> v = VStr s /\ valid_text s.
Proof.
  unfold require_text, valid_text. destruct v; try discriminate.
  destruct (strip s0) eqn:E; try discriminate.
  intros [= ->]. split; [reflexivity | congruence].
Qed.

Lemma lt_zero_sign (v : pyval) :
  (is_negative v = true -> isinstance_number v = true /\ lt_zero v = true) /\
  (is_zero_or_positive v = true ->
   isinstance_number v = true /\ lt_zero v = false).
Proof.
  destruct v as [ | b | z | f | | | | ]; simpl;
    try (split; discriminate).
  - split; [discriminate | destruct b; split; reflexivity].
  - split; intros H; (split; [reflexivity | ]); [exact H | ].
    apply Z.ltb_ge. apply Z.leb_le. exact H.
  - destruct f as [s | s | | s m e]; try destruct s; simpl;
      split; solve [discriminate | split; reflexivity].
Qed.

(** What [Boat.__init__] returns on valid text fields. *)
Lemma Boat_init_valid_text (n hp fl : pystr) (ld : pyval) :
  valid_text n -> valid_text hp -> valid_text fl ->
  Boat_init fromtimestamp_date (VStr n) ld (VStr hp) (VStr fl) =
  match ld with
  | VNone =>
      Raise (Exn ValueError
               (lit "Launch date cannot be empty. Please input a date."))
  | _ =>
      let? d := (if isinstance_number ld
                 then let? d := fromtimestamp_date ld in Ok (VDate d)
                 else Ok ld) in
      Ok (mkBoat n d hp fl None [] VNone (VList []) ClsBoat)
  end.
Proof.
  intros Hn Hhp Hfl. unfold Boat_init.
  rewrite !require_text_ok by assumption. reflexivity.
Qed.

Lemma Boat_init_inv (vn ld vhp vfl : pyval) (b : Boat) :
  Boat_init fromtimestamp_date vn ld vhp vfl = Ok b ->
  exists n hp fl d,
    vn = VStr n /\ vhp = VStr hp /\ vfl = VStr fl /\
    valid_text n /\ valid_text hp /\ valid_text fl /\ ld <> VNone /\
    (if isinstance_number ld
     then exists t, fromtimestamp_date ld = Ok t /\ d = VDate t
     else d = ld) /\
    b = mkBoat n d hp fl None [] VNone (VList []) ClsBoat.
Proof.
  unfold Boat_init. intros H.
  destruct (require_text vn _) as [n | ] eqn:En; try discriminate.
  destruct (require_text vhp _) as [hp | ] eqn:Ehp; try discriminate.
  destruct (require_text vfl _) as [fl | ] eqn:Efl; try discriminate.
  apply require_text_inv in En as [-> Hn].
  apply require_text_inv in Ehp as [-> Hhp].
  apply require_text_inv in Efl as [-> Hfl].
  simpl in H.
  assert (Hld : ld <> VNone) by (intros ->; discriminate).
  destruct (isinstance_number ld) eqn:Enum.
  - destruct (fromtimestamp_date ld) as [t | ] eqn:Et.
    + exists n, hp, fl, (VDate t).
      destruct ld; simpl in H; try discriminate; injection H as <-;
        (repeat split; try assumption; try reflexivity; eauto).
    + destruct ld; simpl in H; discriminate.
  - exists n, hp, fl, ld.
    destruct ld; simpl in H; try discriminate; try congruence;
      injection H as <-; repeat split; assumption || reflexivity.
Qed.

Lemma Boat_init_valid (vn ld vhp vfl : pyval) (b : Boat) :
  Boat_init fromtimestamp_date vn ld vhp vfl = Ok b -> valid_boat b.
Proof.
  intros H. apply Boat_init_inv in H as (n & hp & fl & d & _ & _ & _ & Hn & Hhp & Hfl & Hld & Hd & ->).
  split; simpl; try assumption; [ | exact I].
  destruct (isinstance_number ld) eqn:E.
  - destruct Hd as (t & _ & ->). split; [discriminate | reflexivity].
  - subst d. split; assumption.
Qed.

Lemma set_cls_valid (c : boat_class) (b : Boat) :
  valid_boat b -> valid_cls c -> valid_boat (set_cls c b).
Proof. intros [] Hc. split; assumption. Qed.

Lemma CargoBoat_init_valid (vn ld vhp vfl cap : pyval) (b : Boat) :
  CargoBoat_init fromtimestamp_date vn ld vhp vfl cap = Ok b -> valid_boat b.
Proof.
  unfold CargoBoat_init.
  destruct (Boat_init _ vn ld vhp vfl) as [self | ] eqn:E; try discriminate.
  simpl. destruct (isinstance_number cap) eqn:En; try discriminate.
  simpl. destruct (lt_zero cap) eqn:Elt; try discriminate.
  intros [= <-]. apply set_cls_valid; [eapply Boat_init_valid; eassumption | ].
  split; assumption.
Qed.

Lemma MilitaryBoat_init_valid (vn ld vhp vfl wc auth : pyval) (b : Boat) :
  MilitaryBoat_init fromtimestamp_date vn ld vhp vfl wc auth = Ok b ->
  valid_boat b.
Proof.
  unfold MilitaryBoat_init.
  destruct (Boat_init _ vn ld vhp vfl) as [self | ] eqn:E; try discriminate.
  simpl. destruct (isinstance_number wc) eqn:En; try discriminate.
  simpl. destruct (lt_zero wc) eqn:Elt; try discriminate.
  destruct (isinstance_bool auth) eqn:Eb; try discriminate.
  intros [= <-]. apply set_cls_valid; [eapply Boat_init_valid; eassumption | ].
  repeat split; assumption.
Qed.

End VesselFacts.

Section ConstructionClaims.

Variable fromtimestamp_date : pyval -> res date.
Variable str_other : pyval -> pystr.
Variable builtin_msg : builtin_op -> pyval -> pystr.

Lemma from_dict_to_dict (b : Boat) :
  valid_boat b ->
  from_dict fromtimestamp_date builtin_msg (to_dict str_other b) =
  Ok (restored str_other b).
Proof.
  intros [Hn Hhp Hfl Hld Hc].
  destruct b as [n ld hp fl cf fh cp pl c]; simpl in *.
  unfold to_dict, restored, from_dict, getitem, has_key, Boat_to_dict; simpl.
  destruct c as [ | cap | wc auth]; simpl in *; eval_lookups; simpl.
  - rewrite Boat_init_valid_text by assumption. reflexivity.
  - unfold CargoBoat_init. rewrite Boat_init_valid_text by assumption. simpl.
    destruct Hc as [-> ->]. reflexivity.
  - unfold MilitaryBoat_init. rewrite Boat_init_valid_text by assumption. simpl.
    destruct Hc as (-> & -> & ->). reflexivity.
Qed.

(** C9: on otherwise valid input ([Boat.__init__] accepts the four base
    arguments), [CargoBoat.__init__] raises a [ValueError] for a negative
    [cargo_capacity] and, for zero or a positive value, returns the vessel
    with that very value stored as [cargo_capacity]. *)
Theorem cargo_capacity_validation
  (vn ld vhp vfl cargo_capacity : pyval) (self : Boat) :
  Boat_init fromtimestamp_date vn ld vhp vfl = Ok self ->
  (is_negative cargo_capacity = true ->
   CargoBoat_init fromtimestamp_date vn ld vhp vfl cargo_capacity =
   Raise (Exn ValueError
            (lit "Cargo capacity must be a positive value greater than zero.")))
  /\
  (is_zero_or_positive cargo_capacity = true ->
   CargoBoat_init fromtimestamp_date vn ld vhp vfl cargo_capacity =
   Ok (set_cls (ClsCargoBoat cargo_capacity) self)).
Proof.
  intros Hself. unfold CargoBoat_init. rewrite Hself. simpl.
  destruct (lt_zero_sign cargo_capacity) as [Hneg Hpos].
  split; intros H.
  - destruct (Hneg H) as [-> ->]. reflexivity.
  - destruct (Hpos H) as [-> ->]. reflexivity.
Qed.

(** C4 (amended): with valid name, home port and flag, [Boat.__init__]
    raises a [ValueError] for an unset launch date; a numeric launch date is
    converted by [fromtimestamp] to a date (and construction fails exactly
    when that conversion does); every other value, a date, an ISO string or
    any other string alike, is stored unchanged.  The constructors of the
    two subclasses hand the launch date to [Boat.__init__] and add no check
    of their own. *)
Theorem launch_date_handling (n hp fl : pystr) (ld : pyval) :
  valid_text n -> valid_text hp -> valid_text fl ->
  (ld = VNone ->
   Boat_init fromtimestamp_date (VStr n) ld (VStr hp) (VStr fl) =
   Raise (Exn ValueError
            (lit "Launch date cannot be empty. Please input a date.")))
  /\
  (isinstance_number ld = true ->
   Boat_init fromtimestamp_date (VStr n) ld (VStr hp) (VStr fl) =
   let? d := fromtimestamp_date ld in
   Ok (mkBoat n (VDate d) hp fl None [] VNone (VList []) ClsBoat))
  /\
  (ld <> VNone -> isinstance_number ld = false ->
   Boat_init fromtimestamp_date (VStr n) ld (VStr hp) (VStr fl) =
   Ok (mkBoat n ld hp fl None [] VNone (VList []) ClsBoat))
  /\
  (forall cargo_capacity,
     valid_cls (ClsCargoBoat cargo_capacity) ->
     CargoBoat_init fromtimestamp_date (VStr n) ld (VStr hp) (VStr fl)
       cargo_capacity =
     let? self := Boat_init fromtimestamp_date (VStr n) ld (VStr hp) (VStr fl) in
     Ok (set_cls (ClsCargoBoat cargo_capacity) self))
  /\
  (forall weapon_count is_authorised_by_gov,
     valid_cls (ClsMilitaryBoat weapon_count is_authorised_by_gov) ->
     MilitaryBoat_init fromtimestamp_date (VStr n) ld (VStr hp) (VStr fl)
       weapon_count is_authorised_by_gov =
     let? self := Boat_init fromtimestamp_date (VStr n) ld (VStr hp) (VStr fl) in
     Ok (set_cls (ClsMilitaryBoat weapon_count is_authorised_by_gov) self)).
Proof.
  intros Hn Hhp Hfl.
  rewrite (Boat_init_valid_text fromtimestamp_date n hp fl ld Hn Hhp Hfl).
  repeat split.
  - intros ->. reflexivity.
  - intros Hnum. rewrite Hnum.
    destruct ld; try discriminate; simpl;
      destruct (fromtimestamp_date _); reflexivity.
  - intros Hld Hnum. rewrite Hnum. destruct ld; simpl in *; congruence.
  - intros cap [Hnum Hlt]. unfold CargoBoat_init.
    rewrite (Boat_init_valid_text fromtimestamp_date n hp fl ld Hn Hhp Hfl).
    rewrite Hnum, Hlt. simpl.
    destruct (match ld with VNone => _ | _ => _ end); reflexivity.
  - intros wc auth (Hnum & Hlt & Hb). unfold MilitaryBoat_init.
    rewrite (Boat_init_valid_text fromtimestamp_date n hp fl ld Hn Hhp Hfl).
    rewrite Hnum, Hlt, Hb. simpl.
    destruct (match ld with VNone => _ | _ => _ end); reflexivity.
Qed.

(** C1 (amended): for every vessel as a constructor leaves it (whatever its
    position data and fleet binding), [from_dict] applied to [to_dict]
    succeeds with a vessel of the same class that has the same name, home
    port, flag, current position, position logs and subclass attributes;
    its launch date is the string [str(launch_date)] of the original, hence
    equal to the original's only when that already was a string. *)
Theorem to_dict_from_dict_roundtrip (b : Boat) :
  valid_boat b ->
  exists b',
    from_dict fromtimestamp_date builtin_msg (to_dict str_other b) = Ok b' /\
    cls b' = cls b /\
    name b' = name b /\ home_port b' = home_port b /\ flag b' = flag b /\
    current_position b' = current_position b /\
    position_logs b' = position_logs b /\
    launch_date b' = VStr (py_str str_other (launch_date b)) /\
    (forall s, launch_date b = VStr s -> launch_date b' = launch_date b).
Proof.
  intros Hb. exists (restored str_other b).
  split; [apply from_dict_to_dict; exact Hb | ].
  repeat split. intros s Hs. simpl. rewrite Hs. reflexivity.
Qed.

End ConstructionClaims.

Lemma cargo_capacity_validation_witness :
  CargoBoat_init sample_fromtimestamp (txt "Aurora") (VInt 0) (txt "Oslo")
    (txt "NO") (VInt (-1)) =
  Raise (Exn ValueError
           (lit "Cargo capacity must be a positive value greater than zero."))
  /\
  CargoBoat_init sample_fromtimestamp (txt "Aurora") (VInt 0) (txt "Oslo")
    (txt "NO") (VFloat float_zero) =
  Ok (mkBoat (lit "Aurora") (VDate (mkDate 1970 1 1)) (lit "Oslo") (lit "NO")
        None [] VNone (VList []) (ClsCargoBoat (VFloat float_zero))).
Proof.
  split.
  - apply (cargo_capacity_validation sample_fromtimestamp (txt "Aurora")
             (VInt 0) (txt "Oslo") (txt "NO") (VInt (-1))
             (mkBoat (lit "Aurora") (VDate (mkDate 1970 1 1)) (lit "Oslo")
                (lit "NO") None [] VNone (VList []) ClsBoat));
      reflexivity.
  - apply (cargo_capacity_validation sample_fromtimestamp (txt "Aurora")
             (VInt 0) (txt "Oslo") (txt "NO") (VFloat float_zero)
             (mkBoat (lit "Aurora") (VDate (mkDate 1970 1 1)) (lit "Oslo")
                (lit "NO") None [] VNone (VList []) ClsBoat));
      reflexivity.
Defined.

(** C4 fails as stated: the empty string is no date, timestamp or ISO
    string, and all three constructors accept it as a launch date. *)
Lemma launch_date_empty_string_accepted :
  spec_interpretable_as_date (VStr []) = false /\
  Boat_init sample_fromtimestamp (txt "Aurora") (VStr []) (txt "Oslo")
    (txt "NO") =
  Ok (mkBoat (lit "Aurora") (VStr []) (lit "Oslo") (lit "NO") None [] VNone
        (VList []) ClsBoat) /\
  CargoBoat_init sample_fromtimestamp (txt "Aurora") (VStr []) (txt "Oslo")
    (txt "NO") (VFloat float_500) =
  Ok (mkBoat (lit "Aurora") (VStr []) (lit "Oslo") (lit "NO") None [] VNone
        (VList []) (ClsCargoBoat (VFloat float_500))) /\
  MilitaryBoat_init sample_fromtimestamp (txt "Aurora") (VStr []) (txt "Oslo")
    (txt "NO") (VInt 4) (VBool true) =
  Ok (mkBoat (lit "Aurora") (VStr []) (lit "Oslo") (lit "NO") None [] VNone
        (VList []) (ClsMilitaryBoat (VInt 4) (VBool true))).
Proof. repeat split. Qed.

Lemma launch_date_handling_witness :
  Boat_init sample_fromtimestamp (txt "Aurora") (txt "not a date") (txt "Oslo")
    (txt "NO") =
  Ok (mkBoat (lit "Aurora") (txt "not a date") (lit "Oslo") (lit "NO") None []
        VNone (VList []) ClsBoat).
Proof.
  apply (launch_date_handling sample_fromtimestamp (lit "Aurora") (lit "Oslo")
           (lit "NO") (txt "not a date"));
    try (vm_compute; discriminate); reflexivity.
Defined.

(** C1 fails as stated: a vessel launched on the date 2020-01-01 comes back
    with the string "2020-01-01" as its launch date. *)
Lemma roundtrip_changes_launch_date :
  let b := mkBoat (lit "Aurora") (VDate (mkDate 2020 1 1)) (lit "Oslo")
             (lit "NO") None [] VNone (VList []) ClsBoat in
  let b' := mkBoat (lit "Aurora") (txt "2020-01-01") (lit "Oslo")
              (lit "NO") None [] VNone (VList []) ClsBoat in
  Boat_init sample_fromtimestamp (txt "Aurora") (VDate (mkDate 2020 1 1))
    (txt "Oslo") (txt "NO") = Ok b /\
  from_dict sample_fromtimestamp sample_builtin_msg
    (to_dict sample_str_other b) = Ok b' /\
  launch_date b' <> launch_date b.
Proof.
  intros b b'. split; [reflexivity | ].
  split; [vm_compute; reflexivity | discriminate].
Qed.

Lemma to_dict_from_dict_roundtrip_witness :
  exists b',
    from_dict sample_fromtimestamp sample_builtin_msg
      (to_dict sample_str_other
         (mkBoat (lit "Aurora") (txt "2020-01-01") (lit "Oslo") (lit "NO")
            (Some 0) [0] (txt "Bergen") (VList [txt "[t] Position: Bergen"])
            (ClsCargoBoat (VFloat float_500)))) = Ok b' /\
    cls b' = ClsCargoBoat (VFloat float_500) /\
    name b' = lit "Aurora" /\ home_port b' = lit "Oslo" /\ flag b' = lit "NO" /\
    current_position b' = txt "Bergen" /\
    position_logs b' = VList [txt "[t] Position: Bergen"] /\
    launch_date b' = txt "2020-01-01" /\
    (forall s, txt "2020-01-01" = VStr s -> launch_date b' = txt "2020-01-01").
Proof.
  apply (to_dict_from_dict_roundtrip sample_fromtimestamp sample_str_other
           sample_builtin_msg
           (mkBoat (lit "Aurora") (txt "2020-01-01") (lit "Oslo") (lit "NO")
              (Some 0) [0] (txt "Bergen") (VList [txt "[t] Position: Bergen"])
              (ClsCargoBoat (VFloat float_500)))).
  split; simpl; try (vm_compute; discriminate);
    repeat split; try discriminate; reflexivity.
Defined.

(** ** Registries *)

Lemma fleet_at_upd_boat (b : boat_ref) (g : Boat -> Boat) (w : world) (f : fleet_ref) :
  fleet_at (upd_boat b g w) f = fleet_at w f.
Proof. reflexivity. Qed.

Lemma fleet_at_tick (w : world) (f : fleet_ref) : fleet_at (tick w) f = fleet_at w f.
Proof. reflexivity. Qed.

Lemma boat_at_upd_fleet (f : fleet_ref) (g : Fleet -> Fleet) (w : world) (b : boat_ref) :
  boat_at (upd_fleet f g w) b = boat_at w b.
Proof. reflexivity. Qed.

Lemma fleet_at_upd_fleet_ne (f f' : fleet_ref) (g : Fleet -> Fleet) (w : world) :
  f <> f' -> fleet_at (upd_fleet f g w) f' = fleet_at w f'.
Proof.
  intros Hne. unfold fleet_at, upd_fleet. simpl.
  rewrite list_lookup_alter_ne by exact Hne. reflexivity.
Qed.

Lemma fleet_at_upd_fleet_eq (f : fleet_ref) (g : Fleet -> Fleet) (w : world) :
  f < length (fleet_objs w) ->
  fleet_at (upd_fleet f g w) f = g (fleet_at w f).
Proof.
  intros Hlt. apply lookup_lt_is_Some_2 in Hlt as [F HF].
  unfold fleet_at, upd_fleet. simpl.
  rewrite list_lookup_alter_eq, HF. reflexivity.
Qed.

Lemma boat_at_upd_boat_ne (b b' : boat_ref) (g : Boat -> Boat) (w : world) :
  b <> b' -> boat_at (upd_boat b g w) b' = boat_at w b'.
Proof.
  intros Hne. unfold boat_at, upd_boat. simpl.
  rewrite list_lookup_alter_ne by exact Hne. reflexivity.
Qed.

Lemma boat_at_upd_boat_eq (b : boat_ref) (g : Boat -> Boat) (w : world) :
  b < length (boat_objs w) ->
  boat_at (upd_boat b g w) b = g (boat_at w b).
Proof.
  intros Hlt. apply lookup_lt_is_Some_2 in Hlt as [B HB].
  unfold boat_at, upd_boat. simpl.
  rewrite list_lookup_alter_eq, HB. reflexivity.
Qed.

(** Assignments that keep the name keep it behind every reference. *)
Lemma name_boat_at_upd_boat (b b' : boat_ref) (g : Boat -> Boat) (w : world) :
  (forall x, name (g x) = name x) ->
  name (boat_at (upd_boat b g w) b') = name (boat_at w b').
Proof.
  intros Hg. unfold boat_at, upd_boat. simpl.
  rewrite list_lookup_alter. case_decide; [subst b' | reflexivity].
  destruct (boat_objs w !! b); simpl; [apply Hg | reflexivity].
Qed.

Lemma has_log_list_valid (w : world) (f : fleet_ref) :
  has_log_list w f -> f < length (fleet_objs w).
Proof.
  intros [l Hl]. unfold fleet_at in Hl.
  destruct (fleet_objs w !! f) eqn:E; [ | discriminate].
  eapply lookup_lt_Some. exact E.
Qed.

Lemma elem_of_boats_valid (w : world) (f : fleet_ref) (b : boat_ref) :
  b ∈ boats (fleet_at w f) -> f < length (fleet_objs w).
Proof.
  unfold fleet_at. destruct (fleet_objs w !! f) eqn:E; simpl.
  - intros _. eapply lookup_lt_Some. exact E.
  - intros H. inversion H.
Qed.

Section RegistryFacts.

Variable builtin_msg : builtin_op -> pyval -> pystr.
Variable strftime_now : nat -> pystr.

Lemma record_log_ok (self : fleet_ref) (message : pystr) (w : world) :
  has_log_list w self ->
  record_log builtin_msg strftime_now self message w =
  (Ok tt, logged strftime_now self message w).
Proof.
  intros [l Hl]. unfold record_log, bind, now, get_world, lift, update_fleet.
  rewrite fleet_at_tick, Hl. simpl.
  unfold logged. f_equal. unfold upd_fleet. f_equal.
  apply list_alter_ext; [ | reflexivity].
  intros F HF. unfold push_log.
  assert (fleet_at w self = F) as <-.
  { unfold fleet_at. simpl in HF. rewrite HF. reflexivity. }
  rewrite Hl. reflexivity.
Qed.

Lemma has_log_list_upd_fleet (f f' : fleet_ref) (g : Fleet -> Fleet) (w : world) :
  (forall F, (exists l, logs F = VList l) -> exists l, logs (g F) = VList l) ->
  has_log_list w f' -> has_log_list (upd_fleet f g w) f'.
Proof.
  intros Hg H. unfold has_log_list.
  destruct (decide (f = f')) as [-> | Hne].
  - rewrite fleet_at_upd_fleet_eq by (eapply has_log_list_valid; exact H).
    apply Hg. exact H.
  - rewrite fleet_at_upd_fleet_ne by exact Hne. exact H.
Qed.

Lemma push_log_list (entry : pystr) (F : Fleet) :
  (exists l, logs F = VList l) -> exists l, logs (push_log entry F) = VList l.
Proof. intros [l Hl]. unfold push_log. rewrite Hl. simpl. eauto. Qed.

Lemma has_log_list_logged (f f' : fleet_ref) (message : pystr) (w : world) :
  has_log_list w f' -> has_log_list (logged strftime_now f message w) f'.
Proof.
  intros H. unfold logged. apply has_log_list_upd_fleet.
  - apply push_log_list.
  - exact H.
Qed.

Lemma add_boat_ok (self : fleet_ref) (boat : boat_ref) (w : world) :
  has_log_list w self ->
  add_boat builtin_msg strftime_now self (OBoat boat) w =
  (Ok (emoji_check ++ lit " " ++ name (boat_at w boat)
       ++ lit " successfully added to fleet"),
   added strftime_now self boat w).
Proof.
  intros H. unfold add_boat, bind, update_fleet, update_boat, get_world. simpl.
  set (w1 := upd_boat boat _ (upd_boat boat _ (upd_fleet self _ w))).
  assert (Hw1 : w1 = upd_boat boat (bound_to self) (upd_fleet self (append_boat boat) w)).
  { unfold w1, upd_boat. simpl. rewrite list_alter_alter_eq. reflexivity. }
  assert (Hname : name (boat_at w1 boat) = name (boat_at w boat)).
  { rewrite Hw1. rewrite name_boat_at_upd_boat by reflexivity. reflexivity. }
  rewrite record_log_ok.
  - rewrite Hname, Hw1. reflexivity.
  - rewrite Hw1. unfold has_log_list. rewrite fleet_at_upd_boat.
    apply has_log_list_upd_fleet; [ | exact H]. intros F HF. exact HF.
Qed.

Lemma add_boat_other (self : fleet_ref) (x : pyobj) (w : world) :
  (forall boat, x <> OBoat boat) ->
  add_boat builtin_msg strftime_now self x w =
  (Ok (emoji_cross ++ lit " Only Boat objects can be added."), w).
Proof. intros H. destruct x; [destruct (H b); reflexivity | | ]; reflexivity. Qed.

Lemma remove_boat_absent (self : fleet_ref) (boat : boat_ref) (w : world) :
  boat ∉ boats (fleet_at w self) ->
  remove_boat builtin_msg strftime_now self boat w =
  (Ok (emoji_cross ++ lit " " ++ name (boat_at w boat)
       ++ lit " not found in this fleet."), w).
Proof.
  intros H. unfold remove_boat, bind, get_world.
  rewrite bool_decide_eq_false_2 by exact H. reflexivity.
Qed.

Lemma remove_boat_ok (self : fleet_ref) (boat : boat_ref) (w : world) :
  boat ∈ boats (fleet_at w self) -> has_log_list w self ->
  remove_boat builtin_msg strftime_now self boat w =
  (Ok (emoji_check ++ lit " " ++ name (boat_at w boat)
       ++ lit " successfully removed from fleet"),
   removed strftime_now self boat w).
Proof.
  intros Hin H. unfold remove_boat, bind, get_world.
  rewrite bool_decide_eq_true_2 by exact Hin. simpl.
  unfold update_fleet, update_boat. rewrite record_log_ok; [reflexivity | ].
  unfold has_log_list. rewrite fleet_at_upd_boat.
  apply has_log_list_upd_fleet; [ | exact H]. intros F HF. exact HF.
Qed.

Lemma transfer_boat_absent (self : fleet_ref) (boat : boat_ref) (new_fleet : fleet_ref) (w : world) :
  boat ∉ boats (fleet_at w self) ->
  transfer_boat builtin_msg strftime_now self boat new_fleet w =
  (Ok (emoji_cross ++ lit " " ++ name (boat_at w boat)
       ++ lit " not found in this fleet."), w).
Proof.
  intros H. unfold transfer_boat, bind, get_world.
  rewrite bool_decide_eq_false_2 by exact H. reflexivity.
Qed.

Lemma has_log_list_added (f f' : fleet_ref) (boat : boat_ref) (w : world) :
  has_log_list w f' -> has_log_list (added strftime_now f boat w) f'.
Proof.
  intros H. unfold added. apply has_log_list_logged.
  unfold has_log_list. rewrite fleet_at_upd_boat.
  apply has_log_list_upd_fleet; [ | exact H]. intros F HF. exact HF.
Qed.

Lemma transfer_boat_ok (self : fleet_ref) (boat : boat_ref) (new_fleet : fleet_ref) (w : world) :
  boat ∈ boats (fleet_at w self) ->
  has_log_list w self -> has_log_list w new_fleet ->
  transfer_boat builtin_msg strftime_now self boat new_fleet w =
  (Ok (emoji_repeat ++ lit " " ++ name (boat_at w boat)
       ++ lit " transferred successfully."),
   transferred strftime_now self boat new_fleet w).
Proof.
  intros Hin Hs Hn. unfold transfer_boat, get_world.
  unfold bind at 1. rewrite bool_decide_eq_true_2 by exact Hin.
  cbn [negb]. unfold bind, update_fleet.
  assert (Hdrop : forall f, has_log_list w f ->
                   has_log_list (upd_fleet self (drop_boat boat) w) f).
  { intros f Hf. apply has_log_list_upd_fleet; [ | exact Hf]. intros F HF. exact HF. }
  rewrite record_log_ok by (apply Hdrop; exact Hs).
  rewrite add_boat_ok by (apply has_log_list_logged, Hdrop; exact Hn).
  rewrite record_log_ok by (apply has_log_list_added, has_log_list_logged, Hdrop; exact Hs).
  unfold transferred.
  assert (Hname : name (boat_at (logged strftime_now self
            (name (boat_at w boat) ++ lit " left this fleet for another.")
            (upd_fleet self (drop_boat boat) w)) boat) = name (boat_at w boat))
    by reflexivity.
  unfold added at 1. unfold added at 1. rewrite Hname. reflexivity.
Qed.

End RegistryFacts.

Lemma list_remove_elem_of_ne (x y : nat) (l : list nat) :
  y <> x -> y ∈ list_remove x l <-> y ∈ l.
Proof.
  intros Hne. induction l as [ | z l IH]; simpl; [reflexivity | ].
  destruct (decide (x = z)) as [<- | Hxz].
  - rewrite elem_of_cons. intuition congruence.
  - rewrite !elem_of_cons, IH. reflexivity.
Qed.

Lemma list_remove_once (x : nat) (l : list nat) :
  occurs_once x l -> x ∉ list_remove x l.
Proof.
  intros (l1 & l2 & -> & H1 & H2).
  induction l1 as [ | y l1 IH]; simpl.
  - rewrite decide_True by reflexivity. exact H2.
  - apply not_elem_of_cons in H1 as [Hne H1].
    rewrite decide_False by exact Hne.
    rewrite elem_of_cons. intros [Heq | Hin]; [congruence | ].
    apply (IH H1). exact Hin.
Qed.

Lemma contains_suffix (pre sub : pystr) : contains sub (pre ++ sub).
Proof. exists pre, []. rewrite app_nil_r. reflexivity. Qed.

Section TransferClaims.

Variable builtin_msg : builtin_op -> pyval -> pystr.
Variable strftime_now : nat -> pystr.

Lemma transferred_fleets (A B : fleet_ref) (v : boat_ref) (w : world) :
  let n := name (boat_at w v) in
  let t := ticks w in
  fleet_objs (transferred strftime_now A v B w) =
  alter (push_log (format_entry (strftime_now (S (S t)))
                     (n ++ lit " transferred to new fleet."))) A
    (alter (push_log (format_entry (strftime_now (S t))
                        (n ++ lit " joined the fleet."))) B
       (alter (append_boat v) B
          (alter (push_log (format_entry (strftime_now t)
                              (n ++ lit " left this fleet for another."))) A
             (alter (drop_boat v) A (fleet_objs w))))).
Proof. reflexivity. Qed.

Lemma transferred_source (A B : fleet_ref) (v : boat_ref) (w : world) (la : list pyval) :
  A <> B -> A < length (fleet_objs w) ->
  logs (fleet_at w A) = VList la ->
  fleet_at (transferred strftime_now A v B w) A =
  mkFleet (list_remove v (boats (fleet_at w A)))
    (VList (la ++ [left_entry strftime_now (name (boat_at w v)) (ticks w);
                   transferred_entry strftime_now (name (boat_at w v)) (ticks w)])).
Proof.
  intros Hne Hlt Hla. apply lookup_lt_is_Some_2 in Hlt as [FA HFA].
  unfold fleet_at in *. rewrite transferred_fleets. simpl.
  rewrite list_lookup_alter_eq.
  rewrite !list_lookup_alter_ne by congruence.
  rewrite !list_lookup_alter_eq. rewrite HFA in *. simpl in *.
  unfold push_log, drop_boat. simpl. rewrite Hla. simpl.
  rewrite <- app_assoc. reflexivity.
Qed.

Lemma transferred_target (A B : fleet_ref) (v : boat_ref) (w : world) (lb : list pyval) :
  A <> B -> B < length (fleet_objs w) ->
  logs (fleet_at w B) = VList lb ->
  fleet_at (transferred strftime_now A v B w) B =
  mkFleet (boats (fleet_at w B) ++ [v])
    (VList (lb ++ [joined_entry strftime_now (name (boat_at w v)) (ticks w)])).
Proof.
  intros Hne Hlt Hlb. apply lookup_lt_is_Some_2 in Hlt as [FB HFB].
  unfold fleet_at in *. rewrite transferred_fleets. simpl.
  rewrite list_lookup_alter_ne by congruence.
  rewrite !list_lookup_alter_eq.
  rewrite !list_lookup_alter_ne by congruence.
  rewrite HFB in *. simpl in *.
  unfold push_log, append_boat. simpl. rewrite Hlb. reflexivity.
Qed.

Lemma transferred_self (A : fleet_ref) (v : boat_ref) (w : world) (la : list pyval) :
  A < length (fleet_objs w) ->
  logs (fleet_at w A) = VList la ->
  fleet_at (transferred strftime_now A v A w) A =
  mkFleet (list_remove v (boats (fleet_at w A)) ++ [v])
    (VList (la ++ [left_entry strftime_now (name (boat_at w v)) (ticks w);
                   joined_entry strftime_now (name (boat_at w v)) (ticks w);
                   transferred_entry strftime_now (name (boat_at w v)) (ticks w)])).
Proof.
  intros Hlt Hla. apply lookup_lt_is_Some_2 in Hlt as [FA HFA].
  unfold fleet_at in *. rewrite transferred_fleets. simpl.
  rewrite !list_lookup_alter_eq. rewrite HFA in *. simpl in *.
  unfold push_log, drop_boat, append_boat. simpl. rewrite Hla. simpl.
  rewrite <- !app_assoc. reflexivity.
Qed.

(** C2 (amended): a successful [transfer_boat] from [A] to another registry
    [B] appends the ["joined the fleet."] entry of the target's [add_boat]
    to the log of [B]; the log of [A] receives the two entries
    ["left this fleet for another."] and ["transferred to new fleet."] and
    nothing else.  All three entries land on one log only when [B] is [A]
    itself. *)
Theorem transfer_boat_logs (A B : fleet_ref) (v : boat_ref) (w : world)
  (la lb : list pyval) :
  v ∈ boats (fleet_at w A) ->
  logs (fleet_at w A) = VList la -> logs (fleet_at w B) = VList lb ->
  let w' := snd (transfer_boat builtin_msg strftime_now A v B w) in
  let n := name (boat_at w v) in
  let t := ticks w in
  (A <> B ->
   logs (fleet_at w' B) = VList (lb ++ [joined_entry strftime_now n t]) /\
   logs (fleet_at w' A) =
   VList (la ++ [left_entry strftime_now n t; transferred_entry strftime_now n t]))
  /\
  (A = B ->
   logs (fleet_at w' A) =
   VList (la ++ [left_entry strftime_now n t; joined_entry strftime_now n t; transferred_entry strftime_now n t])).
Proof.
  intros Hin Hla Hlb w' n t.
  assert (HA : has_log_list w A) by (exists la; exact Hla).
  assert (HB : has_log_list w B) by (exists lb; exact Hlb).
  unfold w'. rewrite transfer_boat_ok by assumption. simpl.
  split.
  - intros Hne. split.
    + rewrite (transferred_target A B v w lb Hne (has_log_list_valid _ _ HB) Hlb).
      reflexivity.
    + rewrite (transferred_source A B v w la Hne (has_log_list_valid _ _ HA) Hla).
      reflexivity.
  - intros <-.
    rewrite (transferred_self A v w la (has_log_list_valid _ _ HA) Hla).
    reflexivity.
Qed.

(** C3 (amended): after a successful [transfer_boat] of [v] from [A] to
    [B], between registries whose logs are lists, [v] is in the vessels of
    [B]; the log of [A] has an entry containing
    ["left this fleet for another."] and one containing
    ["transferred to new fleet."], the log of [B] one containing
    ["joined the fleet."]; and when [B] is not [A] the vessels of [A] are the
    old ones without the first occurrence of [v], so that [v] is absent
    from them if it occurred once. *)
Theorem transfer_boat_effect (A B : fleet_ref) (v : boat_ref) (w : world) :
  v ∈ boats (fleet_at w A) ->
  has_log_list w A -> has_log_list w B ->
  let w' := snd (transfer_boat builtin_msg strftime_now A v B w) in
  v ∈ boats (fleet_at w' B) /\
  log_mentions (logs (fleet_at w' A)) (lit "left this fleet for another.") /\
  log_mentions (logs (fleet_at w' A)) (lit "transferred to new fleet.") /\
  log_mentions (logs (fleet_at w' B)) (lit "joined the fleet.") /\
  (A <> B ->
   boats (fleet_at w' A) = list_remove v (boats (fleet_at w A)) /\
   (occurs_once v (boats (fleet_at w A)) -> v ∉ boats (fleet_at w' A))).
Proof.
  intros Hin HA HB w'. unfold w'.
  rewrite transfer_boat_ok by assumption. simpl.
  pose proof (has_log_list_valid _ _ HA) as HAv.
  pose proof (has_log_list_valid _ _ HB) as HBv.
  destruct HA as [la Hla]. destruct HB as [lb Hlb].
  assert (Hleft : forall n, contains (lit "left this fleet for another.")
            (format_entry (strftime_now (ticks w))
               (n ++ lit " left this fleet for another."))).
  { intros n. unfold format_entry.
    change (lit " left this fleet for another.")
      with (lit " " ++ lit "left this fleet for another.").
    rewrite !app_assoc. apply contains_suffix. }
  assert (Hjoin : forall n, contains (lit "joined the fleet.")
            (format_entry (strftime_now (S (ticks w)))
               (n ++ lit " joined the fleet."))).
  { intros n. unfold format_entry.
    change (lit " joined the fleet.") with (lit " " ++ lit "joined the fleet.").
    rewrite !app_assoc. apply contains_suffix. }
  assert (Htrans : forall n, contains (lit "transferred to new fleet.")
            (format_entry (strftime_now (S (S (ticks w))))
               (n ++ lit " transferred to new fleet."))).
  { intros n. unfold format_entry.
    change (lit " transferred to new fleet.")
      with (lit " " ++ lit "transferred to new fleet.").
    rewrite !app_assoc. apply contains_suffix. }
  destruct (decide (A = B)) as [<- | Hne].
  - rewrite (transferred_self A v w la HAv Hla). simpl.
    split; [apply elem_of_app; right; apply list_elem_of_singleton; reflexivity | ].
    split; [ | split; [ | split]];
      try (eexists _, _; split; [reflexivity | split; [ | eauto]];
           rewrite elem_of_app, !elem_of_cons; right; eauto).
    intros Hne. congruence.
  - rewrite (transferred_source A B v w la Hne HAv Hla).
    rewrite (transferred_target A B v w lb Hne HBv Hlb). simpl.
    split; [apply elem_of_app; right; apply list_elem_of_singleton; reflexivity | ].
    split; [ | split; [ | split]];
      try (eexists _, _; split; [reflexivity | split; [ | eauto]];
           rewrite elem_of_app, !elem_of_cons; right; eauto).
    intros _. split; [reflexivity | ]. apply list_remove_once.
Qed.

End TransferClaims.

Lemma transfer_boat_logs_witness :
  let w' := snd (transfer_boat sample_builtin_msg sample_clock 0 0 1 aurora_added) in
  (0 <> 1 ->
   logs (fleet_at w' 1) =
   VList ([] ++ [joined_entry sample_clock (lit "Aurora") 1]) /\
   logs (fleet_at w' 0) =
   VList ([txt "[2024-01-01 00:00:00] Aurora joined the fleet."]
          ++ [left_entry sample_clock (lit "Aurora") 1;
              transferred_entry sample_clock (lit "Aurora") 1]))
  /\
  (0 = 1 ->
   logs (fleet_at w' 0) =
   VList ([txt "[2024-01-01 00:00:00] Aurora joined the fleet."]
          ++ [left_entry sample_clock (lit "Aurora") 1;
              joined_entry sample_clock (lit "Aurora") 1;
              transferred_entry sample_clock (lit "Aurora") 1])).
Proof.
  apply (transfer_boat_logs sample_builtin_msg sample_clock 0 1 0 aurora_added
           [txt "[2024-01-01 00:00:00] Aurora joined the fleet."] []).
  - vm_compute. left.
  - vm_compute. reflexivity.
  - vm_compute. reflexivity.
Defined.

(** C2 fails as stated: [aurora] is transferred from the first registry to
    the second; the entry of the target's [add_boat], written at the third
    reading of the clock, is on the log of the second registry and the log
    of the first has gained the two other entries only. *)
Lemma transfer_joined_entry_on_target_log :
  let w' := snd (transfer_boat sample_builtin_msg sample_clock 0 0 1 aurora_added) in
  logs (fleet_at aurora_added 0) =
  VList [txt "[2024-01-01 00:00:00] Aurora joined the fleet."] /\
  logs (fleet_at aurora_added 1) = VList [] /\
  logs (fleet_at w' 0) =
  VList [txt "[2024-01-01 00:00:00] Aurora joined the fleet.";
         txt "[2024-01-01 00:00:01] Aurora left this fleet for another.";
         txt "[2024-01-01 00:00:03] Aurora transferred to new fleet."] /\
  logs (fleet_at w' 1) =
  VList [txt "[2024-01-01 00:00:02] Aurora joined the fleet."].
Proof. vm_compute. repeat split. Qed.

Lemma transfer_boat_effect_witness :
  let w' := snd (transfer_boat sample_builtin_msg sample_clock 0 0 1 aurora_added) in
  0 ∈ boats (fleet_at w' 1) /\
  log_mentions (logs (fleet_at w' 0)) (lit "left this fleet for another.") /\
  log_mentions (logs (fleet_at w' 0)) (lit "transferred to new fleet.") /\
  log_mentions (logs (fleet_at w' 1)) (lit "joined the fleet.") /\
  (0 <> 1 ->
   boats (fleet_at w' 0) = list_remove 0 (boats (fleet_at aurora_added 0)) /\
   (occurs_once 0 (boats (fleet_at aurora_added 0)) -> 0 ∉ boats (fleet_at w' 0))).
Proof.
  apply (transfer_boat_effect sample_builtin_msg sample_clock 0 1 0 aurora_added).
  - vm_compute. left.
  - eexists. vm_compute. reflexivity.
  - eexists. vm_compute. reflexivity.
Defined.

(** C3 fails as stated: a vessel that was added twice to the first registry
    is still among its vessels after the transfer. *)
Lemma transfer_leaves_duplicate :
  let w' := snd (transfer_boat sample_builtin_msg sample_clock 0 0 1
                   aurora_added_twice) in
  boats (fleet_at aurora_added_twice 0) = [0; 0] /\
  boats (fleet_at w' 0) = [0] /\
  boats (fleet_at w' 1) = [0] /\
  ~ (0 ∉ boats (fleet_at w' 0)).
Proof.
  vm_compute. repeat split. intros H. apply H. left.
Qed.

(** ** The membership invariant *)

Lemma bound_ok_upd_fleet (b : boat_ref) (f : fleet_ref) (g : Fleet -> Fleet) (w : world) :
  (forall F, b ∈ boats F -> b ∈ boats (g F)) ->
  vessel_bound_ok w b -> vessel_bound_ok (upd_fleet f g w) b.
Proof.
  intros Hg Hb B f0 HB Hcf. simpl in HB.
  destruct (Hb B f0 HB Hcf) as (F & HF & Hin).
  simpl. rewrite list_lookup_alter. case_decide as Hd.
  - subst f0. rewrite HF. simpl. eauto.
  - eauto.
Qed.

Lemma bound_ok_upd_boat_ne (b b0 : boat_ref) (g : Boat -> Boat) (w : world) :
  b <> b0 -> vessel_bound_ok w b -> vessel_bound_ok (upd_boat b0 g w) b.
Proof.
  intros Hne Hb B f HB Hcf. simpl in HB.
  rewrite list_lookup_alter_ne in HB by congruence.
  exact (Hb B f HB Hcf).
Qed.

Lemma bound_ok_tick (b : boat_ref) (w : world) :
  vessel_bound_ok w b -> vessel_bound_ok (tick w) b.
Proof. intros Hb. exact Hb. Qed.

Lemma boats_push_log (entry : pystr) (F : Fleet) :
  boats (push_log entry F) = boats F.
Proof. unfold push_log. destruct (logs F); reflexivity. Qed.

Lemma bound_ok_unbound (b : boat_ref) (w : world) :
  vessel_bound_ok (upd_boat b (set_current_fleet None) w) b.
Proof.
  intros B f HB Hcf. simpl in HB. rewrite list_lookup_alter_eq in HB.
  destruct (boat_objs w !! b); simpl in HB; [ | discriminate].
  injection HB as <-. discriminate.
Qed.

Lemma bound_ok_bound (b : boat_ref) (f : fleet_ref) (w : world) :
  f < length (fleet_objs w) ->
  vessel_bound_ok (upd_boat b (bound_to f) (upd_fleet f (append_boat b) w)) b.
Proof.
  intros Hlt B f0 HB Hcf. simpl in HB. rewrite list_lookup_alter_eq in HB.
  destruct (boat_objs w !! b); simpl in HB; [ | discriminate].
  injection HB as <-. simpl in Hcf. injection Hcf as <-.
  apply lookup_lt_is_Some_2 in Hlt as [F HF].
  exists (append_boat b F). simpl. rewrite list_lookup_alter_eq, HF.
  split; [reflexivity | ]. simpl. apply elem_of_app. right. left.
Qed.

Section Invariant.

Variable builtin_msg : builtin_op -> pyval -> pystr.
Variable strftime_now : nat -> pystr.

Lemma bound_ok_logged (b : boat_ref) (f : fleet_ref) (message : pystr) (w : world) :
  vessel_bound_ok w b -> vessel_bound_ok (logged strftime_now f message w) b.
Proof.
  intros Hb. unfold logged. apply bound_ok_upd_fleet.
  - intros F. rewrite boats_push_log. trivial.
  - apply bound_ok_tick. exact Hb.
Qed.

Lemma bound_ok_added_self (b : boat_ref) (f : fleet_ref) (w : world) :
  f < length (fleet_objs w) -> vessel_bound_ok (added strftime_now f b w) b.
Proof.
  intros Hlt. unfold added. apply bound_ok_logged, bound_ok_bound. exact Hlt.
Qed.

Lemma bound_ok_added_other (b b0 : boat_ref) (f : fleet_ref) (w : world) :
  b <> b0 -> vessel_bound_ok w b -> vessel_bound_ok (added strftime_now f b0 w) b.
Proof.
  intros Hne Hb. unfold added.
  apply bound_ok_logged, bound_ok_upd_boat_ne; [exact Hne | ].
  apply bound_ok_upd_fleet; [ | exact Hb].
  intros F Hin. simpl. apply elem_of_app. left. exact Hin.
Qed.

Lemma bound_ok_dropped (b b0 : boat_ref) (f : fleet_ref) (w : world) :
  b <> b0 -> vessel_bound_ok w b ->
  vessel_bound_ok (upd_fleet f (drop_boat b0) w) b.
Proof.
  intros Hne Hb. apply bound_ok_upd_fleet; [ | exact Hb].
  intros F Hin. simpl. apply list_remove_elem_of_ne; assumption.
Qed.

Lemma invariant_added (f : fleet_ref) (b0 : boat_ref) (w : world) :
  f < length (fleet_objs w) ->
  membership_invariant w -> membership_invariant (added strftime_now f b0 w).
Proof.
  intros Hlt Hw b. destruct (decide (b = b0)) as [-> | Hne].
  - apply bound_ok_added_self. exact Hlt.
  - apply bound_ok_added_other; [exact Hne | apply Hw].
Qed.

Lemma invariant_removed (f : fleet_ref) (b0 : boat_ref) (w : world) :
  membership_invariant w -> membership_invariant (removed strftime_now f b0 w).
Proof.
  intros Hw b. unfold removed. apply bound_ok_logged.
  destruct (decide (b = b0)) as [-> | Hne].
  - apply bound_ok_unbound.
  - apply bound_ok_upd_boat_ne; [exact Hne | ].
    apply bound_ok_dropped; [exact Hne | apply Hw].
Qed.

Lemma invariant_transferred (f g : fleet_ref) (b0 : boat_ref) (w : world) :
  g < length (fleet_objs w) ->
  membership_invariant w ->
  membership_invariant (transferred strftime_now f b0 g w).
Proof.
  intros Hlt Hw b. unfold transferred. apply bound_ok_logged.
  destruct (decide (b = b0)) as [-> | Hne].
  - apply bound_ok_added_self. unfold logged, upd_fleet, tick. simpl.
    rewrite !length_alter. exact Hlt.
  - apply bound_ok_added_other; [exact Hne | ].
    apply bound_ok_logged, bound_ok_dropped; [exact Hne | apply Hw].
Qed.

Lemma has_log_list_removed (f f' : fleet_ref) (b : boat_ref) (w : world) :
  has_log_list w f' -> has_log_list (removed strftime_now f b w) f'.
Proof.
  intros H. unfold removed. apply has_log_list_logged.
  unfold has_log_list. rewrite fleet_at_upd_boat.
  apply has_log_list_upd_fleet; [ | exact H]. intros F HF. exact HF.
Qed.

Lemma has_log_list_transferred (f g f' : fleet_ref) (b : boat_ref) (w : world) :
  has_log_list w f' -> has_log_list (transferred strftime_now f b g w) f'.
Proof.
  intros H. unfold transferred.
  apply has_log_list_logged, has_log_list_added, has_log_list_logged.
  apply has_log_list_upd_fleet; [ | exact H]. intros F HF. exact HF.
Qed.

(** One call keeps both the lists of logs and the membership invariant. *)
Lemma run_call_invariant (nfleets nboats : nat) (c : call) (w : world) :
  call_in_range nfleets nboats c ->
  (forall f, f < nfleets -> has_log_list w f) ->
  membership_invariant w ->
  (forall f, f < nfleets ->
     has_log_list (snd (run_call builtin_msg strftime_now c w)) f) /\
  membership_invariant (snd (run_call builtin_msg strftime_now c w)).
Proof.
  intros Hc Hlogs Hw.
  destruct c as [f b | f b | f b g]; simpl in Hc; cbn [run_call].
  - destruct Hc as [Hf _].
    rewrite add_boat_ok by (apply Hlogs; exact Hf). simpl. split.
    + intros f' Hf'. apply has_log_list_added, Hlogs. exact Hf'.
    + apply invariant_added; [ | exact Hw].
      apply has_log_list_valid, Hlogs. exact Hf.
  - destruct Hc as [Hf _].
    destruct (decide (b ∈ boats (fleet_at w f))) as [Hin | Hout].
    + rewrite remove_boat_ok by (try apply Hlogs; assumption). simpl. split.
      * intros f' Hf'. apply has_log_list_removed, Hlogs. exact Hf'.
      * apply invariant_removed. exact Hw.
    + rewrite remove_boat_absent by exact Hout. simpl. split; assumption.
  - destruct Hc as (Hf & _ & Hg).
    destruct (decide (b ∈ boats (fleet_at w f))) as [Hin | Hout].
    + rewrite transfer_boat_ok by (try apply Hlogs; assumption). simpl. split.
      * intros f' Hf'. apply has_log_list_transferred, Hlogs. exact Hf'.
      * apply invariant_transferred; [ | exact Hw].
        apply has_log_list_valid, Hlogs. exact Hg.
    + rewrite transfer_boat_absent by exact Hout. simpl. split; assumption.
Qed.

(** C5: in every state that a sequence of [add_boat], [remove_boat] and
    [transfer_boat] calls reaches from freshly created registries and
    unbound vessels, each vessel's [current_fleet] is unset or refers to a
    registry whose [boats] contains the vessel; the calls may add one
    vessel to several registries or to one registry several times. *)
Theorem membership_invariant_reachable
  (nfleets : nat) (vessels : list Boat) (cs : list call) :
  Forall (fun b => current_fleet b = None) vessels ->
  Forall (call_in_range nfleets (length vessels)) cs ->
  membership_invariant
    (run_calls builtin_msg strftime_now cs (fresh_world nfleets vessels)).
Proof.
  intros Hunbound Hcs.
  assert (Hlogs0 : forall f, f < nfleets ->
                     has_log_list (fresh_world nfleets vessels) f).
  { intros f Hf. exists []. unfold fleet_at, fresh_world. simpl.
    rewrite lookup_replicate_2 by exact Hf. reflexivity. }
  assert (Hinv0 : membership_invariant (fresh_world nfleets vessels)).
  { intros b B f HB Hcf. simpl in HB.
    rewrite Forall_lookup in Hunbound. rewrite (Hunbound b B HB) in Hcf.
    discriminate. }
  revert Hlogs0 Hinv0. generalize (fresh_world nfleets vessels) as w.
  induction Hcs as [ | c cs Hc Hcs IH]; intros w Hlogs Hinv; simpl.
  - exact Hinv.
  - destruct (run_call_invariant nfleets (length vessels) c w Hc Hlogs Hinv)
      as [Hlogs' Hinv'].
    apply IH; assumption.
Qed.

End Invariant.

Lemma membership_invariant_reachable_witness :
  membership_invariant
    (run_calls sample_builtin_msg sample_clock
       [CallAdd 0 0; CallAdd 1 0; CallAdd 0 0; CallRemove 1 0;
        CallTransfer 0 0 1]
       (fresh_world 2 [aurora])).
Proof.
  apply (membership_invariant_reachable sample_builtin_msg sample_clock 2
           [aurora]).
  - repeat constructor.
  - repeat constructor.
Defined.

(** ** Sorting by name *)




Section SortFacts.

Context {A : Type}.
Variable key : A -> pystr.

Lemma sort_insert_perm (x : A) (l : list A) : sort_insert key x l ≡ₚ x :: l.
Proof.
  induction l as [ | y l IH]; simpl; [reflexivity | ].
  destruct (str_leb (key x) (key y)); [reflexivity | ].
  rewrite IH. apply perm_swap.
Qed.

Lemma list_sort_perm (l : list A) : list_sort key l ≡ₚ l.
Proof.
  induction l as [ | x l IH]; simpl; [reflexivity | ].
  rewrite sort_insert_perm, IH. reflexivity.
Qed.







End SortFacts.

Section SortClaim.

Variable self : fleet_ref.
Variable w : world.


End SortClaim.

(** ** The status report *)

Lemma count_classes (bs : list Boat) :
  (Z.of_nat (length bs) - count isinstance_CargoBoat bs
   - count isinstance_MilitaryBoat bs)%Z = count is_regular bs.
Proof.
  unfold count. induction bs as [ | b bs IH]; [reflexivity | ].
  unfold isinstance_CargoBoat, isinstance_MilitaryBoat, is_regular in *.
  cbn [List.filter length]. destruct (cls b); cbn [length]; lia.
Qed.

Lemma generate_status_report_nonempty (self : fleet_ref) (w : world) :
  let bs := map (boat_at w) (boats (fleet_at w self)) in
  let total := Z.of_nat (length bs) in
  let cargo := count isinstance_CargoBoat bs in
  let military := count isinstance_MilitaryBoat bs in
  let report := counts_text total (total - cargo - military) cargo military in
  boats (fleet_at w self) <> [] ->
  generate_status_report self w =
  (if (0 <? cargo)%Z
   then let? total_cargo_capacity := py_sum (cargo_capacities bs) in
        let? text := format_2f total_cargo_capacity in
        Ok (report ++ lit "Total Cargo Capacity: " ++ text ++ lit " tons" ++ nl)
   else Ok report, w).
Proof.
  intros bs total cargo military report Hne.
  unfold generate_status_report, bind, get_world. fold bs.
  destruct bs as [ | b bs'] eqn:Ebs.
  { destruct (boats (fleet_at w self)); [congruence | discriminate]. }
  fold total cargo military.
  assert (Hreport :
    emoji_chart ++ lit " Fleet Status Report:" ++ nl ++ nl
    ++ lit "Total Boats: " ++ str_int total ++ nl
    ++ lit "Regular Boats: " ++ str_int (total - cargo - military) ++ nl
    ++ lit "Cargo Boats: " ++ str_int cargo ++ nl
    ++ lit "Military Boats: " ++ str_int military ++ nl = report)
    by reflexivity.
  rewrite Hreport.
  destruct (0 <? cargo)%Z; [ | reflexivity].
  unfold lift, ret.
  destruct (py_sum (cargo_capacities (b :: bs'))) as [v | e]; [ | reflexivity].
  simpl. destruct (format_2f v); reflexivity.
Qed.

(** C6: on a registry without vessels [generate_status_report] returns
    exactly the empty-fleet message; on one holding a cargo vessel of
    capacity 500.0 and a military vessel, in either order, exactly the
    report with [Total Boats: 2], [Regular Boats: 0], [Cargo Boats: 1],
    [Military Boats: 1] and [Total Cargo Capacity: 500.00 tons]; in general
    the regular count, total minus cargo minus military, is the number of
    vessels of the base class, and the capacity line is written exactly
    when there is a cargo vessel. *)
Theorem status_report (self : fleet_ref) (w : world) :
  (boats (fleet_at w self) = [] ->
   generate_status_report self w =
   (Ok (emoji_chart ++ lit " Fleet Status Report:" ++ nl ++ nl
        ++ lit "Fleet is currently empty."), w))
  /\
  (forall cargo military weapon_count is_authorised_by_gov,
     boats (fleet_at w self) = [cargo; military] \/
     boats (fleet_at w self) = [military; cargo] ->
     cls (boat_at w cargo) = ClsCargoBoat (VFloat float_500) ->
     cls (boat_at w military) = ClsMilitaryBoat weapon_count is_authorised_by_gov ->
     generate_status_report self w =
     (Ok (emoji_chart ++ lit " Fleet Status Report:" ++ nl ++ nl
          ++ lit "Total Boats: 2" ++ nl
          ++ lit "Regular Boats: 0" ++ nl
          ++ lit "Cargo Boats: 1" ++ nl
          ++ lit "Military Boats: 1" ++ nl
          ++ lit "Total Cargo Capacity: 500.00 tons" ++ nl), w))
  /\
  (boats (fleet_at w self) <> [] ->
   let bs := map (boat_at w) (boats (fleet_at w self)) in
   let total := Z.of_nat (length bs) in
   let cargo := count isinstance_CargoBoat bs in
   let military := count isinstance_MilitaryBoat bs in
   let regular := (total - cargo - military)%Z in
   let report := counts_text total regular cargo military in
   regular = count is_regular bs /\
   (cargo = 0%Z -> generate_status_report self w = (Ok report, w)) /\
   ((0 < cargo)%Z ->
    generate_status_report self w =
    (let? total_cargo_capacity := py_sum (cargo_capacities bs) in
     let? text := format_2f total_cargo_capacity in
     Ok (report ++ lit "Total Cargo Capacity: " ++ text ++ lit " tons" ++ nl),
     w))).
Proof.
  split; [ | split].
  - intros Hnil. unfold generate_status_report, bind, get_world.
    rewrite Hnil. reflexivity.
  - intros c m wc auth Hboats Hc Hm.
    rewrite generate_status_report_nonempty
      by (destruct Hboats as [-> | ->]; discriminate).
    unfold count, isinstance_CargoBoat, isinstance_MilitaryBoat.
    destruct Hboats as [-> | ->]; cbn [map List.filter cargo_capacities];
      rewrite Hc, Hm; reflexivity.
  - intros Hne bs total cargo military regular report.
    split; [apply count_classes | ].
    split; intros Hcargo;
      rewrite generate_status_report_nonempty by exact Hne;
      fold bs total cargo military regular report.
    + rewrite Hcargo. reflexivity.
    + apply Z.ltb_lt in Hcargo. rewrite Hcargo. reflexivity.
Qed.

Lemma status_report_witness :
  generate_status_report 0 scenario_fleet =
  (Ok (emoji_chart ++ lit " Fleet Status Report:" ++ nl ++ nl
       ++ lit "Total Boats: 2" ++ nl
       ++ lit "Regular Boats: 0" ++ nl
       ++ lit "Cargo Boats: 1" ++ nl
       ++ lit "Military Boats: 1" ++ nl
       ++ lit "Total Cargo Capacity: 500.00 tons" ++ nl), scenario_fleet)
  /\
  generate_status_report 0 (fresh_world 1 []) =
  (Ok (emoji_chart ++ lit " Fleet Status Report:" ++ nl ++ nl
       ++ lit "Fleet is currently empty."), fresh_world 1 []).
Proof.
  split.
  - apply (proj1 (proj2 (status_report 0 scenario_fleet)) 0 1 (VInt 4) (VBool true)).
    + left. vm_compute. reflexivity.
    + vm_compute. reflexivity.
    + vm_compute. reflexivity.
  - apply (proj1 (status_report 0 (fresh_world 1 []))).
    vm_compute. reflexivity.
Defined.

(** ** Loading *)

Section LoadFacts.

Variable fromtimestamp_date : pyval -> res date.
Variable builtin_msg : builtin_op -> pyval -> pystr.
Variable strftime_now : nat -> pystr.

Lemma CargoBoat_init_inv (vn ld vhp vfl cap : pyval) (b : Boat) :
  CargoBoat_init fromtimestamp_date vn ld vhp vfl cap = Ok b ->
  exists self, Boat_init fromtimestamp_date vn ld vhp vfl = Ok self /\
               b = set_cls (ClsCargoBoat cap) self.
Proof.
  unfold CargoBoat_init.
  destruct (Boat_init _ vn ld vhp vfl) as [self | ]; try discriminate.
  simpl. destruct (isinstance_number cap); try discriminate.
  simpl. destruct (lt_zero cap); try discriminate.
  intros [= <-]. eauto.
Qed.

Lemma MilitaryBoat_init_inv (vn ld vhp vfl wc auth : pyval) (b : Boat) :
  MilitaryBoat_init fromtimestamp_date vn ld vhp vfl wc auth = Ok b ->
  exists self, Boat_init fromtimestamp_date vn ld vhp vfl = Ok self /\
               b = set_cls (ClsMilitaryBoat wc auth) self.
Proof.
  unfold MilitaryBoat_init.
  destruct (Boat_init _ vn ld vhp vfl) as [self | ]; try discriminate.
  simpl. destruct (isinstance_number wc); try discriminate.
  simpl. destruct (lt_zero wc); try discriminate.
  destruct (isinstance_bool auth); try discriminate.
  intros [= <-]. eauto.
Qed.

Lemma Boat_init_unbound (vn ld vhp vfl : pyval) (b : Boat) :
  Boat_init fromtimestamp_date vn ld vhp vfl = Ok b ->
  current_fleet b = None /\ fleet_history b = [].
Proof.
  intros H. apply Boat_init_inv in H as (n & hp & fl & d & H).
  destruct H as (_ & _ & _ & _ & _ & _ & _ & _ & ->). split; reflexivity.
Qed.

(** A vessel rebuilt from a document is unbound and has no fleet history. *)
Lemma from_dict_unbound (item : pyval) (b : Boat) :
  from_dict fromtimestamp_date builtin_msg item = Ok b ->
  current_fleet b = None /\ fleet_history b = [].
Proof.
  unfold from_dict. destruct item as [ | | | | | | | d]; try discriminate.
  destruct (getitem d "launch_date") as [ld | ]; try discriminate. simpl.
  assert (Hrestore : forall b0 : Boat,
    current_fleet b0 = None /\ fleet_history b0 = [] ->
    Ok (match d !! lit "position_logs" with
        | Some p =>
            set_position_logs p
              match d !! lit "current_position" with
              | Some p0 => set_current_position p0 b0
              | None => b0
              end
        | None =>
            match d !! lit "current_position" with
            | Some p0 => set_current_position p0 b0
            | None => b0
            end
        end) = Ok b ->
    current_fleet b = None /\ fleet_history b = []).
  { intros b0 Hb0 [= <-].
    destruct (d !! lit "position_logs"), (d !! lit "current_position");
      exact Hb0. }
  destruct (has_key d "cargo_capacity").
  - destruct (getitem d "name") as [vn | ]; try discriminate. simpl.
    destruct (getitem d "home_port") as [vhp | ]; try discriminate. simpl.
    destruct (getitem d "flag") as [vfl | ]; try discriminate. simpl.
    destruct (getitem d "cargo_capacity") as [cap | ]; try discriminate. simpl.
    destruct (CargoBoat_init _ vn ld vhp vfl cap) as [b0 | ] eqn:E;
      try discriminate. simpl.
    apply Hrestore. apply CargoBoat_init_inv in E as (self & Hself & ->).
    apply Boat_init_unbound in Hself. exact Hself.
  - destruct (has_key d "weapon_count").
    + destruct (getitem d "name") as [vn | ]; try discriminate. simpl.
      destruct (getitem d "home_port") as [vhp | ]; try discriminate. simpl.
      destruct (getitem d "flag") as [vfl | ]; try discriminate. simpl.
      destruct (getitem d "weapon_count") as [wc | ]; try discriminate. simpl.
      destruct (getitem d "is_authorised_by_gov") as [auth | ];
        try discriminate. simpl.
      destruct (MilitaryBoat_init _ vn ld vhp vfl wc auth) as [b0 | ] eqn:E;
        try discriminate. simpl.
      apply Hrestore. apply MilitaryBoat_init_inv in E as (self & Hself & ->).
      apply Boat_init_unbound in Hself. exact Hself.
    + destruct (getitem d "name") as [vn | ]; try discriminate. simpl.
      destruct (getitem d "home_port") as [vhp | ]; try discriminate. simpl.
      destruct (getitem d "flag") as [vfl | ]; try discriminate. simpl.
      destruct (Boat_init _ vn ld vhp vfl) as [b0 | ] eqn:E;
        try discriminate. simpl.
      apply Hrestore. apply Boat_init_unbound in E. exact E.
Qed.

(** One round of the loop. *)
Lemma load_boat_eq (self : fleet_ref) (item : pyval) (w : world) :
  load_boat fromtimestamp_date builtin_msg self item w =
  match from_dict fromtimestamp_date builtin_msg item with
  | Ok b =>
      (Ok tt,
       mkWorld (boat_objs w ++ [bound_to self b])
         (alter (append_boat (length (boat_objs w))) self (fleet_objs w))
         (ticks w))
  | Raise e => (Raise e, w)
  end.
Proof.
  unfold load_boat, bind, lift, alloc_boat, update_fleet, update_boat.
  destruct (from_dict _ _ item) as [b | e]; [ | reflexivity].
  unfold upd_boat, upd_fleet. simpl. f_equal. f_equal.
  rewrite list_alter_alter_eq.
  replace (length (boat_objs w)) with (length (boat_objs w) + 0) at 1 by lia.
  rewrite alter_app_r. reflexivity.
Qed.

Lemma loaded_world_nil (self : fleet_ref) (w : world) :
  loaded_world self [] w = w.
Proof.
  destruct w as [bs fs t]. unfold loaded_world. simpl.
  rewrite app_nil_r. f_equal.
  apply list_alter_id. intros [l lg]. unfold set_boats. simpl.
  rewrite app_nil_r. reflexivity.
Qed.

Lemma for_each_load_ok (self : fleet_ref) (items : list pyval) (bs : list Boat) (w : world) :
  reconstructs builtin_msg fromtimestamp_date items bs ->
  for_each items (load_boat fromtimestamp_date builtin_msg self) w =
  (Ok tt, loaded_world self bs w).
Proof.
  intros H. revert w.
  induction H as [ | item b items bs Hb _ IH]; intros w; simpl.
  - unfold ret. rewrite loaded_world_nil. reflexivity.
  - unfold bind. rewrite load_boat_eq, Hb. rewrite IH.
    f_equal. unfold loaded_world. simpl. f_equal.
    + rewrite <- app_assoc. reflexivity.
    + rewrite list_alter_alter_eq. apply list_alter_ext; [ | reflexivity].
      intros F _. unfold append_boat, set_boats. simpl.
      rewrite length_app. simpl. rewrite <- app_assoc. simpl.
      replace (length (boat_objs w) + 1) with (S (length (boat_objs w))) by lia.
      reflexivity.
Qed.

Lemma for_each_load_inv (self : fleet_ref) (items : list pyval) (w w' : world) (u : unit) :
  for_each items (load_boat fromtimestamp_date builtin_msg self) w = (Ok u, w') ->
  exists bs, reconstructs builtin_msg fromtimestamp_date items bs.
Proof.
  revert w. induction items as [ | item items IH]; intros w H.
  - exists []. constructor.
  - simpl in H. unfold bind in H. rewrite load_boat_eq in H.
    destruct (from_dict _ _ item) as [b | e] eqn:Hb; [ | discriminate].
    destruct (IH _ H) as [bs Hbs]. exists (b :: bs). constructor; assumption.
Qed.

(** The body of [load_from_file] past the reading of the file. *)
Lemma load_from_file_json (data : pyval) (self : fleet_ref) (w : world) :
  load_from_file fromtimestamp_date builtin_msg (JsonFile data) self w =
  let w1 := upd_fleet self (set_boats []) w in
  match data with
  | VDict d =>
      let w2 := upd_fleet self (set_logs (document_field d "logs")) w1 in
      match py_iter builtin_msg (document_field d "boats") with
      | Ok items =>
          match for_each items (load_boat fromtimestamp_date builtin_msg self) w2 with
          | (Ok _, w3) =>
              (Ok (loaded_message (length (boats (fleet_at w3 self)))), w3)
          | (Raise e, w3) => load_except e w3
          end
      | Raise e => load_except e w2
      end
  | _ =>
      load_except
        (Exn AttributeError (builtin_msg (OpGetAttr (lit "get")) data)) w1
  end.
Proof.
  unfold load_from_file, try_except, bind, lift, update_fleet, get_world, ret.
  destruct data; try reflexivity. simpl.
  unfold document_field.
  destruct (py_iter builtin_msg _) as [items | e]; [ | reflexivity].
  destruct (for_each items _ _) as [[u | e] w3]; reflexivity.
Qed.

Lemma load_except_not_loaded (e : exn) (w : world) (k : nat) :
  fst (load_except e w) <> Ok (loaded_message k).
Proof.
  unfold load_except. destruct (exn_cls e); simpl; intros H; discriminate H.
Qed.

(** A load that answers with the success message has read a dictionary
    whose vessel documents all reconstruct. *)
Lemma load_success_inv (file : file_state) (self : fleet_ref) (w : world) (k : nat) :
  fst (load_from_file fromtimestamp_date builtin_msg file self w) =
  Ok (loaded_message k) ->
  exists d items bs,
    file = JsonFile (VDict d) /\
    py_iter builtin_msg (document_field d "boats") = Ok items /\
    reconstructs builtin_msg fromtimestamp_date items bs.
Proof.
  intros H. destruct file as [ | e | data].
  - discriminate H.
  - exfalso. revert H. apply (load_except_not_loaded e w k).
  - rewrite load_from_file_json in H. cbv zeta in H.
    destruct data as [ | | | | | | | d];
      try (exfalso; revert H; apply load_except_not_loaded).
    destruct (py_iter builtin_msg _) as [items | e] eqn:Hitems;
      [ | exfalso; revert H; apply load_except_not_loaded].
    destruct (for_each items _ _) as [[u | e] w3] eqn:Hloop;
      [ | exfalso; revert H; apply load_except_not_loaded].
    apply for_each_load_inv in Hloop as [bs Hbs].
    exists d, items, bs. repeat split; assumption.
Qed.

(** What a load leaves behind when every document reconstructs. *)
Lemma load_from_file_ok (d : gmap pystr pyval) (items : list pyval)
  (bs : list Boat) (self : fleet_ref) (w : world) :
  self < length (fleet_objs w) ->
  py_iter builtin_msg (document_field d "boats") = Ok items ->
  reconstructs builtin_msg fromtimestamp_date items bs ->
  load_from_file fromtimestamp_date builtin_msg (JsonFile (VDict d)) self w =
  (Ok (loaded_message (length bs)),
   mkWorld (boat_objs w ++ map (bound_to self) bs)
     (<[self := mkFleet (seq (length (boat_objs w)) (length bs))
                  (document_field d "logs")]> (fleet_objs w))
     (ticks w)).
Proof.
  intros Hself Hitems Hbs. rewrite load_from_file_json. cbv zeta.
  rewrite Hitems, (for_each_load_ok self items bs _ Hbs).
  assert (Hfleets :
    fleet_objs (loaded_world self bs
      (upd_fleet self (set_logs (document_field d "logs"))
         (upd_fleet self (set_boats []) w))) =
    <[self := mkFleet (seq (length (boat_objs w)) (length bs))
                (document_field d "logs")]> (fleet_objs w)).
  { unfold loaded_world, upd_fleet. simpl.
    rewrite !list_alter_alter_eq, list_insert_alter.
    apply list_alter_ext; [ | reflexivity]. intros F _. reflexivity. }
  assert (Hat : fleet_at (loaded_world self bs
      (upd_fleet self (set_logs (document_field d "logs"))
         (upd_fleet self (set_boats []) w))) self =
    mkFleet (seq (length (boat_objs w)) (length bs)) (document_field d "logs")).
  { unfold fleet_at. rewrite Hfleets.
    rewrite list_lookup_insert_eq by exact Hself. reflexivity. }
  f_equal.
  - rewrite Hat. cbn [boats]. rewrite length_seq. reflexivity.
  - rewrite <- Hfleets. reflexivity.
Qed.

Lemma record_arrival_ok (self : fleet_ref) (boat : boat_ref) (location : pystr) (w : world) :
  boat ∈ boats (fleet_at w self) -> has_log_list w self ->
  record_arrival builtin_msg strftime_now self boat location w =
  (Ok (emoji_pin ++ lit " " ++ name (boat_at w boat)
       ++ lit " arrival recorded at " ++ location ++ lit "."),
   logged strftime_now self
     (name (boat_at w boat) ++ lit " arrived at " ++ location ++ lit ".") w).
Proof.
  intros Hin H. unfold record_arrival, get_world. unfold bind at 1.
  rewrite bool_decide_eq_true_2 by exact Hin. cbn [negb].
  unfold bind. rewrite record_log_ok by exact H. reflexivity.
Qed.

End LoadFacts.

Lemma lookup_map {A B} (f : A -> B) (l : list A) (i : nat) :
  map f l !! i = f <$> l !! i.
Proof.
  revert i. induction l as [ | x l IH]; intros [ | i]; simpl; try reflexivity.
  apply IH.
Qed.

Lemma getitem_Ok (d : gmap pystr pyval) (key : string) (v : pyval) :
  getitem d key = Ok v <-> d !! lit key = Some v.
Proof.
  unfold getitem. destruct (d !! lit key); split; congruence.
Qed.

Lemma has_key_true (d : gmap pystr pyval) (key : string) :
  has_key d key = true <-> is_Some (d !! lit key).
Proof. unfold has_key. apply bool_decide_eq_true. Qed.

Lemma has_key_false (d : gmap pystr pyval) (key : string) :
  has_key d key = false <-> d !! lit key = None.
Proof.
  unfold has_key. rewrite bool_decide_eq_false, <- eq_None_not_Some.
  reflexivity.
Qed.

Section LoadClaims.

Variable fromtimestamp_date : pyval -> res date.
Variable builtin_msg : builtin_op -> pyval -> pystr.
Variable strftime_now : nat -> pystr.

(** What the loop of [load_from_file] rebuilds from a document holds the
    contents of that document. *)
Lemma from_dict_holds_document (item : pyval) (b : Boat) :
  from_dict fromtimestamp_date builtin_msg item = Ok b ->
  exists doc, item = VDict doc /\ holds_document fromtimestamp_date doc b.
Proof.
  intros H. pose proof (from_dict_unbound _ _ _ _ H) as [Hcf Hfh].
  unfold from_dict in H. destruct item as [ | | | | | | | d]; try discriminate.
  exists d. split; [reflexivity | ].
  destruct (getitem d "launch_date") as [ld | ] eqn:Eld; try discriminate.
  apply getitem_Ok in Eld. simpl in H.
  assert (Hfinish : forall b0 : Boat,
    current_position b0 = VNone -> position_logs b0 = VList [] ->
    Ok (match d !! lit "position_logs" with
        | Some p =>
            set_position_logs p
              match d !! lit "current_position" with
              | Some p0 => set_current_position p0 b0
              | None => b0
              end
        | None =>
            match d !! lit "current_position" with
            | Some p0 => set_current_position p0 b0
            | None => b0
            end
        end) = Ok b ->
    name b = name b0 /\ home_port b = home_port b0 /\ flag b = flag b0 /\
    launch_date b = launch_date b0 /\ cls b = cls b0 /\
    current_position b = default VNone (d !! lit "current_position") /\
    position_logs b = default (VList []) (d !! lit "position_logs")).
  { intros b0 Hcp Hpl [= <-].
    destruct (d !! lit "position_logs"), (d !! lit "current_position"); simpl;
      repeat split; first [assumption | reflexivity]. }
  assert (Hbase : forall vn vhp vfl self,
    d !! lit "name" = Some vn -> d !! lit "home_port" = Some vhp ->
    d !! lit "flag" = Some vfl ->
    Boat_init fromtimestamp_date vn ld vhp vfl = Ok self ->
    d !! lit "name" = Some (VStr (name self)) /\
    d !! lit "home_port" = Some (VStr (home_port self)) /\
    d !! lit "flag" = Some (VStr (flag self)) /\
    stored_launch_date fromtimestamp_date ld (launch_date self) /\
    current_position self = VNone /\ position_logs self = VList [] /\
    cls self = ClsBoat).
  { intros vn vhp vfl self Hvn Hvhp Hvfl Hself.
    apply Boat_init_inv in Hself
      as (n & hp & fl & dd & -> & -> & -> & _ & _ & _ & Hld & Hdd & ->).
    simpl. split_and!; try assumption; try reflexivity.
    unfold stored_launch_date.
    destruct ld; simpl in Hdd; first [assumption | exact (Hld eq_refl)]. }
  unfold holds_document.
  destruct (has_key d "cargo_capacity") eqn:Ecargo.
  - destruct (getitem d "name") as [vn | ] eqn:En; try discriminate.
    destruct (getitem d "home_port") as [vhp | ] eqn:Ehp; try discriminate.
    destruct (getitem d "flag") as [vfl | ] eqn:Efl; try discriminate.
    destruct (getitem d "cargo_capacity") as [cap | ] eqn:Ecap; try discriminate.
    apply getitem_Ok in En, Ehp, Efl, Ecap. simpl in H.
    destruct (CargoBoat_init _ vn ld vhp vfl cap) as [b0 | ] eqn:E;
      try discriminate. simpl in H.
    apply CargoBoat_init_inv in E as (self & Hself & ->).
    destruct (Hbase vn vhp vfl self En Ehp Efl Hself)
      as (Hn' & Hhp' & Hfl' & Hdate & Hcp & Hpl & _).
    destruct (Hfinish (set_cls (ClsCargoBoat cap) self) Hcp Hpl H)
      as (-> & -> & -> & -> & -> & Hcp' & Hpl').
    simpl. split_and!; try assumption; eauto.
  - destruct (has_key d "weapon_count") eqn:Eweapon.
    + destruct (getitem d "name") as [vn | ] eqn:En; try discriminate.
      destruct (getitem d "home_port") as [vhp | ] eqn:Ehp; try discriminate.
      destruct (getitem d "flag") as [vfl | ] eqn:Efl; try discriminate.
      destruct (getitem d "weapon_count") as [wc | ] eqn:Ewc; try discriminate.
      destruct (getitem d "is_authorised_by_gov") as [auth | ] eqn:Eauth;
        try discriminate.
      apply getitem_Ok in En, Ehp, Efl, Ewc, Eauth. simpl in H.
      destruct (MilitaryBoat_init _ vn ld vhp vfl wc auth) as [b0 | ] eqn:E;
        try discriminate. simpl in H.
      apply MilitaryBoat_init_inv in E as (self & Hself & ->).
      destruct (Hbase vn vhp vfl self En Ehp Efl Hself)
        as (Hn' & Hhp' & Hfl' & Hdate & Hcp & Hpl & _).
      destruct (Hfinish (set_cls (ClsMilitaryBoat wc auth) self) Hcp Hpl H)
        as (-> & -> & -> & -> & -> & Hcp' & Hpl').
      apply has_key_false in Ecargo.
      simpl. split_and!; try assumption; eauto.
    + destruct (getitem d "name") as [vn | ] eqn:En; try discriminate.
      destruct (getitem d "home_port") as [vhp | ] eqn:Ehp; try discriminate.
      destruct (getitem d "flag") as [vfl | ] eqn:Efl; try discriminate.
      apply getitem_Ok in En, Ehp, Efl. simpl in H.
      destruct (Boat_init _ vn ld vhp vfl) as [b0 | ] eqn:E;
        try discriminate. simpl in H.
      destruct (Hbase vn vhp vfl b0 En Ehp Efl E)
        as (Hn' & Hhp' & Hfl' & Hdate & Hcp & Hpl & Hcls).
      destruct (Hfinish b0 Hcp Hpl H)
        as (-> & -> & -> & -> & -> & Hcp' & Hpl').
      apply has_key_false in Ecargo, Eweapon.
      rewrite Hcls. simpl. split_and!; try assumption; eauto.
Qed.

(** Documents that all reconstruct are dictionaries, and the vessels hold
    their contents one by one. *)
Lemma reconstructs_documents (items : list pyval) (bs : list Boat) :
  reconstructs builtin_msg fromtimestamp_date items bs ->
  exists docs,
    items = map VDict docs /\
    Forall2 (holds_document fromtimestamp_date) docs bs.
Proof.
  intros H. unfold reconstructs in H.
  induction H as [ | item b items bs Hb _ (docs & -> & IH)].
  - exists []. split; [reflexivity | constructor].
  - apply from_dict_holds_document in Hb as (doc & -> & Hdoc).
    exists (doc :: docs). split; [reflexivity | constructor; assumption].
Qed.

(** When the loop draws dictionaries only, they are the entries of the list
    under [boats]. *)
Lemma py_iter_file_documents (d : gmap pystr pyval)
  (docs : list (gmap pystr pyval)) :
  py_iter builtin_msg (document_field d "boats") = Ok (map VDict docs) ->
  file_documents d docs.
Proof.
  unfold document_field, file_documents.
  destruct (d !! lit "boats") as [v | ]; cbn [default].
  - destruct v as [ | | | | s | | l | m]; cbn [py_iter]; try discriminate.
    + intros [= H]. destruct s, docs; try discriminate H. split; reflexivity.
    + intros [= H]. exact H.
    + intros [= H]. destruct (map_to_list m) as [ | kv kvs] eqn:E.
      * apply map_to_list_empty_iff in E.
        destruct docs; [split; [exact E | reflexivity] | discriminate H].
      * destruct docs; discriminate H.
  - cbn [py_iter]. intros [= H]. destruct docs; [reflexivity | discriminate H].
Qed.

(** The vessels of a loaded registry, one by one. *)
Lemma loaded_vessel (d : gmap pystr pyval) (bs : list Boat) (self : fleet_ref)
  (w : world) (i : nat) (B : Boat) :
  let w' :=
    mkWorld (boat_objs w ++ map (bound_to self) bs)
      (<[self := mkFleet (seq (length (boat_objs w)) (length bs))
                   (document_field d "logs")]> (fleet_objs w))
      (ticks w) in
  let b := length (boat_objs w) + i in
  self < length (fleet_objs w) ->
  bs !! i = Some B ->
  fleet_at w' self =
    mkFleet (seq (length (boat_objs w)) (length bs)) (document_field d "logs") /\
  boats (fleet_at w' self) !! i = Some b /\
  boat_objs w' !! b = Some (bound_to self B) /\
  boat_at w' b = bound_to self B /\
  b ∈ boats (fleet_at w' self).
Proof.
  intros w' b Hself HB.
  assert (Hat : fleet_at w' self =
    mkFleet (seq (length (boat_objs w)) (length bs)) (document_field d "logs")).
  { unfold fleet_at, w'. simpl.
    rewrite list_lookup_insert_eq by exact Hself. reflexivity. }
  assert (Hi : boats (fleet_at w' self) !! i = Some b).
  { rewrite Hat. simpl. apply lookup_seq_lt. eapply lookup_lt_Some. exact HB. }
  assert (Hb : boat_objs w' !! b = Some (bound_to self B)).
  { unfold w', b. simpl. rewrite lookup_app_r by lia.
    replace (length (boat_objs w) + i - length (boat_objs w)) with i by lia.
    rewrite lookup_map, HB. reflexivity. }
  repeat split; try assumption.
  - unfold boat_at. rewrite Hb. reflexivity.
  - eapply list_elem_of_lookup_2. exact Hi.
Qed.

(** C8: when the file is missing, [load_from_file] answers with the
    no-saved-data message and leaves the whole store, the registry's vessels
    and logs included, as it was.  When it answers with the success
    message, the file held a dictionary; its vessel documents are the
    entries of the list under [boats], all of them dictionaries; the
    vessels of the registry are then new objects, one for each document in
    the order of the file, and each holds the contents of its document:
    name, home port, flag, launch date, position data, class and subclass
    attributes.  The logs of the registry are the [logs] of the file (empty
    if the file has none), whatever the registry held before; other
    registries and the vessels that existed before are untouched. *)
Theorem load_from_file_missing_or_success
  (file : file_state) (self : fleet_ref) (w : world) :
  load_from_file fromtimestamp_date builtin_msg NoFile self w =
  (Ok no_saved_data, w)
  /\
  (self < length (fleet_objs w) ->
   load_succeeded
     (fst (load_from_file fromtimestamp_date builtin_msg file self w)) ->
   let w' := snd (load_from_file fromtimestamp_date builtin_msg file self w) in
   exists d items bs docs,
     file = JsonFile (VDict d) /\
     py_iter builtin_msg (document_field d "boats") = Ok items /\
     reconstructs builtin_msg fromtimestamp_date items bs /\
     items = map VDict docs /\
     file_documents d docs /\
     Forall2 (holds_document fromtimestamp_date) docs bs /\
     fst (load_from_file fromtimestamp_date builtin_msg file self w) =
       Ok (loaded_message (length bs)) /\
     logs (fleet_at w' self) = document_field d "logs" /\
     boats (fleet_at w' self) = seq (length (boat_objs w)) (length bs) /\
     map (boat_at w') (boats (fleet_at w' self)) = map (bound_to self) bs /\
     (forall f, f <> self -> fleet_at w' f = fleet_at w f) /\
     (forall b, b < length (boat_objs w) -> boat_at w' b = boat_at w b)).
Proof.
  split; [reflexivity | ].
  intros Hself [k Hk] w'.
  destruct (load_success_inv _ _ _ _ _ _ Hk) as (d & items & bs & -> & Hitems & Hbs).
  destruct (reconstructs_documents items bs Hbs) as (docs & Hdocs & Hhold).
  assert (Hfile : file_documents d docs).
  { apply py_iter_file_documents. rewrite <- Hdocs. exact Hitems. }
  exists d, items, bs, docs. unfold w'.
  rewrite (load_from_file_ok _ _ d items bs self w Hself Hitems Hbs).
  cbn [fst snd].
  assert (Hat : fleet_at
    (mkWorld (boat_objs w ++ map (bound_to self) bs)
       (<[self := mkFleet (seq (length (boat_objs w)) (length bs))
                    (document_field d "logs")]> (fleet_objs w)) (ticks w)) self =
    mkFleet (seq (length (boat_objs w)) (length bs)) (document_field d "logs")).
  { unfold fleet_at. simpl.
    rewrite list_lookup_insert_eq by exact Hself. reflexivity. }
  rewrite Hat. cbn [boats logs].
  split; [reflexivity | ]. split; [exact Hitems | ]. split; [exact Hbs | ].
  split; [exact Hdocs | ]. split; [exact Hfile | ]. split; [exact Hhold | ].
  split; [reflexivity | ]. split; [reflexivity | ]. split; [reflexivity | ].
  split; [ | split].
  - apply list_eq. intros i. rewrite !lookup_map.
    destruct (bs !! i) as [B | ] eqn:HB.
    + rewrite lookup_seq_lt by (eapply lookup_lt_Some; exact HB). simpl.
      destruct (loaded_vessel d bs self w i B Hself HB) as (_ & _ & _ & -> & _).
      reflexivity.
    + rewrite lookup_ge_None_2; [reflexivity | ].
      rewrite length_seq. apply lookup_ge_None. exact HB.
  - intros f Hf. unfold fleet_at. simpl.
    rewrite list_lookup_insert_ne by congruence. reflexivity.
  - intros b Hb. unfold boat_at. simpl.
    rewrite lookup_app_l by exact Hb. reflexivity.
Qed.

(** C10: when [load_from_file] answers with the success message, every
    vessel it has reconstructed is a new object among the [boats] of the
    loading registry, with [current_fleet] set to that registry and the
    registry appended to its (until then empty) [fleet_history]; so the
    membership test of [remove_boat], [transfer_boat] and [record_arrival]
    passes for it, and where the loaded logs are a list the three calls
    succeed. *)
Theorem loaded_vessels_are_bound
  (file : file_state) (self : fleet_ref) (w : world) :
  self < length (fleet_objs w) ->
  load_succeeded
    (fst (load_from_file fromtimestamp_date builtin_msg file self w)) ->
  let w' := snd (load_from_file fromtimestamp_date builtin_msg file self w) in
  exists bs,
    length (boats (fleet_at w' self)) = length bs /\
    forall i B,
      bs !! i = Some B ->
      let b := length (boat_objs w) + i in
      boats (fleet_at w' self) !! i = Some b /\
      boat_objs w' !! b = Some (bound_to self B) /\
      current_fleet B = None /\ fleet_history B = [] /\
      current_fleet (boat_at w' b) = Some self /\
      fleet_history (boat_at w' b) = [self] /\
      b ∈ boats (fleet_at w' self) /\
      (has_log_list w' self ->
       fst (remove_boat builtin_msg strftime_now self b w') =
         Ok (emoji_check ++ lit " " ++ name B
             ++ lit " successfully removed from fleet") /\
       (forall new_fleet,
          has_log_list w' new_fleet ->
          fst (transfer_boat builtin_msg strftime_now self b new_fleet w') =
            Ok (emoji_repeat ++ lit " " ++ name B
                ++ lit " transferred successfully.")) /\
       (forall location,
          fst (record_arrival builtin_msg strftime_now self b location w') =
            Ok (emoji_pin ++ lit " " ++ name B ++ lit " arrival recorded at "
                ++ location ++ lit "."))).
Proof.
  intros Hself [k Hk] w'.
  destruct (load_success_inv _ _ _ _ _ _ Hk) as (d & items & bs & -> & Hitems & Hbs).
  exists bs. unfold w'.
  rewrite (load_from_file_ok _ _ d items bs self w Hself Hitems Hbs).
  cbn [snd]. split.
  - unfold fleet_at. simpl.
    rewrite list_lookup_insert_eq by exact Hself. simpl. apply length_seq.
  - intros i B HB. cbv zeta.
    destruct (loaded_vessel d bs self w i B Hself HB) as (Hat & Hi & Hb & Hbat & Hin).
    assert (Hitem : exists item, from_dict fromtimestamp_date builtin_msg item = Ok B).
    { destruct (Forall2_lookup_r _ _ _ _ _ Hbs HB) as (item & _ & Hitem). eauto. }
    destruct Hitem as [item Hitem].
    destruct (from_dict_unbound _ _ _ _ Hitem) as [Hcf Hfh].
    split; [exact Hi | ]. split; [exact Hb | ].
    split; [exact Hcf | ]. split; [exact Hfh | ].
    rewrite Hbat. split; [reflexivity | ].
    split; [simpl; rewrite Hfh; reflexivity | ].
    split; [exact Hin | ].
    intros Hlogs. split; [ | split].
    + rewrite remove_boat_ok by assumption. rewrite Hbat. reflexivity.
    + intros g Hg. rewrite transfer_boat_ok by assumption.
      rewrite Hbat. reflexivity.
    + intros location. rewrite record_arrival_ok by assumption.
      rewrite Hbat. reflexivity.
Qed.

End LoadClaims.

Lemma load_from_file_missing_or_success_witness :
  let w' := snd (load_from_file sample_fromtimestamp sample_builtin_msg
                   (JsonFile saved_document) 0 aurora_added) in
  map (boat_at w') (boats (fleet_at w' 0)) = [bound_to 0 baltic_trader] /\
  logs (fleet_at w' 0) =
    VList [txt "[2024-01-01 00:00:05] Baltic Trader joined the fleet."] /\
  exists d items bs docs,
    JsonFile saved_document = JsonFile (VDict d) /\
    py_iter sample_builtin_msg (document_field d "boats") = Ok items /\
    reconstructs sample_builtin_msg sample_fromtimestamp items bs /\
    items = map VDict docs /\
    file_documents d docs /\
    Forall2 (holds_document sample_fromtimestamp) docs bs /\
    fst (load_from_file sample_fromtimestamp sample_builtin_msg
           (JsonFile saved_document) 0 aurora_added) =
      Ok (loaded_message (length bs)) /\
    logs (fleet_at w' 0) = document_field d "logs" /\
    boats (fleet_at w' 0) = seq (length (boat_objs aurora_added)) (length bs) /\
    map (boat_at w') (boats (fleet_at w' 0)) = map (bound_to 0) bs /\
    (forall f, f <> 0 -> fleet_at w' f = fleet_at aurora_added f) /\
    (forall b, b < length (boat_objs aurora_added) ->
       boat_at w' b = boat_at aurora_added b).
Proof.
  split; [vm_compute; reflexivity | ].
  split; [vm_compute; reflexivity | ].
  apply (proj2 (load_from_file_missing_or_success sample_fromtimestamp
                  sample_builtin_msg (JsonFile saved_document) 0 aurora_added)).
  - vm_compute. lia.
  - exists 1. vm_compute. reflexivity.
Defined.

Lemma loaded_vessels_are_bound_witness :
  let w' := snd (load_from_file sample_fromtimestamp sample_builtin_msg
                   (JsonFile saved_document) 0 aurora_added) in
  boats (fleet_at w' 0) = [1] /\
  current_fleet (boat_at w' 1) = Some 0 /\
  fleet_history (boat_at w' 1) = [0] /\
  exists bs,
    length (boats (fleet_at w' 0)) = length bs /\
    forall i B,
      bs !! i = Some B ->
      let b := length (boat_objs aurora_added) + i in
      boats (fleet_at w' 0) !! i = Some b /\
      boat_objs w' !! b = Some (bound_to 0 B) /\
      current_fleet B = None /\ fleet_history B = [] /\
      current_fleet (boat_at w' b) = Some 0 /\
      fleet_history (boat_at w' b) = [0] /\
      b ∈ boats (fleet_at w' 0) /\
      (has_log_list w' 0 ->
       fst (remove_boat sample_builtin_msg sample_clock 0 b w') =
         Ok (emoji_check ++ lit " " ++ name B
             ++ lit " successfully removed from fleet") /\
       (forall new_fleet,
          has_log_list w' new_fleet ->
          fst (transfer_boat sample_builtin_msg sample_clock 0 b new_fleet w') =
            Ok (emoji_repeat ++ lit " " ++ name B
                ++ lit " transferred successfully.")) /\
       (forall location,
          fst (record_arrival sample_builtin_msg sample_clock 0 b location w') =
            Ok (emoji_pin ++ lit " " ++ name B ++ lit " arrival recorded at "
                ++ location ++ lit "."))).
Proof.
  split; [vm_compute; reflexivity | ].
  split; [vm_compute; reflexivity | ].
  split; [vm_compute; reflexivity | ].
  apply (loaded_vessels_are_bound sample_fromtimestamp sample_builtin_msg
           sample_clock (JsonFile saved_document) 0 aurora_added).
  - vm_compute. lia.
  - exists 1. vm_compute. reflexivity.
Defined.

(** * Further properties *)

(** ** Validation of text and of the subclass attributes *)

Lemma lstrip_nil_iff (s : pystr) :
  lstrip s = [] <-> Forall (fun c => isspace c = true) s.
Proof.
  induction s as [ | c s IH]; simpl.
  - split; [constructor | reflexivity].
  - destruct (isspace c) eqn:E.
    + rewrite IH. split.
      * intros H. constructor; assumption.
      * intros H. inversion H. assumption.
    + split; [discriminate | ].
      intros H. inversion H. congruence.
Qed.

Lemma lstrip_head (s : pystr) (c : N) (t : pystr) :
  lstrip s = c :: t -> isspace c = false.
Proof.
  induction s as [ | x s IH]; simpl; [discriminate | ].
  destruct (isspace x) eqn:E; [exact IH | ].
  intros [= <- _]. exact E.
Qed.

Lemma strip_nil_iff (s : pystr) :
  strip s = [] <-> Forall (fun c => isspace c = true) s.
Proof.
  unfold strip, rstrip. split.
  - intros H. apply (f_equal (@rev N)) in H. rewrite rev_involutive in H.
    simpl in H. apply lstrip_nil_iff in H.
    apply lstrip_nil_iff.
    destruct (lstrip s) as [ | c t] eqn:E; [reflexivity | ].
    apply lstrip_head in E.
    rewrite Forall_forall in H.
    assert (Hc : isspace c = true).
    { apply H. apply list_elem_of_In, in_rev. rewrite rev_involutive.
      left. reflexivity. }
    congruence.
  - intros H. apply lstrip_nil_iff in H. rewrite H. reflexivity.
Qed.

Lemma valid_text_iff (s : pystr) : valid_text s <-> has_nonspace s.
Proof.
  unfold valid_text, has_nonspace. rewrite strip_nil_iff.
  induction s as [ | c s IH].
  - split; [intros H; destruct H; constructor | intros H; inversion H].
  - split.
    + intros H. destruct (isspace c) eqn:E.
      * apply Exists_cons_tl. apply IH. intros HF. apply H.
        constructor; assumption.
      * apply Exists_cons_hd. exact E.
    + intros HE HF. inversion HF as [ | ? ? Hc HFs]. subst.
      inversion HE as [? ? Hc' | ? ? HEs]; subst; [congruence | ].
      apply IH in HEs. apply HEs. exact HFs.
Qed.

Section ValidationExtras.

Variable fromtimestamp_date : pyval -> res date.

(** [Boat.__init__] returns a vessel exactly when name, home port and flag
    are strings with a character that is not white space, the launch date
    is not [None], and a numeric launch date converts to a date. *)
Theorem Boat_init_accepts_iff (vn ld vhp vfl : pyval) :
  (exists b, Boat_init fromtimestamp_date vn ld vhp vfl = Ok b) <->
  (exists n hp fl,
     vn = VStr n /\ vhp = VStr hp /\ vfl = VStr fl /\
     has_nonspace n /\ has_nonspace hp /\ has_nonspace fl) /\
  ld <> VNone /\
  (isinstance_number ld = true -> exists d, fromtimestamp_date ld = Ok d).
Proof.
  split.
  - intros [b H].
    apply Boat_init_inv in H
      as (n & hp & fl & d & -> & -> & -> & Hn & Hhp & Hfl & Hld & Hd & _).
    split; [ | split; [exact Hld | ]].
    + exists n, hp, fl. rewrite <- !valid_text_iff. repeat split; assumption.
    + intros Hnum. rewrite Hnum in Hd. destruct Hd as (t & Ht & _). eauto.
  - intros ((n & hp & fl & -> & -> & -> & Hn & Hhp & Hfl) & Hld & Hnum).
    rewrite <- valid_text_iff in Hn, Hhp, Hfl.
    rewrite (Boat_init_valid_text fromtimestamp_date n hp fl ld Hn Hhp Hfl).
    destruct (isinstance_number ld) eqn:E.
    + destruct (Hnum eq_refl) as [d Hd]. rewrite Hd.
      destruct ld; try congruence; simpl; eauto.
    + destruct ld; try congruence; simpl in *; try discriminate; eauto.
Qed.

(** On base arguments that [Boat.__init__] accepts, [MilitaryBoat.__init__]
    raises a [TypeError] for a weapon count that is no number, a
    [ValueError] for a negative one, a [TypeError] for an authorisation
    that is no [bool] (the integers 0 and 1 included), and otherwise
    returns the vessel with both values stored as given. *)
Theorem MilitaryBoat_init_outcomes
  (vn ld vhp vfl weapon_count is_authorised_by_gov : pyval) (self : Boat) :
  Boat_init fromtimestamp_date vn ld vhp vfl = Ok self ->
  (isinstance_number weapon_count = false ->
   MilitaryBoat_init fromtimestamp_date vn ld vhp vfl weapon_count
     is_authorised_by_gov =
   Raise (Exn TypeError (lit "Weapon count must be a number (int or float).")))
  /\
  (is_negative weapon_count = true ->
   MilitaryBoat_init fromtimestamp_date vn ld vhp vfl weapon_count
     is_authorised_by_gov =
   Raise (Exn ValueError (lit "Weapon count must be zero or a positive value.")))
  /\
  (is_zero_or_positive weapon_count = true ->
   isinstance_bool is_authorised_by_gov = false ->
   MilitaryBoat_init fromtimestamp_date vn ld vhp vfl weapon_count
     is_authorised_by_gov =
   Raise (Exn TypeError
            (lit "Authorisation status must be a boolean value (True or False).")))
  /\
  (is_zero_or_positive weapon_count = true ->
   forall flag_value,
     is_authorised_by_gov = VBool flag_value ->
     MilitaryBoat_init fromtimestamp_date vn ld vhp vfl weapon_count
       is_authorised_by_gov =
     Ok (set_cls (ClsMilitaryBoat weapon_count (VBool flag_value)) self)).
Proof.
  intros Hself. unfold MilitaryBoat_init. rewrite Hself. simpl.
  destruct (lt_zero_sign weapon_count) as [Hneg Hpos].
  repeat split.
  - intros ->. reflexivity.
  - intros H. destruct (Hneg H) as [-> ->]. reflexivity.
  - intros H Hb. destruct (Hpos H) as [-> ->]. rewrite Hb. reflexivity.
  - intros H b ->. destruct (Hpos H) as [-> ->]. reflexivity.
Qed.

(** On base arguments that [Boat.__init__] accepts, [CargoBoat.__init__]
    raises a [TypeError] for every capacity that is no number, a numeric
    string included, and accepts the float NaN, which is not below zero. *)
Theorem CargoBoat_init_type_check
  (vn ld vhp vfl cargo_capacity : pyval) (self : Boat) :
  Boat_init fromtimestamp_date vn ld vhp vfl = Ok self ->
  (isinstance_number cargo_capacity = false ->
   CargoBoat_init fromtimestamp_date vn ld vhp vfl cargo_capacity =
   Raise (Exn TypeError (lit "Cargo capacity must be a number (int or float).")))
  /\
  (cargo_capacity = VFloat S754_nan ->
   CargoBoat_init fromtimestamp_date vn ld vhp vfl cargo_capacity =
   Ok (set_cls (ClsCargoBoat (VFloat S754_nan)) self)).
Proof.
  intros Hself. unfold CargoBoat_init. rewrite Hself. simpl. split.
  - intros ->. reflexivity.
  - intros ->. reflexivity.
Qed.

End ValidationExtras.

Lemma MilitaryBoat_init_outcomes_witness :
  MilitaryBoat_init sample_fromtimestamp (txt "Defender") (VInt 0)
    (txt "Portsmouth") (txt "UK") (VInt 4) (VInt 1) =
  Raise (Exn TypeError
           (lit "Authorisation status must be a boolean value (True or False).")).
Proof.
  apply (MilitaryBoat_init_outcomes sample_fromtimestamp (txt "Defender")
           (VInt 0) (txt "Portsmouth") (txt "UK") (VInt 4) (VInt 1)
           (mkBoat (lit "Defender") (VDate (mkDate 1970 1 1)) (lit "Portsmouth")
              (lit "UK") None [] VNone (VList []) ClsBoat));
    reflexivity.
Defined.

Lemma CargoBoat_init_type_check_witness :
  CargoBoat_init sample_fromtimestamp (txt "Baltic Trader") (VInt 0)
    (txt "Gdansk") (txt "PL") (txt "500") =
  Raise (Exn TypeError (lit "Cargo capacity must be a number (int or float).")).
Proof.
  apply (CargoBoat_init_type_check sample_fromtimestamp (txt "Baltic Trader")
           (VInt 0) (txt "Gdansk") (txt "PL") (txt "500")
           (mkBoat (lit "Baltic Trader") (VDate (mkDate 1970 1 1))
              (lit "Gdansk") (lit "PL") None [] VNone (VList []) ClsBoat));
    reflexivity.
Defined.

(** ** Documents *)

Lemma valid_boat_restored (str_other : pyval -> pystr) (b : Boat) :
  valid_boat b -> valid_boat (restored str_other b).
Proof.
  intros [Hn Hhp Hfl Hld Hc]. split; simpl; try assumption.
  split; [discriminate | reflexivity].
Qed.

Section DocumentExtras.

Variable fromtimestamp_date : pyval -> res date.
Variable str_other : pyval -> pystr.
Variable builtin_msg : builtin_op -> pyval -> pystr.

(** The dictionary of [to_dict] has exactly the six keys of [Boat.to_dict]
    and the keys of the vessel's subclass: [cargo_capacity] for a cargo
    vessel only, [weapon_count] and [is_authorised_by_gov] for a military
    vessel only. *)
Theorem to_dict_keys (b : Boat) :
  exists d, to_dict str_other b = VDict d /\
            dom d = base_keys ∪ class_keys (cls b).
Proof.
  unfold to_dict, Boat_to_dict, base_keys.
  destruct (cls b); eexists; (split; [reflexivity | ]);
    rewrite !dom_insert_L, dom_empty_L; simpl; set_solver.
Qed.

(** What [from_dict] returns is read from the document: name, home port and
    flag are its strings under those keys, position data are its values
    under [current_position] and [position_logs] ([None] and the empty
    list when absent), the class and its attributes are decided by the
    presence of [cargo_capacity], then of [weapon_count]; the vessel is
    unbound and satisfies what the constructors check. *)
Theorem from_dict_sound (item : pyval) (b : Boat) :
  from_dict fromtimestamp_date builtin_msg item = Ok b ->
  exists d,
    item = VDict d /\
    d !! lit "name" = Some (VStr (name b)) /\
    d !! lit "home_port" = Some (VStr (home_port b)) /\
    d !! lit "flag" = Some (VStr (flag b)) /\
    is_Some (d !! lit "launch_date") /\
    current_position b = default VNone (d !! lit "current_position") /\
    position_logs b = default (VList []) (d !! lit "position_logs") /\
    class_from_document d (cls b) /\
    current_fleet b = None /\ fleet_history b = [] /\
    valid_boat b.
Proof.
  intros H. pose proof (from_dict_unbound _ _ _ _ H) as [Hcf Hfh].
  unfold from_dict in H. destruct item as [ | | | | | | | d]; try discriminate.
  exists d. split; [reflexivity | ].
  destruct (getitem d "launch_date") as [ld | ] eqn:Eld; try discriminate.
  apply getitem_Ok in Eld. simpl in H.
  assert (Hfinish : forall b0 : Boat,
    valid_boat b0 -> current_position b0 = VNone ->
    position_logs b0 = VList [] ->
    Ok (match d !! lit "position_logs" with
        | Some p =>
            set_position_logs p
              match d !! lit "current_position" with
              | Some p0 => set_current_position p0 b0
              | None => b0
              end
        | None =>
            match d !! lit "current_position" with
            | Some p0 => set_current_position p0 b0
            | None => b0
            end
        end) = Ok b ->
    name b = name b0 /\ home_port b = home_port b0 /\ flag b = flag b0 /\
    cls b = cls b0 /\
    current_position b = default VNone (d !! lit "current_position") /\
    position_logs b = default (VList []) (d !! lit "position_logs") /\
    valid_boat b).
  { intros b0 [Hn Hhp Hfl [Hld1 Hld2] Hc] Hcp Hpl [= <-].
    destruct (d !! lit "position_logs"), (d !! lit "current_position"); simpl;
      repeat split; first [assumption | reflexivity]. }
  assert (Hbase : forall vn vhp vfl self,
    d !! lit "name" = Some vn -> d !! lit "home_port" = Some vhp ->
    d !! lit "flag" = Some vfl ->
    Boat_init fromtimestamp_date vn ld vhp vfl = Ok self ->
    d !! lit "name" = Some (VStr (name self)) /\
    d !! lit "home_port" = Some (VStr (home_port self)) /\
    d !! lit "flag" = Some (VStr (flag self)) /\
    current_position self = VNone /\ position_logs self = VList [] /\
    cls self = ClsBoat).
  { intros vn vhp vfl self Hvn Hvhp Hvfl Hself.
    apply Boat_init_inv in Hself
      as (n & hp & fl & dd & -> & -> & -> & _ & _ & _ & _ & _ & ->).
    simpl. repeat split; assumption. }
  destruct (has_key d "cargo_capacity") eqn:Ecargo.
  - destruct (getitem d "name") as [vn | ] eqn:En; try discriminate.
    destruct (getitem d "home_port") as [vhp | ] eqn:Ehp; try discriminate.
    destruct (getitem d "flag") as [vfl | ] eqn:Efl; try discriminate.
    destruct (getitem d "cargo_capacity") as [cap | ] eqn:Ecap; try discriminate.
    apply getitem_Ok in En, Ehp, Efl, Ecap. simpl in H.
    destruct (CargoBoat_init _ vn ld vhp vfl cap) as [b0 | ] eqn:E;
      try discriminate. simpl in H.
    pose proof (CargoBoat_init_valid _ _ _ _ _ _ _ E) as Hvalid.
    apply CargoBoat_init_inv in E as (self & Hself & ->).
    destruct (Hbase vn vhp vfl self En Ehp Efl Hself)
      as (Hn' & Hhp' & Hfl' & Hcp & Hpl & _).
    destruct (Hfinish _ Hvalid Hcp Hpl H)
      as (-> & -> & -> & -> & Hcp' & Hpl' & Hv).
    simpl. split_and!; try assumption; eauto.
  - destruct (has_key d "weapon_count") eqn:Eweapon.
    + destruct (getitem d "name") as [vn | ] eqn:En; try discriminate.
      destruct (getitem d "home_port") as [vhp | ] eqn:Ehp; try discriminate.
      destruct (getitem d "flag") as [vfl | ] eqn:Efl; try discriminate.
      destruct (getitem d "weapon_count") as [wc | ] eqn:Ewc; try discriminate.
      destruct (getitem d "is_authorised_by_gov") as [auth | ] eqn:Eauth;
        try discriminate.
      apply getitem_Ok in En, Ehp, Efl, Ewc, Eauth. simpl in H.
      destruct (MilitaryBoat_init _ vn ld vhp vfl wc auth) as [b0 | ] eqn:E;
        try discriminate. simpl in H.
      pose proof (MilitaryBoat_init_valid _ _ _ _ _ _ _ _ E) as Hvalid.
      apply MilitaryBoat_init_inv in E as (self & Hself & ->).
      destruct (Hbase vn vhp vfl self En Ehp Efl Hself)
        as (Hn' & Hhp' & Hfl' & Hcp & Hpl & _).
      destruct (Hfinish _ Hvalid Hcp Hpl H)
        as (-> & -> & -> & -> & Hcp' & Hpl' & Hv).
      apply has_key_false in Ecargo.
      simpl. split_and!; try assumption; eauto.
    + destruct (getitem d "name") as [vn | ] eqn:En; try discriminate.
      destruct (getitem d "home_port") as [vhp | ] eqn:Ehp; try discriminate.
      destruct (getitem d "flag") as [vfl | ] eqn:Efl; try discriminate.
      apply getitem_Ok in En, Ehp, Efl. simpl in H.
      destruct (Boat_init _ vn ld vhp vfl) as [b0 | ] eqn:E;
        try discriminate. simpl in H.
      pose proof (Boat_init_valid _ _ _ _ _ _ E) as Hvalid.
      destruct (Hbase vn vhp vfl b0 En Ehp Efl E)
        as (Hn' & Hhp' & Hfl' & Hcp & Hpl & Hcls).
      destruct (Hfinish _ Hvalid Hcp Hpl H)
        as (-> & -> & -> & -> & Hcp' & Hpl' & Hv).
      apply has_key_false in Ecargo, Eweapon.
      rewrite Hcls. simpl. split_and!; try assumption; eauto.
Qed.

(** A document with the key [cargo_capacity] is rebuilt as a cargo vessel
    whatever it holds under [weapon_count] and [is_authorised_by_gov]: adding
    or changing those two entries does not change the result. *)
Theorem from_dict_cargo_precedence
  (d : gmap pystr pyval) (weapon_count is_authorised_by_gov : pyval) :
  is_Some (d !! lit "cargo_capacity") ->
  from_dict fromtimestamp_date builtin_msg
    (VDict (<[lit "weapon_count" := weapon_count]>
            (<[lit "is_authorised_by_gov" := is_authorised_by_gov]> d))) =
  from_dict fromtimestamp_date builtin_msg (VDict d).
Proof.
  intros Hcargo. unfold from_dict.
  assert (Hlook : forall key : string,
    lit key <> lit "weapon_count" -> lit key <> lit "is_authorised_by_gov" ->
    (<[lit "weapon_count" := weapon_count]>
       (<[lit "is_authorised_by_gov" := is_authorised_by_gov]> d)) !! lit key =
    d !! lit key).
  { intros key H1 H2. rewrite !lookup_insert_ne by congruence. reflexivity. }
  assert (Hget : forall key : string,
    lit key <> lit "weapon_count" -> lit key <> lit "is_authorised_by_gov" ->
    getitem (<[lit "weapon_count" := weapon_count]>
               (<[lit "is_authorised_by_gov" := is_authorised_by_gov]> d)) key =
    getitem d key).
  { intros key H1 H2. unfold getitem. rewrite Hlook by assumption. reflexivity. }
  assert (Hhas : has_key (<[lit "weapon_count" := weapon_count]>
               (<[lit "is_authorised_by_gov" := is_authorised_by_gov]> d))
               "cargo_capacity" = true).
  { apply has_key_true. rewrite Hlook by (vm_compute; discriminate).
    exact Hcargo. }
  rewrite Hhas. apply has_key_true in Hcargo. rewrite Hcargo.
  rewrite !Hget by (vm_compute; discriminate).
  rewrite !Hlook by (vm_compute; discriminate).
  reflexivity.
Qed.

(** A second round trip changes nothing: the vessel that [from_dict]
    rebuilds from [to_dict] is rebuilt from its own dictionary as it is. *)
Theorem roundtrip_twice_stable (b : Boat) :
  valid_boat b ->
  from_dict fromtimestamp_date builtin_msg
    (to_dict str_other (restored str_other b)) =
  Ok (restored str_other b).
Proof.
  intros Hb.
  rewrite (from_dict_to_dict fromtimestamp_date str_other builtin_msg
             (restored str_other b) (valid_boat_restored str_other b Hb)).
  reflexivity.
Qed.

(** The errors of [from_dict] on malformed documents: an item that is no
    dictionary raises a [TypeError]; a dictionary without [launch_date]
    raises [KeyError('launch_date')] whatever else it lacks; one with a
    launch date but without [name] raises [KeyError('name')]. *)
Theorem from_dict_missing_keys (item : pyval) :
  ((forall d, item <> VDict d) ->
   from_dict fromtimestamp_date builtin_msg item =
   Raise (Exn TypeError (builtin_msg OpSubscript item)))
  /\
  (forall d, item = VDict d -> d !! lit "launch_date" = None ->
     from_dict fromtimestamp_date builtin_msg item =
     Raise (Exn KeyError (lit "'launch_date'")))
  /\
  (forall d, item = VDict d -> is_Some (d !! lit "launch_date") ->
     d !! lit "name" = None ->
     from_dict fromtimestamp_date builtin_msg item =
     Raise (Exn KeyError (lit "'name'"))).
Proof.
  split; [ | split].
  - intros H. destruct item; try reflexivity. destruct (H d). reflexivity.
  - intros d -> Hld. unfold from_dict, getitem. rewrite Hld. reflexivity.
  - intros d -> [ld Hld] Hn. unfold from_dict, getitem. rewrite Hld, Hn.
    simpl. destruct (has_key d "cargo_capacity"); [reflexivity | ].
    destruct (has_key d "weapon_count"); reflexivity.
Qed.

End DocumentExtras.

Lemma from_dict_sound_witness :
  exists d,
    to_dict sample_str_other baltic_trader = VDict d /\
    d !! lit "name" = Some (VStr (lit "Baltic Trader")) /\
    d !! lit "home_port" = Some (VStr (lit "Gdansk")) /\
    d !! lit "flag" = Some (VStr (lit "PL")) /\
    is_Some (d !! lit "launch_date") /\
    txt "Kiel" = default VNone (d !! lit "current_position") /\
    VList [txt "[2024-01-01 00:00:07] Position: Kiel"] =
      default (VList []) (d !! lit "position_logs") /\
    class_from_document d (ClsCargoBoat (VFloat float_500)) /\
    @None fleet_ref = None /\ @nil fleet_ref = [] /\
    valid_boat baltic_trader.
Proof.
  apply (from_dict_sound sample_fromtimestamp sample_builtin_msg
           (to_dict sample_str_other baltic_trader) baltic_trader).
  vm_compute. reflexivity.
Defined.

Lemma from_dict_cargo_precedence_witness :
  from_dict sample_fromtimestamp sample_builtin_msg
    (VDict (<[lit "weapon_count" := VInt 4]>
            (<[lit "is_authorised_by_gov" := VBool true]>
               (<[lit "cargo_capacity" := VFloat float_500]>
                  (Boat_to_dict sample_str_other baltic_trader))))) =
  from_dict sample_fromtimestamp sample_builtin_msg
    (VDict (<[lit "cargo_capacity" := VFloat float_500]>
              (Boat_to_dict sample_str_other baltic_trader))).
Proof.
  apply (from_dict_cargo_precedence sample_fromtimestamp sample_builtin_msg).
  vm_compute. eauto.
Defined.

Lemma roundtrip_twice_stable_witness :
  from_dict sample_fromtimestamp sample_builtin_msg
    (to_dict sample_str_other (restored sample_str_other aurora)) =
  Ok (restored sample_str_other aurora).
Proof.
  apply (roundtrip_twice_stable sample_fromtimestamp sample_str_other
           sample_builtin_msg aurora).
  split; simpl; try (vm_compute; discriminate);
    repeat split; try discriminate; reflexivity.
Defined.

Lemma from_dict_missing_keys_witness :
  from_dict sample_fromtimestamp sample_builtin_msg
    (VDict (<[lit "name" := txt "Aurora"]> ∅)) =
  Raise (Exn KeyError (lit "'launch_date'")).
Proof.
  apply (proj1 (proj2 (from_dict_missing_keys sample_fromtimestamp
                         sample_builtin_msg
                         (VDict (<[lit "name" := txt "Aurora"]> ∅))))
           (<[lit "name" := txt "Aurora"]> ∅)).
  - reflexivity.
  - vm_compute. reflexivity.
Defined.

(** ** Position logging *)

Lemma str_items_strs (item_msg : nat -> pyval -> pystr) (i : nat) (es : list pystr) :
  str_items item_msg i (map VStr es) = Ok es.
Proof.
  revert i. induction es as [ | e es IH]; intros i; simpl; [reflexivity | ].
  rewrite IH. reflexivity.
Qed.

Lemma truthy_snoc (l : list pyval) (x : pyval) : truthy (VList (l ++ [x])) = true.
Proof. destruct l; reflexivity. Qed.

Section PositionExtras.

Variable builtin_msg : builtin_op -> pyval -> pystr.
Variable item_msg : nat -> pyval -> pystr.
Variable strftime_now : nat -> pystr.

Lemma log_position_eq (self : boat_ref) (position : pystr) (w : world) :
  log_position builtin_msg strftime_now self position w =
  let w1 := upd_boat self (set_current_position (VStr position)) (tick w) in
  match py_append builtin_msg (position_logs (boat_at w1 self))
          (VStr (format_entry (strftime_now (ticks w))
                   (lit "Position: " ++ position))) with
  | Ok logs' =>
      (Ok (emoji_pin ++ lit " " ++ name (boat_at w1 self)
           ++ lit " position logged: " ++ position),
       upd_boat self (set_position_logs logs') w1)
  | Raise e => (Raise e, w1)
  end.
Proof.
  unfold log_position, bind, now, update_boat, get_world, lift, ret.
  cbv zeta.
  destruct (py_append _ _ _); reflexivity.
Qed.

Lemma log_position_changes (self : boat_ref) (position : pystr) (w : world) :
  self < length (boat_objs w) ->
  let r := log_position builtin_msg strftime_now self position w in
  let entry :=
    VStr (format_entry (strftime_now (ticks w)) (lit "Position: " ++ position)) in
  (forall l,
     position_logs (boat_at w self) = VList l ->
     fst r = Ok (emoji_pin ++ lit " " ++ name (boat_at w self)
                 ++ lit " position logged: " ++ position) /\
     boat_at (snd r) self =
       set_position_logs (VList (l ++ [entry]))
         (set_current_position (VStr position) (boat_at w self)) /\
     ticks (snd r) = S (ticks w))
  /\
  ((forall l, position_logs (boat_at w self) <> VList l) ->
   fst r = Raise (Exn AttributeError
                    (builtin_msg (OpGetAttr (lit "append"))
                       (position_logs (boat_at w self)))) /\
   boat_at (snd r) self = set_current_position (VStr position) (boat_at w self))
  /\
  (forall b, b <> self -> boat_at (snd r) b = boat_at w b) /\
  fleet_objs (snd r) = fleet_objs w.
Proof.
  intros Hself r entry.
  pose proof (log_position_eq self position w) as Heq. cbv zeta in Heq.
  assert (Hcur : boat_at (upd_boat self (set_current_position (VStr position))
                            (tick w)) self =
                 set_current_position (VStr position) (boat_at w self)).
  { rewrite boat_at_upd_boat_eq by exact Hself. reflexivity. }
  rewrite Hcur in Heq. cbn [position_logs set_current_position name] in Heq.
  split; [ | split; [ | split]].
  - intros l Hl. unfold r. rewrite Heq, Hl. cbn [py_append fst snd].
    split; [reflexivity | split; [ | reflexivity]].
    unfold upd_boat, boat_at. cbn [boat_objs tick].
    rewrite list_alter_alter_eq, list_lookup_alter_eq.
    apply lookup_lt_is_Some_2 in Hself as [B HB]. rewrite HB. reflexivity.
  - intros Hno. unfold r. rewrite Heq.
    destruct (position_logs (boat_at w self)) eqn:Hlogs;
      try (exfalso; eapply Hno; reflexivity);
      cbn [py_append fst snd]; (split; [reflexivity | exact Hcur]).
  - intros b Hb. unfold r. rewrite Heq.
    destruct (py_append _ _ _); cbn [snd];
      rewrite ?boat_at_upd_boat_ne by congruence; reflexivity.
  - unfold r. rewrite Heq. destruct (py_append _ _ _); reflexivity.
Qed.

(** [log_position] on a vessel whose position logs are a list sets the
    current position, appends one timestamped entry to the logs, reads the
    clock once and touches neither another vessel nor any registry; it
    asks for no membership.  When the position logs are no list (as a
    malformed file can leave them), it raises an [AttributeError] after the
    current position has been overwritten. *)
Theorem log_position_effect (self : boat_ref) (position : pystr) (w : world) :
  self < length (boat_objs w) ->
  let r := log_position builtin_msg strftime_now self position w in
  let entry :=
    VStr (format_entry (strftime_now (ticks w)) (lit "Position: " ++ position)) in
  (forall l,
     position_logs (boat_at w self) = VList l ->
     fst r = Ok (emoji_pin ++ lit " " ++ name (boat_at w self)
                 ++ lit " position logged: " ++ position) /\
     boat_at (snd r) self =
       set_position_logs (VList (l ++ [entry]))
         (set_current_position (VStr position) (boat_at w self)) /\
     ticks (snd r) = S (ticks w))
  /\
  ((forall l, position_logs (boat_at w self) <> VList l) ->
   fst r = Raise (Exn AttributeError
                    (builtin_msg (OpGetAttr (lit "append"))
                       (position_logs (boat_at w self)))) /\
   boat_at (snd r) self = set_current_position (VStr position) (boat_at w self))
  /\
  (forall b, b <> self -> boat_at (snd r) b = boat_at w b) /\
  fleet_objs (snd r) = fleet_objs w.
Proof.
  exact (log_position_changes self position w).
Qed.

(** After [log_position] on a vessel whose position logs are a list of
    strings, [get_position_history] returns the heading for the vessel and
    the old entries followed by the new one, one per line, and changes
    nothing; on a vessel without entries it answers that none are
    recorded. *)
Theorem position_history_after_log
  (self : boat_ref) (position : pystr) (w : world) (es : list pystr) :
  self < length (boat_objs w) ->
  position_logs (boat_at w self) = VList (map VStr es) ->
  let w' := snd (log_position builtin_msg strftime_now self position w) in
  let entry :=
    format_entry (strftime_now (ticks w)) (lit "Position: " ++ position) in
  get_position_history builtin_msg item_msg self w' =
  (Ok (emoji_pin ++ lit " Position History for " ++ name (boat_at w self)
       ++ lit ":" ++ nl ++ join_strs nl (es ++ [entry])), w')
  /\
  (es = [] ->
   get_position_history builtin_msg item_msg self w =
   (Ok (emoji_notepad ++ lit " No position logs recorded for "
        ++ name (boat_at w self) ++ lit "."), w)).
Proof.
  intros Hself Hlogs w' entry.
  destruct (log_position_changes self position w Hself) as (Hok & _ & _ & _).
  destruct (Hok _ Hlogs) as (_ & Hat & _). fold w' in Hat.
  split.
  - unfold get_position_history, bind, get_world. rewrite Hat.
    cbn [position_logs set_position_logs name set_current_position].
    rewrite truthy_snoc. cbn [negb]. unfold lift, str_join.
    cbn [py_iter res_bind].
    change [VStr (format_entry (strftime_now (ticks w))
                    (lit "Position: " ++ position))]
      with (map VStr [entry]).
    rewrite <- map_app, str_items_strs. reflexivity.
  - intros ->. unfold get_position_history, bind, get_world.
    rewrite Hlogs. reflexivity.
Qed.

End PositionExtras.

Lemma log_position_effect_witness :
  let r := log_position sample_builtin_msg sample_clock 0 (lit "Bergen")
             two_fleets in
  fst r = Ok (emoji_pin ++ lit " Aurora position logged: Bergen") /\
  boat_at (snd r) 0 =
    set_position_logs (VList [txt "[2024-01-01 00:00:00] Position: Bergen"])
      (set_current_position (txt "Bergen") aurora) /\
  ticks (snd r) = 1.
Proof.
  apply (proj1 (log_position_effect sample_builtin_msg sample_clock 0
                  (lit "Bergen") two_fleets ltac:(vm_compute; lia)) []).
  reflexivity.
Defined.

Lemma position_history_after_log_witness :
  let w' := snd (log_position sample_builtin_msg sample_clock 0 (lit "Bergen")
                   two_fleets) in
  get_position_history sample_builtin_msg sample_item_msg 0 w' =
  (Ok (emoji_pin ++ lit " Position History for Aurora:" ++ nl
       ++ lit "[2024-01-01 00:00:00] Position: Bergen"), w').
Proof.
  apply (proj1 (position_history_after_log sample_builtin_msg sample_item_msg
                  sample_clock 0 (lit "Bergen") two_fleets []
                  ltac:(vm_compute; lia) eq_refl)).
Defined.

(** ** Logs and fleet histories only grow *)

Lemma logs_grow_refl (w : world) : logs_grow w w.
Proof. intros f l Hl. exists []. rewrite app_nil_r. exact Hl. Qed.

Lemma logs_grow_trans (w1 w2 w3 : world) :
  logs_grow w1 w2 -> logs_grow w2 w3 -> logs_grow w1 w3.
Proof.
  intros H12 H23 f l Hl. destruct (H12 f l Hl) as [l' Hl'].
  destruct (H23 f _ Hl') as [l'' Hl'']. exists (l' ++ l'').
  rewrite app_assoc. exact Hl''.
Qed.

Lemma histories_grow_refl (w : world) : histories_grow w w.
Proof. intros b. exists []. rewrite app_nil_r. reflexivity. Qed.

Lemma histories_grow_trans (w1 w2 w3 : world) :
  histories_grow w1 w2 -> histories_grow w2 w3 -> histories_grow w1 w3.
Proof.
  intros H12 H23 b. destruct (H12 b) as [h Hh]. destruct (H23 b) as [h' Hh'].
  exists (h ++ h'). rewrite Hh', Hh, app_assoc. reflexivity.
Qed.

Lemma logs_grow_same (w w' : world) :
  fleet_objs w' = fleet_objs w -> logs_grow w w'.
Proof.
  intros H f l Hl. exists []. rewrite app_nil_r.
  unfold fleet_at in *. rewrite H. exact Hl.
Qed.

Lemma histories_grow_same (w w' : world) :
  boat_objs w' = boat_objs w -> histories_grow w w'.
Proof.
  intros H b. exists []. rewrite app_nil_r. unfold boat_at. rewrite H.
  reflexivity.
Qed.

Lemma grows_ret {A} (a : A) : grows (ret a).
Proof. intros w. split; [apply logs_grow_refl | apply histories_grow_refl]. Qed.

Lemma grows_lift {A} (r : res A) : grows (lift r).
Proof. intros w. split; [apply logs_grow_refl | apply histories_grow_refl]. Qed.

Lemma grows_get_world : grows get_world.
Proof. intros w. split; [apply logs_grow_refl | apply histories_grow_refl]. Qed.

Lemma grows_bind {A B} (m : M A) (k : A -> M B) :
  grows m -> (forall a, grows (k a)) -> grows (bind m k).
Proof.
  intros Hm Hk w. unfold bind. specialize (Hm w).
  destruct (m w) as [[a | e] w1]; simpl in Hm.
  - destruct Hm as [Hl Hh]. destruct (Hk a w1) as [Hl' Hh']. split.
    + eapply logs_grow_trans; eassumption.
    + eapply histories_grow_trans; eassumption.
  - exact Hm.
Qed.

Lemma grows_update_fleet (f : fleet_ref) (g : Fleet -> Fleet) :
  (forall F, logs (g F) = logs F) -> grows (update_fleet f g).
Proof.
  intros Hg w. split; [ | apply histories_grow_same; reflexivity].
  intros f' l Hl. exists []. rewrite app_nil_r. simpl.
  unfold fleet_at, upd_fleet in *. simpl.
  rewrite list_lookup_alter. case_decide as Hd; [subst f' | exact Hl].
  destruct (fleet_objs w !! f); simpl in *; [rewrite Hg | ]; exact Hl.
Qed.

Lemma grows_update_boat (b : boat_ref) (g : Boat -> Boat) :
  (forall B, exists h, fleet_history (g B) = fleet_history B ++ h) ->
  grows (update_boat b g).
Proof.
  intros Hg w. split; [apply logs_grow_same; reflexivity | ].
  intros b'. simpl. unfold boat_at, upd_boat. simpl.
  rewrite list_lookup_alter. case_decide as Hd.
  - subst b'. destruct (boat_objs w !! b); simpl.
    + apply Hg.
    + exists []. reflexivity.
  - exists []. rewrite app_nil_r. reflexivity.
Qed.

Section GrowthExtras.

Variable builtin_msg : builtin_op -> pyval -> pystr.
Variable strftime_now : nat -> pystr.

Lemma grows_record_log (self : fleet_ref) (message : pystr) :
  grows (record_log builtin_msg strftime_now self message).
Proof.
  intros w. split.
  - unfold record_log, bind, now, get_world, lift, update_fleet.
    rewrite fleet_at_tick.
    destruct (logs (fleet_at w self)) as [ | | | | | | l0 | ] eqn:Hlogs;
      simpl; try (apply logs_grow_same; reflexivity).
    intros f l Hl. unfold fleet_at, upd_fleet in *. simpl.
    rewrite list_lookup_alter. case_decide as Hd.
    + subst f. destruct (fleet_objs w !! self) as [F | ] eqn:HF; simpl in *.
      * rewrite Hlogs in Hl. injection Hl as <-. eauto.
      * discriminate.
    + exists []. rewrite app_nil_r. exact Hl.
  - unfold record_log, bind, now, get_world, lift, update_fleet.
    destruct (py_append _ _ _); simpl; apply histories_grow_same; reflexivity.
Qed.

Lemma grows_add_boat (self : fleet_ref) (x : pyobj) :
  grows (add_boat builtin_msg strftime_now self x).
Proof.
  destruct x as [b | | ]; unfold add_boat; try apply grows_ret.
  repeat first
    [ apply grows_ret | apply grows_get_world | apply grows_record_log
    | apply grows_update_fleet; intros ?; reflexivity
    | apply grows_bind; [ | intros ?] ].
  - apply grows_update_boat. intros B. exists []. rewrite app_nil_r. reflexivity.
  - apply grows_update_boat. intros B. simpl. eauto.
Qed.

Lemma grows_run_action (a : action) :
  grows (run_action builtin_msg strftime_now a).
Proof.
  destruct a as [[f b | f b | f b g] | f b loc | f by_ | b p];
    cbn [run_action run_call].
  - apply grows_add_boat.
  - unfold remove_boat. apply grows_bind; [apply grows_get_world | intros w0].
    destruct (negb _); [apply grows_ret | ].
    repeat first
      [ apply grows_ret | apply grows_record_log
      | apply grows_update_fleet; intros ?; reflexivity
      | apply grows_bind; [ | intros ?] ].
    apply grows_update_boat. intros B. exists []. rewrite app_nil_r. reflexivity.
  - unfold transfer_boat. apply grows_bind; [apply grows_get_world | intros w0].
    destruct (negb _); [apply grows_ret | ].
    repeat first
      [ apply grows_ret | apply grows_record_log | apply grows_add_boat
      | apply grows_update_fleet; intros ?; reflexivity
      | apply grows_bind; [ | intros ?] ].
  - unfold record_arrival. apply grows_bind; [apply grows_get_world | intros w0].
    destruct (negb _); [apply grows_ret | ].
    repeat first
      [ apply grows_ret | apply grows_record_log
      | apply grows_bind; [ | intros ?] ].
  - unfold sort_boats. apply grows_bind; [apply grows_get_world | intros w0].
    destruct (boats (fleet_at w0 f)); [apply grows_ret | ].
    repeat first
      [ apply grows_ret
      | apply grows_update_fleet; intros ?; reflexivity
      | apply grows_bind; [ | intros ?] ].
  - unfold log_position.
    repeat first
      [ apply grows_ret | apply grows_get_world | apply grows_lift
      | apply grows_update_boat; intros B; exists []; rewrite app_nil_r;
        reflexivity
      | apply grows_bind; [ | intros ?] ].
Qed.

(** Over any sequence of [add_boat], [remove_boat], [transfer_boat],
    [record_arrival], [sort_boats] and [log_position] calls, on any store
    and whether calls fail or raise, the audit log of every registry and
    the fleet history of every vessel only gain entries at the end: no
    entry is ever dropped, changed or reordered. *)
Theorem logs_and_histories_only_grow (acts : list action) (w : world) :
  logs_grow w (run_actions builtin_msg strftime_now acts w) /\
  histories_grow w (run_actions builtin_msg strftime_now acts w).
Proof.
  revert w. induction acts as [ | a acts IH]; intros w; simpl.
  - split; [apply logs_grow_refl | apply histories_grow_refl].
  - destruct (grows_run_action a w) as [Hl Hh].
    destruct (IH (snd (run_action builtin_msg strftime_now a w))) as [Hl' Hh'].
    split.
    + eapply logs_grow_trans; eassumption.
    + eapply histories_grow_trans; eassumption.
Qed.

End GrowthExtras.

(** ** What single calls change *)

Lemma list_remove_perm (x : nat) (l : list nat) :
  x ∈ l -> x :: list_remove x l ≡ₚ l.
Proof.
  induction l as [ | y l IH]; intros Hin; [inversion Hin | ].
  simpl. destruct (decide (x = y)) as [<- | Hne]; [reflexivity | ].
  apply elem_of_cons in Hin as [Heq | Hin]; [congruence | ].
  rewrite perm_swap. apply perm_skip. apply IH. exact Hin.
Qed.

Lemma list_remove_snoc (x : nat) (l : list nat) :
  x ∉ l -> list_remove x (l ++ [x]) = l.
Proof.
  induction l as [ | y l IH]; intros Hout; simpl.
  - rewrite decide_True by reflexivity. reflexivity.
  - apply not_elem_of_cons in Hout as [Hne Hout].
    rewrite decide_False by exact Hne. rewrite IH by exact Hout. reflexivity.
Qed.

Lemma list_remove_absent (x : nat) (l : list nat) :
  x ∉ l -> list_remove x l = l.
Proof.
  induction l as [ | y l IH]; intros Hout; simpl; [reflexivity | ].
  apply not_elem_of_cons in Hout as [Hne Hout].
  rewrite decide_False by exact Hne. rewrite IH by exact Hout. reflexivity.
Qed.

Section CallExtras.

Variable builtin_msg : builtin_op -> pyval -> pystr.
Variable strftime_now : nat -> pystr.

Lemma fleet_at_logged_eq (f : fleet_ref) (message : pystr) (w : world) (l : list pyval) :
  logs (fleet_at w f) = VList l ->
  fleet_at (logged strftime_now f message w) f =
  mkFleet (boats (fleet_at w f))
    (VList (l ++ [VStr (format_entry (strftime_now (ticks w)) message)])).
Proof.
  intros Hl. unfold logged.
  rewrite fleet_at_upd_fleet_eq
    by (apply (has_log_list_valid w f); exists l; exact Hl).
  rewrite fleet_at_tick. unfold push_log. rewrite Hl. reflexivity.
Qed.

Lemma fleet_at_logged_ne (f f' : fleet_ref) (message : pystr) (w : world) :
  f <> f' -> fleet_at (logged strftime_now f message w) f' = fleet_at w f'.
Proof.
  intros Hne. unfold logged. rewrite fleet_at_upd_fleet_ne by exact Hne.
  reflexivity.
Qed.

Lemma add_boat_changes (self : fleet_ref) (boat : boat_ref) (w : world)
  (l : list pyval) :
  logs (fleet_at w self) = VList l ->
  boat < length (boat_objs w) ->
  let r := add_boat builtin_msg strftime_now self (OBoat boat) w in
  let n := name (boat_at w boat) in
  fst r = Ok (emoji_check ++ lit " " ++ n ++ lit " successfully added to fleet") /\
  fleet_at (snd r) self =
    mkFleet (boats (fleet_at w self) ++ [boat])
      (VList (l ++ [VStr (format_entry (strftime_now (ticks w))
                            (n ++ lit " joined the fleet."))])) /\
  boat_at (snd r) boat = bound_to self (boat_at w boat) /\
  (forall f, f <> self -> fleet_at (snd r) f = fleet_at w f) /\
  (forall b, b <> boat -> boat_at (snd r) b = boat_at w b).
Proof.
  intros Hl Hboat r n.
  assert (Hlist : has_log_list w self) by (exists l; exact Hl).
  pose proof (has_log_list_valid _ _ Hlist) as Hself.
  unfold r. rewrite add_boat_ok by exact Hlist. cbn [fst snd].
  split; [reflexivity | ]. unfold added. split; [ | split; [ | split]].
  - rewrite (fleet_at_logged_eq self _ _ l).
    + rewrite fleet_at_upd_boat, fleet_at_upd_fleet_eq by exact Hself.
      reflexivity.
    + rewrite fleet_at_upd_boat, fleet_at_upd_fleet_eq by exact Hself.
      exact Hl.
  - change (boat_at (upd_boat boat (bound_to self)
                       (upd_fleet self (append_boat boat) w)) boat =
            bound_to self (boat_at w boat)).
    rewrite boat_at_upd_boat_eq by exact Hboat. reflexivity.
  - intros f Hf. rewrite fleet_at_logged_ne by congruence.
    rewrite fleet_at_upd_boat, fleet_at_upd_fleet_ne by congruence.
    reflexivity.
  - intros b Hb.
    change (boat_at (upd_boat boat (bound_to self)
                       (upd_fleet self (append_boat boat) w)) b = boat_at w b).
    rewrite boat_at_upd_boat_ne by congruence. reflexivity.
Qed.

(** [add_boat] on a registry whose logs are a list always succeeds: it
    appends the vessel to [boats] even when it is there already (no
    deduplication), binds it to the registry, appends the registry to its
    fleet history and one entry to the log, and changes no other registry
    and no other vessel. *)
Theorem add_boat_effect (self : fleet_ref) (boat : boat_ref) (w : world)
  (l : list pyval) :
  logs (fleet_at w self) = VList l ->
  boat < length (boat_objs w) ->
  let r := add_boat builtin_msg strftime_now self (OBoat boat) w in
  let n := name (boat_at w boat) in
  fst r = Ok (emoji_check ++ lit " " ++ n ++ lit " successfully added to fleet") /\
  fleet_at (snd r) self =
    mkFleet (boats (fleet_at w self) ++ [boat])
      (VList (l ++ [VStr (format_entry (strftime_now (ticks w))
                            (n ++ lit " joined the fleet."))])) /\
  boat_at (snd r) boat = bound_to self (boat_at w boat) /\
  (forall f, f <> self -> fleet_at (snd r) f = fleet_at w f) /\
  (forall b, b <> boat -> boat_at (snd r) b = boat_at w b).
Proof.
  exact (add_boat_changes self boat w l).
Qed.

Lemma remove_boat_changes (self : fleet_ref) (boat : boat_ref) (w : world)
  (l : list pyval) :
  boat ∈ boats (fleet_at w self) ->
  logs (fleet_at w self) = VList l ->
  boat < length (boat_objs w) ->
  let r := remove_boat builtin_msg strftime_now self boat w in
  let n := name (boat_at w boat) in
  fst r = Ok (emoji_check ++ lit " " ++ n
              ++ lit " successfully removed from fleet") /\
  boats (fleet_at (snd r) self) = list_remove boat (boats (fleet_at w self)) /\
  boat :: boats (fleet_at (snd r) self) ≡ₚ boats (fleet_at w self) /\
  logs (fleet_at (snd r) self) =
    VList (l ++ [VStr (format_entry (strftime_now (ticks w))
                         (n ++ lit " was removed from the fleet."))]) /\
  boat_at (snd r) boat = set_current_fleet None (boat_at w boat) /\
  (forall f, f <> self -> fleet_at (snd r) f = fleet_at w f) /\
  (forall b, b <> boat -> boat_at (snd r) b = boat_at w b).
Proof.
  intros Hin Hl Hboat r n.
  assert (Hlist : has_log_list w self) by (exists l; exact Hl).
  pose proof (has_log_list_valid _ _ Hlist) as Hself.
  unfold r. rewrite remove_boat_ok by assumption. cbn [fst snd].
  split; [reflexivity | ]. unfold removed.
  assert (Hat : fleet_at (logged strftime_now self
                  (n ++ lit " was removed from the fleet.")
                  (upd_boat boat (set_current_fleet None)
                     (upd_fleet self (drop_boat boat) w))) self =
                mkFleet (list_remove boat (boats (fleet_at w self)))
                  (VList (l ++ [VStr (format_entry (strftime_now (ticks w))
                                        (n ++ lit " was removed from the fleet."))]))).
  { rewrite (fleet_at_logged_eq self _ _ l).
    - rewrite fleet_at_upd_boat, fleet_at_upd_fleet_eq by exact Hself.
      reflexivity.
    - rewrite fleet_at_upd_boat, fleet_at_upd_fleet_eq by exact Hself.
      exact Hl. }
  fold n. rewrite Hat. cbn [boats logs].
  split; [reflexivity | ]. split; [apply list_remove_perm; exact Hin | ].
  split; [reflexivity | ]. split; [ | split].
  - change (boat_at (upd_boat boat (set_current_fleet None)
                       (upd_fleet self (drop_boat boat) w)) boat =
            set_current_fleet None (boat_at w boat)).
    rewrite boat_at_upd_boat_eq by exact Hboat. reflexivity.
  - intros f Hf. rewrite fleet_at_logged_ne by congruence.
    rewrite fleet_at_upd_boat, fleet_at_upd_fleet_ne by congruence.
    reflexivity.
  - intros b Hb.
    change (boat_at (upd_boat boat (set_current_fleet None)
                       (upd_fleet self (drop_boat boat) w)) b = boat_at w b).
    rewrite boat_at_upd_boat_ne by congruence. reflexivity.
Qed.

(** A successful [remove_boat] takes out one occurrence of the vessel, the
    first, and leaves the other vessels in their order; it unsets the
    vessel's [current_fleet] but keeps its fleet history, appends one entry
    to the log, and changes no other registry and no other vessel. *)
Theorem remove_boat_effect (self : fleet_ref) (boat : boat_ref) (w : world)
  (l : list pyval) :
  boat ∈ boats (fleet_at w self) ->
  logs (fleet_at w self) = VList l ->
  boat < length (boat_objs w) ->
  let r := remove_boat builtin_msg strftime_now self boat w in
  let n := name (boat_at w boat) in
  fst r = Ok (emoji_check ++ lit " " ++ n
              ++ lit " successfully removed from fleet") /\
  boats (fleet_at (snd r) self) = list_remove boat (boats (fleet_at w self)) /\
  boat :: boats (fleet_at (snd r) self) ≡ₚ boats (fleet_at w self) /\
  logs (fleet_at (snd r) self) =
    VList (l ++ [VStr (format_entry (strftime_now (ticks w))
                         (n ++ lit " was removed from the fleet."))]) /\
  boat_at (snd r) boat = set_current_fleet None (boat_at w boat) /\
  (forall f, f <> self -> fleet_at (snd r) f = fleet_at w f) /\
  (forall b, b <> boat -> boat_at (snd r) b = boat_at w b).
Proof.
  exact (remove_boat_changes self boat w l).
Qed.

(** [remove_boat] after [add_boat] of a vessel that was not in the registry
    gives back the old [boats]; the vessel ends unbound, with the registry
    still in its fleet history; removing it once more answers that it is
    not found and changes nothing. *)
Theorem add_then_remove (self : fleet_ref) (boat : boat_ref) (w : world) :
  boat ∉ boats (fleet_at w self) ->
  has_log_list w self ->
  boat < length (boat_objs w) ->
  let w1 := snd (add_boat builtin_msg strftime_now self (OBoat boat) w) in
  let w2 := snd (remove_boat builtin_msg strftime_now self boat w1) in
  boats (fleet_at w2 self) = boats (fleet_at w self) /\
  current_fleet (boat_at w2 boat) = None /\
  fleet_history (boat_at w2 boat) = fleet_history (boat_at w boat) ++ [self] /\
  remove_boat builtin_msg strftime_now self boat w2 =
    (Ok (emoji_cross ++ lit " " ++ name (boat_at w boat)
         ++ lit " not found in this fleet."), w2).
Proof.
  intros Hout [l Hl] Hboat w1 w2.
  destruct (add_boat_changes self boat w l Hl Hboat)
    as (_ & Hat1 & Hb1 & _ & _). fold w1 in Hat1, Hb1.
  assert (Hlen1 : boat < length (boat_objs w1)).
  { unfold w1. rewrite add_boat_ok by (exists l; exact Hl). simpl.
    rewrite length_alter. exact Hboat. }
  assert (Hin1 : boat ∈ boats (fleet_at w1 self)).
  { rewrite Hat1. simpl. apply elem_of_app. right. left. }
  destruct (remove_boat_changes self boat w1 _ Hin1
              ltac:(rewrite Hat1; reflexivity) Hlen1)
    as (_ & Hboats2 & _ & _ & Hb2 & _ & _).
  fold w2 in Hboats2, Hb2.
  assert (Hboats : boats (fleet_at w2 self) = boats (fleet_at w self)).
  { rewrite Hboats2, Hat1. simpl. apply list_remove_snoc. exact Hout. }
  split; [exact Hboats | ].
  split; [rewrite Hb2; reflexivity | ].
  split; [rewrite Hb2, Hb1; reflexivity | ].
  rewrite remove_boat_absent by (rewrite Hboats; exact Hout).
  rewrite Hb2, Hb1. reflexivity.
Qed.

(** A call that is turned down changes nothing, the clock and the logs
    included: [remove_boat], [transfer_boat] and [record_arrival] for a
    vessel that is not in the registry's [boats], and [add_boat] for an
    object that is no vessel. *)
Theorem rejected_calls_change_nothing
  (self new_fleet : fleet_ref) (boat : boat_ref) (location : pystr)
  (x : pyobj) (w : world) :
  (boat ∉ boats (fleet_at w self) ->
   snd (remove_boat builtin_msg strftime_now self boat w) = w /\
   snd (transfer_boat builtin_msg strftime_now self boat new_fleet w) = w /\
   record_arrival builtin_msg strftime_now self boat location w =
     (Ok (emoji_cross ++ lit " " ++ name (boat_at w boat)
          ++ lit " is not in this fleet."), w))
  /\
  ((forall b, x <> OBoat b) ->
   add_boat builtin_msg strftime_now self x w =
     (Ok (emoji_cross ++ lit " Only Boat objects can be added."), w)).
Proof.
  split.
  - intros Hout. rewrite remove_boat_absent, transfer_boat_absent by exact Hout.
    split; [reflexivity | split; [reflexivity | ]].
    unfold record_arrival, bind, get_world.
    rewrite bool_decide_eq_false_2 by exact Hout. reflexivity.
  - apply add_boat_other.
Qed.

(** A successful [record_arrival] appends one entry that names the vessel
    and the location to the log of the registry and changes nothing else:
    the registry's [boats], every vessel (its position data included) and
    the other registries stay as they are. *)
Theorem record_arrival_effect (self : fleet_ref) (boat : boat_ref)
  (location : pystr) (w : world) (l : list pyval) :
  boat ∈ boats (fleet_at w self) ->
  logs (fleet_at w self) = VList l ->
  let r := record_arrival builtin_msg strftime_now self boat location w in
  let n := name (boat_at w boat) in
  fst r = Ok (emoji_pin ++ lit " " ++ n ++ lit " arrival recorded at "
              ++ location ++ lit ".") /\
  fleet_at (snd r) self =
    mkFleet (boats (fleet_at w self))
      (VList (l ++ [VStr (format_entry (strftime_now (ticks w))
                            (n ++ lit " arrived at " ++ location ++ lit "."))])) /\
  boat_objs (snd r) = boat_objs w /\
  (forall f, f <> self -> fleet_at (snd r) f = fleet_at w f).
Proof.
  intros Hin Hl r n. unfold r.
  rewrite record_arrival_ok by (try (exists l); assumption). cbn [fst snd].
  split; [reflexivity | ].
  split; [apply fleet_at_logged_eq; exact Hl | ].
  split; [reflexivity | ].
  intros f Hf. apply fleet_at_logged_ne. congruence.
Qed.

End CallExtras.

Lemma add_boat_effect_witness :
  let r := add_boat sample_builtin_msg sample_clock 0 (OBoat 0) aurora_added in
  fst r = Ok (emoji_check ++ lit " Aurora successfully added to fleet") /\
  fleet_at (snd r) 0 =
    mkFleet [0; 0]
      (VList [txt "[2024-01-01 00:00:00] Aurora joined the fleet.";
              txt "[2024-01-01 00:00:01] Aurora joined the fleet."]) /\
  boat_at (snd r) 0 = bound_to 0 (boat_at aurora_added 0) /\
  (forall f, f <> 0 -> fleet_at (snd r) f = fleet_at aurora_added f) /\
  (forall b, b <> 0 -> boat_at (snd r) b = boat_at aurora_added b).
Proof.
  apply (add_boat_effect sample_builtin_msg sample_clock 0 0 aurora_added
           [txt "[2024-01-01 00:00:00] Aurora joined the fleet."]).
  - reflexivity.
  - vm_compute. lia.
Defined.

Lemma remove_boat_effect_witness :
  let r := remove_boat sample_builtin_msg sample_clock 0 0 aurora_added_twice in
  fst r = Ok (emoji_check ++ lit " Aurora successfully removed from fleet") /\
  boats (fleet_at (snd r) 0) = [0] /\
  0 :: boats (fleet_at (snd r) 0) ≡ₚ [0; 0] /\
  logs (fleet_at (snd r) 0) =
    VList [txt "[2024-01-01 00:00:00] Aurora joined the fleet.";
           txt "[2024-01-01 00:00:01] Aurora joined the fleet.";
           txt "[2024-01-01 00:00:02] Aurora was removed from the fleet."] /\
  boat_at (snd r) 0 = set_current_fleet None (boat_at aurora_added_twice 0) /\
  (forall f, f <> 0 -> fleet_at (snd r) f = fleet_at aurora_added_twice f) /\
  (forall b, b <> 0 -> boat_at (snd r) b = boat_at aurora_added_twice b).
Proof.
  apply (remove_boat_effect sample_builtin_msg sample_clock 0 0
           aurora_added_twice
           [txt "[2024-01-01 00:00:00] Aurora joined the fleet.";
            txt "[2024-01-01 00:00:01] Aurora joined the fleet."]).
  - vm_compute. left.
  - reflexivity.
  - vm_compute. lia.
Defined.

Lemma add_then_remove_witness :
  let w1 := snd (add_boat sample_builtin_msg sample_clock 1 (OBoat 0)
                   aurora_added) in
  let w2 := snd (remove_boat sample_builtin_msg sample_clock 1 0 w1) in
  boats (fleet_at w2 1) = [] /\
  current_fleet (boat_at w2 0) = None /\
  fleet_history (boat_at w2 0) = [0; 1] /\
  remove_boat sample_builtin_msg sample_clock 1 0 w2 =
    (Ok (emoji_cross ++ lit " Aurora not found in this fleet."), w2).
Proof.
  apply (add_then_remove sample_builtin_msg sample_clock 1 0 aurora_added).
  - vm_compute. intros H. inversion H.
  - exists []. reflexivity.
  - vm_compute. lia.
Defined.

Lemma rejected_calls_change_nothing_witness :
  snd (remove_boat sample_builtin_msg sample_clock 1 0 aurora_added) =
    aurora_added /\
  snd (transfer_boat sample_builtin_msg sample_clock 1 0 0 aurora_added) =
    aurora_added /\
  record_arrival sample_builtin_msg sample_clock 1 0 (lit "Bergen") aurora_added =
    (Ok (emoji_cross ++ lit " Aurora is not in this fleet."), aurora_added).
Proof.
  apply (proj1 (rejected_calls_change_nothing sample_builtin_msg sample_clock
                  1 0 0 (lit "Bergen") (OVal VNone) aurora_added)).
  vm_compute. intros H. inversion H.
Defined.

Lemma record_arrival_effect_witness :
  let r := record_arrival sample_builtin_msg sample_clock 0 0 (lit "Bergen")
             aurora_added in
  fst r = Ok (emoji_pin ++ lit " Aurora arrival recorded at Bergen.") /\
  fleet_at (snd r) 0 =
    mkFleet [0]
      (VList [txt "[2024-01-01 00:00:00] Aurora joined the fleet.";
              txt "[2024-01-01 00:00:01] Aurora arrived at Bergen."]) /\
  boat_objs (snd r) = boat_objs aurora_added /\
  (forall f, f <> 0 -> fleet_at (snd r) f = fleet_at aurora_added f).
Proof.
  apply (record_arrival_effect sample_builtin_msg sample_clock 0 0
           (lit "Bergen") aurora_added
           [txt "[2024-01-01 00:00:00] Aurora joined the fleet."]).
  - vm_compute. left.
  - reflexivity.
Defined.

(** ** Transfers between registries *)

Section TransferExtras.

Variable builtin_msg : builtin_op -> pyval -> pystr.
Variable strftime_now : nat -> pystr.

Lemma transferred_boats (A B : fleet_ref) (v : boat_ref) (w : world) :
  boat_objs (transferred strftime_now A v B w) =
  alter (bound_to B) v (boat_objs w).
Proof. reflexivity. Qed.

(** A successful [transfer_boat] between two different registries moves one
    occurrence of the vessel and nothing else: the vessels of the two
    registries together are the same as before, the vessel ends bound to
    the target with the target appended to its fleet history, and every
    other vessel is as it was. *)
Theorem transfer_boat_moves_one_vessel (A B : fleet_ref) (v : boat_ref) (w : world) :
  A <> B ->
  v ∈ boats (fleet_at w A) ->
  has_log_list w A -> has_log_list w B ->
  v < length (boat_objs w) ->
  let w' := snd (transfer_boat builtin_msg strftime_now A v B w) in
  boats (fleet_at w' A) ++ boats (fleet_at w' B) ≡ₚ
    boats (fleet_at w A) ++ boats (fleet_at w B) /\
  length (boats (fleet_at w' B)) = S (length (boats (fleet_at w B))) /\
  boat_at w' v = bound_to B (boat_at w v) /\
  (forall b, b <> v -> boat_at w' b = boat_at w b) /\
  (forall f, f <> A -> f <> B -> fleet_at w' f = fleet_at w f).
Proof.
  intros Hne Hin HA HB Hv w'. unfold w'.
  rewrite transfer_boat_ok by assumption. cbn [snd].
  pose proof (has_log_list_valid _ _ HA) as HAv.
  pose proof (has_log_list_valid _ _ HB) as HBv.
  destruct HA as [la Hla]. destruct HB as [lb Hlb].
  rewrite (transferred_source strftime_now A B v w la Hne HAv Hla).
  rewrite (transferred_target strftime_now A B v w lb Hne HBv Hlb).
  cbn [boats]. split; [ | split; [ | split; [ | split]]].
  - rewrite app_assoc, <- Permutation_cons_append, app_comm_cons.
    rewrite (list_remove_perm v _ Hin). reflexivity.
  - rewrite length_app. simpl. lia.
  - unfold boat_at. rewrite transferred_boats, list_lookup_alter_eq.
    apply lookup_lt_is_Some_2 in Hv as [Bv HBv']. rewrite HBv'. reflexivity.
  - intros b Hb. unfold boat_at.
    rewrite transferred_boats, list_lookup_alter_ne by congruence. reflexivity.
  - intros f HfA HfB. unfold fleet_at. rewrite transferred_fleets. simpl.
    rewrite !list_lookup_alter_ne by congruence. reflexivity.
Qed.

(** Transferring a vessel to another registry and back: the other registry
    has its old vessels again, the first registry has the vessel moved to
    the end of its sequence, and the vessel is bound to the first registry
    with both registries appended to its fleet history. *)
Theorem transfer_there_and_back (A B : fleet_ref) (v : boat_ref) (w : world) :
  A <> B ->
  v ∈ boats (fleet_at w A) ->
  v ∉ boats (fleet_at w B) ->
  has_log_list w A -> has_log_list w B ->
  v < length (boat_objs w) ->
  let w1 := snd (transfer_boat builtin_msg strftime_now A v B w) in
  let w2 := snd (transfer_boat builtin_msg strftime_now B v A w1) in
  boats (fleet_at w2 B) = boats (fleet_at w B) /\
  boats (fleet_at w2 A) = list_remove v (boats (fleet_at w A)) ++ [v] /\
  current_fleet (boat_at w2 v) = Some A /\
  fleet_history (boat_at w2 v) = fleet_history (boat_at w v) ++ [B; A].
Proof.
  intros Hne Hin Hout HA HB Hv w1 w2.
  pose proof (has_log_list_valid _ _ HA) as HAv.
  pose proof (has_log_list_valid _ _ HB) as HBv.
  assert (Hw1 : w1 = transferred strftime_now A v B w).
  { unfold w1. rewrite transfer_boat_ok by assumption. reflexivity. }
  assert (HA1 : has_log_list w1 A)
    by (rewrite Hw1; apply has_log_list_transferred; exact HA).
  assert (HB1 : has_log_list w1 B)
    by (rewrite Hw1; apply has_log_list_transferred; exact HB).
  destruct HA as [la Hla]. destruct HB as [lb Hlb].
  assert (HatA : boats (fleet_at w1 A) = list_remove v (boats (fleet_at w A))).
  { rewrite Hw1, (transferred_source strftime_now A B v w la Hne HAv Hla).
    reflexivity. }
  assert (HatB : boats (fleet_at w1 B) = boats (fleet_at w B) ++ [v]).
  { rewrite Hw1, (transferred_target strftime_now A B v w lb Hne HBv Hlb).
    reflexivity. }
  assert (Hv1 : v < length (boat_objs w1)).
  { rewrite Hw1, transferred_boats, length_alter. exact Hv. }
  assert (Hb1 : boat_at w1 v = bound_to B (boat_at w v)).
  { unfold boat_at. rewrite Hw1, transferred_boats, list_lookup_alter_eq.
    apply lookup_lt_is_Some_2 in Hv as [Bv HBv']. rewrite HBv'. reflexivity. }
  assert (Hin1 : v ∈ boats (fleet_at w1 B)).
  { rewrite HatB. apply elem_of_app. right. left. }
  assert (Hw2 : w2 = transferred strftime_now B v A w1).
  { unfold w2. rewrite transfer_boat_ok by assumption. reflexivity. }
  destruct HA1 as [la1 Hla1]. destruct HB1 as [lb1 Hlb1].
  assert (HBv1 : B < length (fleet_objs w1))
    by (apply has_log_list_valid; exists lb1; exact Hlb1).
  assert (HAv1 : A < length (fleet_objs w1))
    by (apply has_log_list_valid; exists la1; exact Hla1).
  split; [ | split; [ | split]].
  - rewrite Hw2.
    rewrite (transferred_source strftime_now B A v w1 lb1
               (not_eq_sym Hne) HBv1 Hlb1).
    cbn [boats]. rewrite HatB. apply list_remove_snoc. exact Hout.
  - rewrite Hw2.
    rewrite (transferred_target strftime_now B A v w1 la1
               (not_eq_sym Hne) HAv1 Hla1).
    cbn [boats]. rewrite HatA. reflexivity.
  - unfold boat_at. rewrite Hw2, transferred_boats, list_lookup_alter_eq.
    apply lookup_lt_is_Some_2 in Hv1 as [Bv HBv']. rewrite HBv'. reflexivity.
  - assert (Hb2 : boat_at w2 v = bound_to A (boat_at w1 v)).
    { unfold boat_at. rewrite Hw2, transferred_boats, list_lookup_alter_eq.
      apply lookup_lt_is_Some_2 in Hv1 as [Bv HBv']. rewrite HBv'.
      reflexivity. }
    rewrite Hb2, Hb1. simpl. rewrite <- app_assoc. reflexivity.
Qed.

End TransferExtras.

Lemma transfer_boat_moves_one_vessel_witness :
  let w' := snd (transfer_boat sample_builtin_msg sample_clock 0 0 1
                   aurora_added_twice) in
  boats (fleet_at w' 0) ++ boats (fleet_at w' 1) ≡ₚ
    boats (fleet_at aurora_added_twice 0) ++ boats (fleet_at aurora_added_twice 1) /\
  length (boats (fleet_at w' 1)) =
    S (length (boats (fleet_at aurora_added_twice 1))) /\
  boat_at w' 0 = bound_to 1 (boat_at aurora_added_twice 0) /\
  (forall b, b <> 0 -> boat_at w' b = boat_at aurora_added_twice b) /\
  (forall f, f <> 0 -> f <> 1 -> fleet_at w' f = fleet_at aurora_added_twice f).
Proof.
  apply (transfer_boat_moves_one_vessel sample_builtin_msg sample_clock 0 1 0
           aurora_added_twice).
  - lia.
  - vm_compute. left.
  - eexists. vm_compute. reflexivity.
  - eexists. vm_compute. reflexivity.
  - vm_compute. lia.
Defined.

Lemma transfer_there_and_back_witness :
  let w1 := snd (transfer_boat sample_builtin_msg sample_clock 0 0 1
                   aurora_added) in
  let w2 := snd (transfer_boat sample_builtin_msg sample_clock 1 0 0 w1) in
  boats (fleet_at w2 1) = boats (fleet_at aurora_added 1) /\
  boats (fleet_at w2 0) = list_remove 0 (boats (fleet_at aurora_added 0)) ++ [0] /\
  current_fleet (boat_at w2 0) = Some 0 /\
  fleet_history (boat_at w2 0) =
    fleet_history (boat_at aurora_added 0) ++ [1; 0].
Proof.
  apply (transfer_there_and_back sample_builtin_msg sample_clock 0 1 0
           aurora_added).
  - lia.
  - vm_compute. left.
  - vm_compute. intros H. inversion H.
  - eexists. vm_compute. reflexivity.
  - eexists. vm_compute. reflexivity.
  - vm_compute. lia.
Defined.

(** ** Invariants of whole sessions *)

Lemma bound_ok_upd_boat_same (b b0 : boat_ref) (g : Boat -> Boat) (w : world) :
  (forall B, current_fleet (g B) = current_fleet B) ->
  vessel_bound_ok w b -> vessel_bound_ok (upd_boat b0 g w) b.
Proof.
  intros Hg Hb B f HB Hcf. simpl in HB. rewrite list_lookup_alter in HB.
  case_decide as Hd.
  - subst b0. destruct (boat_objs w !! b) as [B0 | ] eqn:HB0; simpl in HB;
      [ | discriminate].
    injection HB as <-. rewrite Hg in Hcf. exact (Hb B0 f HB0 Hcf).
  - exact (Hb B f HB Hcf).
Qed.

Lemma histories_ok_alter (nfleets : nat) (b0 : boat_ref) (g : Boat -> Boat)
  (bs : list Boat) :
  (forall B, history_ok nfleets B -> history_ok nfleets (g B)) ->
  (forall b B, bs !! b = Some B -> history_ok nfleets B) ->
  forall b B, alter g b0 bs !! b = Some B -> history_ok nfleets B.
Proof.
  intros Hg Hbs b B HB. rewrite list_lookup_alter in HB.
  case_decide as Hd; [ | exact (Hbs b B HB)].
  subst b0. destruct (bs !! b) as [B0 | ] eqn:HB0; simpl in HB; [ | discriminate].
  injection HB as <-. apply Hg. exact (Hbs b B0 HB0).
Qed.

Lemma history_ok_bound_to (nfleets : nat) (f : fleet_ref) (B : Boat) :
  f < nfleets -> history_ok nfleets B -> history_ok nfleets (bound_to f B).
Proof.
  intros Hf [_ Hall]. split; simpl.
  - intros f' [= <-]. apply last_snoc.
  - apply Forall_app. split; [exact Hall | ]. constructor; [exact Hf | constructor].
Qed.

Lemma history_ok_unbound (nfleets : nat) (B : Boat) :
  history_ok nfleets B -> history_ok nfleets (set_current_fleet None B).
Proof. intros [_ Hall]. split; simpl; [discriminate | exact Hall]. Qed.

Section SessionExtras.

Variable builtin_msg : builtin_op -> pyval -> pystr.
Variable strftime_now : nat -> pystr.

Lemma session_ok_sorted (nfleets : nat) (self : fleet_ref) (key : boat_ref -> pystr)
  (w : world) :
  session_ok nfleets w ->
  session_ok nfleets
    (upd_fleet self (fun f => set_boats (list_sort key (boats f)) f) w).
Proof.
  intros (Hlogs & Hinv & Hhist). split; [ | split].
  - intros f Hf. apply has_log_list_upd_fleet; [ | apply Hlogs; exact Hf].
    intros F HF. exact HF.
  - intros b. apply bound_ok_upd_fleet; [ | apply Hinv].
    intros F Hin. simpl. rewrite list_sort_perm. exact Hin.
  - exact Hhist.
Qed.

Lemma run_action_session_ok (nfleets nboats : nat) (a : action) (w : world) :
  action_in_range nfleets nboats a ->
  session_ok nfleets w ->
  session_ok nfleets (snd (run_action builtin_msg strftime_now a w)).
Proof.
  intros Ha (Hlogs & Hinv & Hhist).
  destruct a as [c | f b loc | f by_ | b p]; cbn [run_action]; simpl in Ha.
  - destruct (run_call_invariant builtin_msg strftime_now nfleets nboats c w
                Ha Hlogs Hinv) as [Hlogs' Hinv'].
    split; [exact Hlogs' | split; [exact Hinv' | ]].
    destruct c as [f b | f b | f b g]; cbn [run_call]; simpl in Ha.
    + destruct Ha as [Hf _].
      rewrite add_boat_ok by (apply Hlogs; exact Hf). cbn [snd].
      change (boat_objs (added strftime_now f b w))
        with (alter (bound_to f) b (boat_objs w)).
      apply histories_ok_alter; [ | exact Hhist].
      intros B. apply history_ok_bound_to. exact Hf.
    + destruct Ha as [Hf _].
      destruct (decide (b ∈ boats (fleet_at w f))) as [Hin | Hout].
      * rewrite remove_boat_ok by (try apply Hlogs; assumption). cbn [snd].
        change (boat_objs (removed strftime_now f b w))
          with (alter (set_current_fleet None) b (boat_objs w)).
        apply histories_ok_alter; [ | exact Hhist].
        intros B. apply history_ok_unbound.
      * rewrite remove_boat_absent by exact Hout. exact Hhist.
    + destruct Ha as (Hf & _ & Hg).
      destruct (decide (b ∈ boats (fleet_at w f))) as [Hin | Hout].
      * rewrite transfer_boat_ok by (try apply Hlogs; assumption). cbn [snd].
        rewrite transferred_boats.
        apply histories_ok_alter; [ | exact Hhist].
        intros B. apply history_ok_bound_to. exact Hg.
      * rewrite transfer_boat_absent by exact Hout. exact Hhist.
  - destruct Ha as [Hf _].
    destruct (decide (b ∈ boats (fleet_at w f))) as [Hin | Hout].
    + rewrite record_arrival_ok by (try apply Hlogs; assumption). cbn [snd].
      split; [ | split].
      * intros f' Hf'. apply has_log_list_logged, Hlogs. exact Hf'.
      * intros b'. apply bound_ok_logged, Hinv.
      * exact Hhist.
    + unfold record_arrival, bind, get_world.
      rewrite bool_decide_eq_false_2 by exact Hout. cbn.
      split; [exact Hlogs | split; [exact Hinv | exact Hhist]].
  - unfold sort_boats, bind, get_world.
    destruct (boats (fleet_at w f)) eqn:E; cbn [snd ret];
      [split; [exact Hlogs | split; [exact Hinv | exact Hhist]] | ].
    unfold update_fleet. cbn [snd].
    apply session_ok_sorted. split; [exact Hlogs | split; [exact Hinv | exact Hhist]].
  - rewrite log_position_eq. cbv zeta.
    assert (H1 : session_ok nfleets
                   (upd_boat b (set_current_position (VStr p)) (tick w))).
    { split; [ | split].
      - exact Hlogs.
      - intros b'. apply bound_ok_upd_boat_same; [reflexivity | ].
        apply bound_ok_tick, Hinv.
      - apply histories_ok_alter; [ | exact Hhist]. intros B HB. exact HB. }
    destruct (py_append _ _ _) as [logs' | e]; cbn [snd]; [ | exact H1].
    destruct H1 as (Hl1 & Hi1 & Hh1). split; [ | split].
    + exact Hl1.
    + intros b'. apply bound_ok_upd_boat_same; [reflexivity | apply Hi1].
    + apply histories_ok_alter; [ | exact Hh1]. intros B HB. exact HB.
Qed.

(** In every state that a session reaches from fresh registries and
    unbound vessels without history, through [add_boat], [remove_boat],
    [transfer_boat], [record_arrival], [sort_boats] and [log_position]:
    each bound vessel is among the [boats] of the registry it points to,
    that registry is the last entry of its fleet history, and every log is
    still a list. *)
Theorem session_invariants
  (nfleets : nat) (vessels : list Boat) (acts : list action) :
  Forall (fun b => current_fleet b = None /\ fleet_history b = []) vessels ->
  Forall (action_in_range nfleets (length vessels)) acts ->
  let w := run_actions builtin_msg strftime_now acts
             (fresh_world nfleets vessels) in
  membership_invariant w /\
  (forall b B, boat_objs w !! b = Some B -> history_ok nfleets B) /\
  (forall f, f < nfleets -> has_log_list w f).
Proof.
  intros Hfresh Hacts.
  assert (H0 : session_ok nfleets (fresh_world nfleets vessels)).
  { rewrite Forall_lookup in Hfresh. split; [ | split].
    - intros f Hf. exists []. unfold fleet_at, fresh_world. simpl.
      rewrite lookup_replicate_2 by exact Hf. reflexivity.
    - intros b B f HB Hcf. destruct (Hfresh b B HB) as [Hnone _].
      rewrite Hnone in Hcf. discriminate.
    - intros b B HB. destruct (Hfresh b B HB) as [Hnone Hnil]. split.
      + intros f Hcf. rewrite Hnone in Hcf. discriminate.
      + rewrite Hnil. constructor. }
  revert H0. generalize (fresh_world nfleets vessels) as w0.
  induction Hacts as [ | a acts Ha _ IH]; intros w0 H0; simpl.
  - destruct H0 as (Hl & Hi & Hh). split; [exact Hi | split; [exact Hh | exact Hl]].
  - apply IH. eapply run_action_session_ok; eassumption.
Qed.

End SessionExtras.

Lemma session_invariants_witness :
  let w := run_actions sample_builtin_msg sample_clock
             [ActCall (CallAdd 0 0); ActLogPosition 0 (lit "Bergen");
              ActCall (CallAdd 1 0); ActSort 1 VNone;
              ActArrival 0 0 (lit "Kiel"); ActCall (CallTransfer 1 0 0);
              ActCall (CallRemove 0 0)]
             (fresh_world 2 [aurora]) in
  membership_invariant w /\
  (forall b B, boat_objs w !! b = Some B -> history_ok 2 B) /\
  (forall f, f < 2 -> has_log_list w f).
Proof.
  apply (session_invariants sample_builtin_msg sample_clock 2 [aurora]).
  - repeat constructor.
  - repeat constructor.
Defined.

(** ** More on loading and saving *)

Section LoadExtras.

Variable fromtimestamp_date : pyval -> res date.
Variable str_other : pyval -> pystr.
Variable builtin_msg : builtin_op -> pyval -> pystr.

(** A successful load does not unbind the vessels that the registry held:
    a vessel that pointed to the registry still does, although it is no
    longer among the registry's [boats]. *)
Theorem load_leaves_old_vessels_bound
  (file : file_state) (self : fleet_ref) (w : world) (b : boat_ref) :
  self < length (fleet_objs w) ->
  load_succeeded
    (fst (load_from_file fromtimestamp_date builtin_msg file self w)) ->
  b < length (boat_objs w) ->
  current_fleet (boat_at w b) = Some self ->
  let w' := snd (load_from_file fromtimestamp_date builtin_msg file self w) in
  boat_at w' b = boat_at w b /\
  (b ∉ boats (fleet_at w' self)) /\
  ~ vessel_bound_ok w' b.
Proof.
  intros Hself [k Hk] Hb Hcf w'.
  destruct (load_success_inv _ _ _ _ _ _ Hk)
    as (d & items & bs & -> & Hitems & Hbs).
  unfold w'.
  rewrite (load_from_file_ok _ _ d items bs self w Hself Hitems Hbs).
  cbn [snd].
  set (w1 := mkWorld _ _ _).
  assert (Hat : boat_at w1 b = boat_at w b).
  { unfold boat_at, w1. simpl. rewrite lookup_app_l by exact Hb. reflexivity. }
  assert (Hfleet : fleet_objs w1 !! self =
                   Some (mkFleet (seq (length (boat_objs w)) (length bs))
                           (document_field d "logs"))).
  { unfold w1. simpl. apply list_lookup_insert_eq. exact Hself. }
  assert (Hout : b ∉ boats (fleet_at w1 self)).
  { unfold fleet_at. rewrite Hfleet. simpl.
    intros Hin. apply list_elem_of_In, in_seq in Hin. lia. }
  split; [exact Hat | split; [exact Hout | ]].
  intros Hok.
  destruct (lookup_lt_is_Some_2 (boat_objs w) b Hb) as [B HB].
  assert (HB1 : boat_objs w1 !! b = Some B).
  { unfold w1. simpl. rewrite lookup_app_l by exact Hb. exact HB. }
  assert (HcfB : current_fleet B = Some self).
  { unfold boat_at in Hcf. rewrite HB in Hcf. exact Hcf. }
  destruct (Hok B self HB1 HcfB) as (F & HF & Hin).
  apply Hout. unfold fleet_at. rewrite HF. exact Hin.
Qed.

Lemma for_each_load_fail (self : fleet_ref) (good : list pyval) (bad : pyval)
  (rest : list pyval) (bs : list Boat) (e : exn) (w : world) :
  reconstructs builtin_msg fromtimestamp_date good bs ->
  from_dict fromtimestamp_date builtin_msg bad = Raise e ->
  for_each (good ++ bad :: rest)
    (load_boat fromtimestamp_date builtin_msg self) w =
  (Raise e, loaded_world self bs w).
Proof.
  intros H Hbad. revert w.
  induction H as [ | item b items bs' Hb _ IH]; intros w; simpl.
  - unfold bind. rewrite load_boat_eq, Hbad, loaded_world_nil. reflexivity.
  - unfold bind. rewrite load_boat_eq, Hb. fold (@app pyval).
    change (for_each (items ++ bad :: rest)
              (load_boat fromtimestamp_date builtin_msg self)
              (mkWorld (boat_objs w ++ [bound_to self b])
                 (alter (append_boat (length (boat_objs w))) self (fleet_objs w))
                 (ticks w)) =
            (Raise e, loaded_world self (b :: bs') w)).
    rewrite IH. f_equal. unfold loaded_world. simpl. f_equal.
    + rewrite <- app_assoc. reflexivity.
    + rewrite list_alter_alter_eq. apply list_alter_ext; [ | reflexivity].
      intros F _. unfold append_boat, set_boats. simpl.
      rewrite length_app. simpl. rewrite <- app_assoc. simpl.
      replace (length (boat_objs w) + 1) with (S (length (boat_objs w))) by lia.
      reflexivity.
Qed.

(** A load that fails on a vessel document is not undone: the registry is
    left with the vessels rebuilt from the documents before the bad one and
    with the logs of the file, and the answer is the error message with the
    text of the exception. *)
Theorem load_failure_is_partial
  (d : gmap pystr pyval) (good : list pyval) (bad : pyval) (rest : list pyval)
  (bs : list Boat) (e : exn) (self : fleet_ref) (w : world) :
  self < length (fleet_objs w) ->
  py_iter builtin_msg (document_field d "boats") = Ok (good ++ bad :: rest) ->
  reconstructs builtin_msg fromtimestamp_date good bs ->
  from_dict fromtimestamp_date builtin_msg bad = Raise e ->
  exn_cls e <> FileNotFoundError ->
  let r := load_from_file fromtimestamp_date builtin_msg (JsonFile (VDict d))
             self w in
  fst r = Ok (emoji_cross ++ lit " Error loading fleet data: " ++ exn_msg e) /\
  fleet_at (snd r) self =
    mkFleet (seq (length (boat_objs w)) (length bs)) (document_field d "logs") /\
  boat_objs (snd r) = boat_objs w ++ map (bound_to self) bs.
Proof.
  intros Hself Hitems Hgood Hbad Hcls r. unfold r.
  rewrite load_from_file_json. cbv zeta.
  rewrite Hitems, (for_each_load_fail self good bad rest bs e _ Hgood Hbad).
  unfold load_except.
  assert (Hmsg : forall w0,
    match exn_cls e with
    | FileNotFoundError =>
        ret (emoji_info
             ++ lit " No saved fleet data found. Starting with empty fleet.")
    | _ => ret (emoji_cross ++ lit " Error loading fleet data: " ++ exn_msg e)
    end w0 =
    (Ok (emoji_cross ++ lit " Error loading fleet data: " ++ exn_msg e), w0)).
  { intros w0. destruct (exn_cls e); try reflexivity. congruence. }
  rewrite Hmsg. cbn [fst snd]. split; [reflexivity | ]. split.
  - unfold fleet_at, loaded_world, upd_fleet. simpl.
    rewrite !list_alter_alter_eq, list_lookup_alter_eq.
    apply lookup_lt_is_Some_2 in Hself as [F HF]. rewrite HF. reflexivity.
  - reflexivity.
Qed.

(** The keys of the file are optional: a dictionary without [boats] loads
    as an empty registry, and without [logs] as an empty log; the answer
    counts zero vessels. *)
Theorem load_missing_keys (d : gmap pystr pyval) (self : fleet_ref) (w : world) :
  self < length (fleet_objs w) ->
  d !! lit "boats" = None ->
  let r := load_from_file fromtimestamp_date builtin_msg (JsonFile (VDict d))
             self w in
  fst r = Ok (loaded_message 0) /\
  boats (fleet_at (snd r) self) = [] /\
  logs (fleet_at (snd r) self) = document_field d "logs" /\
  (d !! lit "logs" = None -> logs (fleet_at (snd r) self) = VList []) /\
  boat_objs (snd r) = boat_objs w.
Proof.
  intros Hself Hboats r. unfold r.
  assert (Hitems : py_iter builtin_msg (document_field d "boats") = Ok []).
  { unfold document_field. rewrite Hboats. reflexivity. }
  rewrite (load_from_file_ok fromtimestamp_date builtin_msg d [] [] self w
             Hself Hitems ltac:(constructor)).
  cbn [fst snd map length seq].
  assert (Hat : fleet_at
    (mkWorld (boat_objs w ++ [])
       (<[self := mkFleet [] (document_field d "logs")]> (fleet_objs w))
       (ticks w)) self = mkFleet [] (document_field d "logs")).
  { unfold fleet_at. cbn [fleet_objs].
    rewrite list_lookup_insert_eq by exact Hself. reflexivity. }
  rewrite Hat. cbn [boats logs boat_objs].
  split; [reflexivity | ]. split; [reflexivity | ]. split; [reflexivity | ].
  split; [ | apply app_nil_r].
  intros Hlogs. unfold document_field. rewrite Hlogs. reflexivity.
Qed.

(** An unreadable file and a file of the wrong shape are both answered with
    the error message, but differ in what they leave: when the file cannot
    be opened or parsed the store is untouched; when it parses to a value
    that is no dictionary the registry's [boats] have already been emptied
    (its logs are kept). *)
Theorem load_unreadable_or_misshaped
  (e : exn) (data : pyval) (self : fleet_ref) (w : world) :
  (exn_cls e <> FileNotFoundError ->
   load_from_file fromtimestamp_date builtin_msg (BadFile e) self w =
   (Ok (emoji_cross ++ lit " Error loading fleet data: " ++ exn_msg e), w))
  /\
  ((forall d, data <> VDict d) ->
   self < length (fleet_objs w) ->
   let r := load_from_file fromtimestamp_date builtin_msg (JsonFile data)
              self w in
   fst r = Ok (emoji_cross ++ lit " Error loading fleet data: "
               ++ builtin_msg (OpGetAttr (lit "get")) data) /\
   fleet_at (snd r) self = mkFleet [] (logs (fleet_at w self)) /\
   boat_objs (snd r) = boat_objs w).
Proof.
  split.
  - intros Hcls. unfold load_from_file, try_except, bind, lift, read_json,
      load_except.
    destruct (exn_cls e); try reflexivity. congruence.
  - intros Hshape Hself r. unfold r. rewrite load_from_file_json. cbv zeta.
    assert (Hat : fleet_at (upd_fleet self (set_boats []) w) self =
                  mkFleet [] (logs (fleet_at w self))).
    { rewrite fleet_at_upd_fleet_eq by exact Hself. reflexivity. }
    destruct data; try (split; [reflexivity | split; [exact Hat | reflexivity]]).
    destruct (Hshape d). reflexivity.
Qed.

Lemma reconstructs_to_dict (Bs : list Boat) :
  Forall valid_boat Bs ->
  reconstructs builtin_msg fromtimestamp_date
    (map (to_dict str_other) Bs) (map (restored str_other) Bs).
Proof.
  unfold reconstructs. induction 1 as [ | B Bs HB _ IH]; simpl; constructor.
  - apply from_dict_to_dict. exact HB.
  - exact IH.
Qed.

(** Save, then load: if [fleet_data.json] parses to the document that
    [save_to_file] builds for a registry whose vessels are as the
    constructors leave them, then loading it into any registry succeeds and
    gives that registry the same logs and, in the same order, vessels with
    the same class, name, home port, flag, position data and subclass
    attributes, bound to the loading registry. *)
Theorem save_then_load
  (today : pystr) (w0 : world) (src : fleet_ref) (self : fleet_ref) (w : world) :
  self < length (fleet_objs w) ->
  Forall (fun b => valid_boat (boat_at w0 b)) (boats (fleet_at w0 src)) ->
  let saved := map (boat_at w0) (boats (fleet_at w0 src)) in
  let r := load_from_file fromtimestamp_date builtin_msg
             (JsonFile (save_data str_other today w0 src)) self w in
  fst r = Ok (loaded_message (length saved)) /\
  logs (fleet_at (snd r) self) = logs (fleet_at w0 src) /\
  boats (fleet_at (snd r) self) = seq (length (boat_objs w)) (length saved) /\
  map (boat_at (snd r)) (boats (fleet_at (snd r) self)) =
    map (fun b => bound_to self (restored str_other b)) saved.
Proof.
  intros Hself Hvalid saved r. unfold r, save_data.
  set (d := <[lit "saved_date" := VStr today]> _).
  assert (Hboats : document_field d "boats" =
    VList (map (fun boat => to_dict str_other (boat_at w0 boat))
             (boats (fleet_at w0 src)))).
  { unfold document_field, d. eval_lookups. reflexivity. }
  assert (Hlogs : document_field d "logs" = logs (fleet_at w0 src)).
  { unfold document_field, d. eval_lookups. reflexivity. }
  assert (Hrec : reconstructs builtin_msg fromtimestamp_date
    (map (fun boat => to_dict str_other (boat_at w0 boat))
       (boats (fleet_at w0 src)))
    (map (restored str_other) saved)).
  { change (map (fun boat => to_dict str_other (boat_at w0 boat))
              (boats (fleet_at w0 src)))
      with (map (fun boat => to_dict str_other (boat_at w0 boat))
              (boats (fleet_at w0 src))).
    rewrite <- (map_map (boat_at w0) (to_dict str_other)).
    apply reconstructs_to_dict. unfold saved.
    apply Forall_map. exact Hvalid. }
  rewrite (load_from_file_ok fromtimestamp_date builtin_msg d _ _ self w Hself
             ltac:(rewrite Hboats; reflexivity) Hrec).
  cbn [fst snd]. rewrite !length_map.
  set (w1 := mkWorld _ _ _).
  assert (Hat : fleet_at w1 self =
                mkFleet (seq (length (boat_objs w)) (length saved))
                  (document_field d "logs")).
  { unfold fleet_at, w1. cbn [fleet_objs].
    rewrite list_lookup_insert_eq by exact Hself. reflexivity. }
  rewrite !Hat. cbn [boats logs].
  split; [unfold saved; rewrite length_map; reflexivity | ].
  split; [exact Hlogs | ].
  split; [unfold saved; rewrite length_map; reflexivity | ].
  apply list_eq. intros i. rewrite !lookup_map.
  destruct (saved !! i) as [B | ] eqn:HB.
  - assert (Hi : i < length (boats (fleet_at w0 src))).
    { apply lookup_lt_Some in HB. unfold saved in HB.
      rewrite length_map in HB. exact HB. }
    rewrite lookup_seq_lt
      by (unfold saved; rewrite length_map; exact Hi).
    simpl. unfold boat_at, w1. cbn [boat_objs].
    rewrite lookup_app_r by lia.
    replace (length (boat_objs w) + i - length (boat_objs w)) with i by lia.
    rewrite !lookup_map, HB. reflexivity.
  - rewrite lookup_ge_None_2; [reflexivity | ].
    rewrite length_seq. apply lookup_ge_None in HB. exact HB.
Qed.

End LoadExtras.

Lemma load_leaves_old_vessels_bound_witness :
  let w' := snd (load_from_file sample_fromtimestamp sample_builtin_msg
                   (JsonFile saved_document) 0 aurora_added) in
  boat_at w' 0 = boat_at aurora_added 0 /\
  (0 ∉ boats (fleet_at w' 0)) /\
  ~ vessel_bound_ok w' 0.
Proof.
  apply (load_leaves_old_vessels_bound sample_fromtimestamp sample_builtin_msg
           (JsonFile saved_document) 0 aurora_added 0).
  - vm_compute. lia.
  - exists 1. vm_compute. reflexivity.
  - vm_compute. lia.
  - vm_compute. reflexivity.
Defined.

Lemma load_failure_is_partial_witness :
  let r := load_from_file sample_fromtimestamp sample_builtin_msg
             (JsonFile (VDict broken_boats)) 0 aurora_added in
  fst r = Ok (emoji_cross ++ lit " Error loading fleet data: 'launch_date'") /\
  fleet_at (snd r) 0 = mkFleet [1] (VList []) /\
  boat_objs (snd r) =
    boat_objs aurora_added ++ map (bound_to 0) [baltic_trader].
Proof.
  apply (load_failure_is_partial sample_fromtimestamp sample_builtin_msg
           broken_boats [to_dict sample_str_other baltic_trader] (VDict ∅) []
           [baltic_trader] (Exn KeyError (lit "'launch_date'")) 0 aurora_added).
  - vm_compute. lia.
  - vm_compute. reflexivity.
  - constructor; [vm_compute; reflexivity | constructor].
  - vm_compute. reflexivity.
  - discriminate.
Defined.

Lemma load_missing_keys_witness :
  let r := load_from_file sample_fromtimestamp sample_builtin_msg
             (JsonFile (VDict ∅)) 0 aurora_added in
  fst r = Ok (loaded_message 0) /\
  boats (fleet_at (snd r) 0) = [] /\
  logs (fleet_at (snd r) 0) = document_field ∅ "logs" /\
  ((∅ : gmap pystr pyval) !! lit "logs" = None ->
   logs (fleet_at (snd r) 0) = VList []) /\
  boat_objs (snd r) = boat_objs aurora_added.
Proof.
  apply (load_missing_keys sample_fromtimestamp sample_builtin_msg ∅ 0
           aurora_added).
  - vm_compute. lia.
  - reflexivity.
Defined.

Lemma load_unreadable_or_misshaped_witness :
  load_from_file sample_fromtimestamp sample_builtin_msg
    (BadFile (Exn JSONDecodeError (lit "Expecting value"))) 0 aurora_added =
  (Ok (emoji_cross ++ lit " Error loading fleet data: Expecting value"),
   aurora_added)
  /\
  (let r := load_from_file sample_fromtimestamp sample_builtin_msg
              (JsonFile (VList [])) 0 aurora_added in
   fst r = Ok (emoji_cross ++ lit " Error loading fleet data: "
               ++ sample_builtin_msg (OpGetAttr (lit "get")) (VList [])) /\
   fleet_at (snd r) 0 = mkFleet [] (logs (fleet_at aurora_added 0)) /\
   boat_objs (snd r) = boat_objs aurora_added).
Proof.
  split.
  - apply (proj1 (load_unreadable_or_misshaped sample_fromtimestamp
                    sample_builtin_msg
                    (Exn JSONDecodeError (lit "Expecting value")) VNone 0
                    aurora_added)).
    discriminate.
  - apply (proj2 (load_unreadable_or_misshaped sample_fromtimestamp
                    sample_builtin_msg
                    (Exn JSONDecodeError (lit "Expecting value")) (VList []) 0
                    aurora_added)).
    + discriminate.
    + vm_compute. lia.
Defined.

Lemma save_then_load_witness :
  let saved := map (boat_at scenario_fleet) (boats (fleet_at scenario_fleet 0)) in
  let r := load_from_file sample_fromtimestamp sample_builtin_msg
             (JsonFile (save_data sample_str_other (lit "2024-01-02")
                          scenario_fleet 0)) 1 two_fleets in
  fst r = Ok (loaded_message (length saved)) /\
  logs (fleet_at (snd r) 1) = logs (fleet_at scenario_fleet 0) /\
  boats (fleet_at (snd r) 1) = seq (length (boat_objs two_fleets)) (length saved) /\
  map (boat_at (snd r)) (boats (fleet_at (snd r) 1)) =
    map (fun b => bound_to 1 (restored sample_str_other b)) saved.
Proof.
  apply (save_then_load sample_fromtimestamp sample_str_other sample_builtin_msg
           (lit "2024-01-02") scenario_fleet 0 1 two_fleets).
  - vm_compute. lia.
  - repeat constructor; simpl; try (vm_compute; discriminate); reflexivity.
Defined.

(** ** Display and search *)

Lemma str_in_nil (s : pystr) : str_in [] s = true.
Proof. destruct s; reflexivity. Qed.

Lemma filter_all {A} (p : A -> bool) (l : list A) :
  (forall x, p x = true) -> List.filter p l = l.
Proof.
  intros Hp. induction l as [ | x l IH]; simpl; [reflexivity | ].
  rewrite Hp, IH. reflexivity.
Qed.

Section DisplayExtras.

Variable fromtimestamp_date : pyval -> res date.
Variable fromisoformat_date : pystr -> res date.
Variable str_other : pyval -> pystr.
Variable str_lower : pystr -> pystr.

(** A vessel is displayed after the round trip through [to_dict] and
    [from_dict] exactly as before it: [__repr__] reads a launch date that
    has become a string back as a date, provided [fromisoformat] inverts
    the ISO form of that date; a launch date that was a string is
    displayed as before in any case. *)
Theorem repr_same_after_roundtrip (b : Boat) :
  (forall d, launch_date b = VDate d ->
             fromisoformat_date (date_isoformat d) = Ok d ->
             repr fromtimestamp_date fromisoformat_date str_other
               (restored str_other b) =
             repr fromtimestamp_date fromisoformat_date str_other b)
  /\
  (forall s, launch_date b = VStr s ->
             repr fromtimestamp_date fromisoformat_date str_other
               (restored str_other b) =
             repr fromtimestamp_date fromisoformat_date str_other b).
Proof.
  split.
  - intros d Hd Hiso. unfold repr, Boat_repr, restored. simpl.
    rewrite Hd. simpl. rewrite Hiso. reflexivity.
  - intros s Hs. unfold repr, Boat_repr, restored. simpl.
    rewrite Hs. reflexivity.
Qed.

(** With the empty keyword [filter_boats] shows every vessel: on a registry
    with vessels it returns what [list_boats] returns. *)
Theorem filter_empty_keyword_lists_all (self : fleet_ref) (w : world) :
  str_lower [] = [] ->
  boats (fleet_at w self) <> [] ->
  filter_boats fromtimestamp_date fromisoformat_date str_other str_lower
    self [] w =
  list_boats fromtimestamp_date fromisoformat_date str_other self w.
Proof.
  intros Hlower Hne. unfold filter_boats, list_boats, bind, get_world.
  destruct (boats (fleet_at w self)) as [ | b bs] eqn:E; [congruence | ].
  rewrite filter_all.
  - reflexivity.
  - intros B. unfold matches. rewrite Hlower, str_in_nil. reflexivity.
Qed.

End DisplayExtras.

Lemma repr_same_after_roundtrip_witness :
  repr sample_fromtimestamp sample_fromisoformat sample_str_other
    (restored sample_str_other aurora) =
  repr sample_fromtimestamp sample_fromisoformat sample_str_other aurora.
Proof.
  apply (proj1 (repr_same_after_roundtrip sample_fromtimestamp
                  sample_fromisoformat sample_str_other aurora)
           (mkDate 2020 1 1)).
  - reflexivity.
  - vm_compute. reflexivity.
Defined.

Lemma filter_empty_keyword_lists_all_witness :
  filter_boats sample_fromtimestamp sample_fromisoformat sample_str_other
    sample_lower 0 [] scenario_fleet =
  list_boats sample_fromtimestamp sample_fromisoformat sample_str_other 0
    scenario_fleet.
Proof.
  apply (filter_empty_keyword_lists_all sample_fromtimestamp
           sample_fromisoformat sample_str_other sample_lower 0 scenario_fleet).
  - reflexivity.
  - vm_compute. discriminate.
Defined.

(** ** The handlers of the interface *)

Lemma list_remove_middle (x : nat) (pre post : list nat) :
  x ∉ pre -> list_remove x (pre ++ x :: post) = pre ++ post.
Proof.
  induction pre as [ | y pre IH]; intros Hout; simpl.
  - rewrite decide_True by reflexivity. reflexivity.
  - apply not_elem_of_cons in Hout as [Hne Hout].
    rewrite decide_False by exact Hne. rewrite IH by exact Hout. reflexivity.
Qed.

Lemma find_ship_first (w : world) (n : pystr) (pre : list boat_ref)
  (b : boat_ref) (post : list boat_ref) :
  (forall x, x ∈ pre -> name (boat_at w x) <> n) ->
  name (boat_at w b) = n ->
  find_ship w (VStr n) (pre ++ b :: post) = Some b.
Proof.
  intros Hpre Hb. induction pre as [ | y pre IH]; cbn [app find_ship str_eq].
  - rewrite bool_decide_eq_true_2 by exact Hb. reflexivity.
  - rewrite bool_decide_eq_false_2 by (apply Hpre; left).
    apply IH. intros x Hx. apply Hpre. right. exact Hx.
Qed.

Lemma find_ship_none (w : world) (n : pystr) (bs : list boat_ref) :
  (forall x, x ∈ bs -> name (boat_at w x) <> n) ->
  find_ship w (VStr n) bs = None.
Proof.
  intros Hbs. induction bs as [ | y bs IH]; cbn [find_ship str_eq];
    [reflexivity | ].
  rewrite bool_decide_eq_false_2 by (apply Hbs; left).
  apply IH. intros x Hx. apply Hbs. right. exact Hx.
Qed.

Lemma sum_floats (x : spec_float) (caps : list pyval) :
  Forall (fun c => exists f, c = VFloat f) caps ->
  exists f, sum_from (VFloat x) caps = Ok (VFloat f).
Proof.
  intros H. revert x. induction H as [ | c caps [f ->] _ IH]; intros x; simpl.
  - eauto.
  - apply IH.
Qed.

Section HandlerExtras.

Variable fromtimestamp_date : pyval -> res date.
Variable str_other : pyval -> pystr.
Variable builtin_msg : builtin_op -> pyval -> pystr.
Variable strftime_now : nat -> pystr.

Lemma add_and_update_eq (registry : fleet_ref)
  (name_ location flag_ launch_date_ : pyval) (kind : ship_type)
  (cargo_capacity weapon_count gov_auth : pyval) (current_log : pystr)
  (w : world) :
  add_and_update fromtimestamp_date builtin_msg strftime_now registry
    name_ location flag_ launch_date_ kind cargo_capacity weapon_count
    gov_auth current_log w =
  let echo := [name_; location; flag_; launch_date_; cargo_capacity;
               weapon_count; gov_auth] in
  let failed e w' :=
    (Ok (current_log ++ nl ++ lit "> " ++ emoji_cross
         ++ lit " Error adding ship: " ++ exn_msg e, echo), w') in
  match construct fromtimestamp_date kind name_ launch_date_ location flag_
          cargo_capacity weapon_count gov_auth with
  | Raise e => failed e w
  | Ok B =>
      match add_boat builtin_msg strftime_now registry
              (OBoat (length (boat_objs w)))
              (mkWorld (boat_objs w ++ [B]) (fleet_objs w) (ticks w)) with
      | (Ok text, w2) => (Ok (current_log ++ nl ++ lit "> " ++ text, echo), w2)
      | (Raise e, w2) => failed e w2
      end
  end.
Proof.
  unfold add_and_update, try_except. unfold bind at 1. unfold bind at 1.
  unfold lift, alloc_boat.
  destruct (construct _ _ _ _ _ _ _ _ _) as [B | e]; [ | reflexivity].
  unfold bind at 1.
  destruct (add_boat _ _ _ _ _) as [[t | e] w2]; reflexivity.
Qed.

(** [add_and_update] never raises. When the constructor rejects the input,
    the store is unchanged and the console gets the error text; when it
    accepts and the registry's logs are a list, the new vessel is a new
    object, bound to the registry and appended to its [boats]. *)
Theorem add_and_update_outcomes (registry : fleet_ref)
  (name_ location flag_ launch_date_ : pyval) (kind : ship_type)
  (cargo_capacity weapon_count gov_auth : pyval) (current_log : pystr)
  (w : world) :
  let r := add_and_update fromtimestamp_date builtin_msg strftime_now registry
             name_ location flag_ launch_date_ kind cargo_capacity weapon_count
             gov_auth current_log w in
  let built := construct fromtimestamp_date kind name_ launch_date_ location
                 flag_ cargo_capacity weapon_count gov_auth in
  let echo := [name_; location; flag_; launch_date_; cargo_capacity;
               weapon_count; gov_auth] in
  (exists text, fst r = Ok (text, echo)) /\
  (forall e, built = Raise e ->
     r = (Ok (current_log ++ nl ++ lit "> " ++ emoji_cross
              ++ lit " Error adding ship: " ++ exn_msg e, echo), w)) /\
  (forall B, built = Ok B -> has_log_list w registry ->
     fst r = Ok (current_log ++ nl ++ lit "> " ++ emoji_check ++ lit " "
                 ++ name B ++ lit " successfully added to fleet", echo) /\
     boat_at (snd r) (length (boat_objs w)) = bound_to registry B /\
     boats (fleet_at (snd r) registry) =
       boats (fleet_at w registry) ++ [length (boat_objs w)]).
Proof.
  intros r built echo. unfold r.
  rewrite add_and_update_eq. fold built. fold echo.
  split; [ | split].
  - destruct built as [B | e]; [ | cbn; eauto].
    destruct (add_boat _ _ _ _ _) as [[t | e] w1]; cbn; eauto.
  - intros e ->. reflexivity.
  - intros B -> [l Hl].
    set (w1 := mkWorld (boat_objs w ++ [B]) (fleet_objs w) (ticks w)).
    assert (Hnew : length (boat_objs w) < length (boat_objs w1)).
    { unfold w1. simpl. rewrite length_app. simpl. lia. }
    assert (Hat1 : boat_at w1 (length (boat_objs w)) = B).
    { unfold boat_at, w1. simpl. rewrite list_lookup_middle by reflexivity.
      reflexivity. }
    destruct (add_boat_changes builtin_msg strftime_now registry
                (length (boat_objs w)) w1 l Hl Hnew)
      as (Hfst & Hfleet & Hboat & _ & _).
    destruct (add_boat _ _ _ _ w1) as [res1 w2]. cbn [fst snd] in *.
    rewrite Hfst, Hat1. cbn [fst snd].
    split; [reflexivity | ]. split.
    + rewrite Hboat, Hat1. reflexivity.
    + rewrite Hfleet. reflexivity.
Qed.

(** Through the form no cargo vessel gets the capacity zero: an empty or
    zero capacity field is replaced by 1000 (and an empty weapon count by
    0), so every cargo vessel that [add_and_update] constructs has a
    capacity that is neither zero nor negative. *)
Theorem form_defaults
  (name_ launch_date_ location flag_ cargo_capacity weapon_count gov_auth : pyval) :
  (truthy cargo_capacity = false ->
   construct fromtimestamp_date TypeCargoShip name_ launch_date_ location flag_
     cargo_capacity weapon_count gov_auth =
   CargoBoat_init fromtimestamp_date name_ launch_date_ location flag_
     (VInt 1000))
  /\
  (truthy weapon_count = false ->
   construct fromtimestamp_date TypeMilitaryBoat name_ launch_date_ location
     flag_ cargo_capacity weapon_count gov_auth =
   MilitaryBoat_init fromtimestamp_date name_ launch_date_ location flag_
     (VInt 0) gov_auth)
  /\
  (forall B,
     construct fromtimestamp_date TypeCargoShip name_ launch_date_ location
       flag_ cargo_capacity weapon_count gov_auth = Ok B ->
     exists c, cls B = ClsCargoBoat c /\ truthy c = true /\ lt_zero c = false).
Proof.
  split; [ | split].
  - intros H. unfold construct, py_or. rewrite H. reflexivity.
  - intros H. unfold construct, py_or. rewrite H. reflexivity.
  - intros B HB. unfold construct in HB.
    pose proof (CargoBoat_init_valid _ _ _ _ _ _ _ HB) as [_ _ _ _ Hc].
    apply CargoBoat_init_inv in HB as (self & _ & ->).
    exists (py_or cargo_capacity (VInt 1000)). simpl in Hc |- *.
    split; [reflexivity | ]. split; [ | apply Hc].
    unfold py_or. destruct (truthy cargo_capacity) eqn:E; [exact E | reflexivity].
Qed.

Lemma remove_boat_and_update_eq (registry : fleet_ref) (ship_name : pyval)
  (current_log : pystr) (w : world) :
  truthy ship_name = true ->
  remove_boat_and_update str_other builtin_msg strftime_now registry ship_name
    current_log w =
  match find_ship w ship_name (boats (fleet_at w registry)) with
  | Some selected_ship =>
      match remove_boat builtin_msg strftime_now registry selected_ship w with
      | (Ok text, w') => (Ok (current_log ++ nl ++ lit "> " ++ text), w')
      | (Raise e, w') => (Raise e, w')
      end
  | None =>
      (Ok (current_log ++ nl ++ lit "> " ++ not_found str_other ship_name), w)
  end.
Proof.
  intros Htruthy. unfold remove_boat_and_update. unfold bind at 1.
  rewrite Htruthy. cbn [negb]. unfold bind at 1, get_world.
  destruct (find_ship w ship_name _) as [b | ]; [ | reflexivity].
  destruct (remove_boat _ _ _ _ w) as [[t | e] w']; reflexivity.
Qed.

(** [remove_boat_and_update] removes the first vessel of the registry that
    has the selected name and leaves later vessels of the same name in
    place; when no vessel has the name it answers that the ship is not
    found and changes nothing. *)
Theorem remove_by_name_takes_first (registry : fleet_ref) (n current_log : pystr)
  (w : world) :
  n <> [] ->
  (forall pre b post l,
     boats (fleet_at w registry) = pre ++ b :: post ->
     (forall x, x ∈ pre -> name (boat_at w x) <> n) ->
     name (boat_at w b) = n ->
     logs (fleet_at w registry) = VList l ->
     b < length (boat_objs w) ->
     let r := remove_boat_and_update str_other builtin_msg strftime_now
                registry (VStr n) current_log w in
     fst r = Ok (current_log ++ nl ++ lit "> " ++ emoji_check ++ lit " " ++ n
                 ++ lit " successfully removed from fleet") /\
     boats (fleet_at (snd r) registry) = pre ++ post /\
     current_fleet (boat_at (snd r) b) = None)
  /\
  ((forall x, x ∈ boats (fleet_at w registry) -> name (boat_at w x) <> n) ->
   remove_boat_and_update str_other builtin_msg strftime_now registry (VStr n)
     current_log w =
   (Ok (current_log ++ nl ++ lit "> " ++ emoji_cross ++ lit " Ship '" ++ n
        ++ lit "' not found in fleet."), w)).
Proof.
  intros Hn.
  assert (Htruthy : truthy (VStr n) = true)
    by (destruct n; [congruence | reflexivity]).
  split.
  - intros pre b post l Hboats Hpre Hb Hl Hlen r.
    assert (Hin : b ∈ boats (fleet_at w registry)).
    { rewrite Hboats. apply elem_of_app. right. left. }
    assert (Hout : b ∉ pre).
    { intros Hbp. apply (Hpre b Hbp). exact Hb. }
    destruct (remove_boat_changes builtin_msg strftime_now registry b w l
                Hin Hl Hlen) as (Hfst & Hrem & _ & _ & Hboat & _ & _).
    unfold r. rewrite remove_boat_and_update_eq by exact Htruthy.
    rewrite Hboats, (find_ship_first w n pre b post Hpre Hb).
    destruct (remove_boat _ _ _ _ w) as [res1 w1]. cbn [fst snd] in *.
    rewrite Hfst. cbn [fst snd]. rewrite Hb.
    split; [reflexivity | ]. split.
    + rewrite Hrem, Hboats. apply list_remove_middle. exact Hout.
    + rewrite Hboat. reflexivity.
  - intros Hnone. rewrite remove_boat_and_update_eq by exact Htruthy.
    rewrite (find_ship_none w n _ Hnone). reflexivity.
Qed.

(** On a registry whose cargo capacities are all floats,
    [generate_status_report] returns a report and raises nothing; it never
    changes the store. *)
Theorem status_report_on_float_capacities (self : fleet_ref) (w : world) :
  (forall b c, b ∈ boats (fleet_at w self) ->
               cls (boat_at w b) = ClsCargoBoat c -> exists f, c = VFloat f) ->
  exists text, generate_status_report self w = (Ok text, w).
Proof.
  intros Hfloat.
  assert (Hcaps : Forall (fun c => exists f, c = VFloat f)
                    (cargo_capacities (map (boat_at w) (boats (fleet_at w self))))).
  { revert Hfloat. generalize (boats (fleet_at w self)). intros l Hl.
    induction l as [ | b l IH]; simpl; [constructor | ].
    assert (IH' := IH (fun b' c Hin => Hl b' c (proj2 (elem_of_cons _ _ _) (or_intror Hin)))).
    destruct (cls (boat_at w b)) eqn:Ec; try exact IH'.
    constructor; [ | exact IH'].
    apply (Hl b). { left. } exact Ec. }
  destruct (boats (fleet_at w self)) as [ | b0 bs0] eqn:E.
  - eexists. unfold generate_status_report, bind, get_world. rewrite E.
    reflexivity.
  - rewrite <- E in Hcaps.
    rewrite generate_status_report_nonempty by (rewrite E; discriminate).
    cbv zeta. destruct (0 <? _)%Z; [ | eauto].
    unfold py_sum.
    destruct (cargo_capacities (map (boat_at w) (boats (fleet_at w self))))
      as [ | c caps]; [cbn; eauto | ].
    inversion Hcaps as [ | ? ? [f ->] Hrest]; subst.
    cbn [sum_from].
    assert (Hfirst : py_add (VInt 0) (VFloat f) =
                     Ok (VFloat (SFadd prec emax float_zero f)))
      by reflexivity.
    rewrite Hfirst. cbn [res_bind].
    destruct (sum_floats (SFadd prec emax float_zero f) caps Hrest) as [g ->].
    cbn. eauto.
Qed.

End HandlerExtras.

Lemma add_and_update_outcomes_witness :
  let r := add_and_update sample_fromtimestamp sample_builtin_msg sample_clock 0
             (txt "Baltic Trader") (txt "Gdansk") (txt "PL") (txt "2019-05-17")
             TypeCargoShip (VFloat float_500) VNone (VBool false) (lit "Ready")
             two_fleets in
  let B := mkBoat (lit "Baltic Trader") (txt "2019-05-17") (lit "Gdansk")
             (lit "PL") None [] VNone (VList [])
             (ClsCargoBoat (VFloat float_500)) in
  fst r = Ok (lit "Ready" ++ nl ++ lit "> " ++ emoji_check ++ lit " "
              ++ lit "Baltic Trader" ++ lit " successfully added to fleet",
              [txt "Baltic Trader"; txt "Gdansk"; txt "PL"; txt "2019-05-17";
               VFloat float_500; VNone; VBool false]) /\
  boat_at (snd r) 1 = bound_to 0 B /\
  boats (fleet_at (snd r) 0) = [] ++ [1].
Proof.
  apply (proj2 (proj2 (add_and_update_outcomes sample_fromtimestamp
                         sample_builtin_msg sample_clock 0
                         (txt "Baltic Trader") (txt "Gdansk") (txt "PL")
                         (txt "2019-05-17") TypeCargoShip (VFloat float_500)
                         VNone (VBool false) (lit "Ready") two_fleets))
           (mkBoat (lit "Baltic Trader") (txt "2019-05-17") (lit "Gdansk")
              (lit "PL") None [] VNone (VList [])
              (ClsCargoBoat (VFloat float_500)))).
  - reflexivity.
  - exists []. reflexivity.
Defined.

Lemma form_defaults_witness :
  construct sample_fromtimestamp TypeCargoShip (txt "Baltic Trader")
    (txt "2019-05-17") (txt "Gdansk") (txt "PL") (VInt 0) VNone (VBool false) =
  CargoBoat_init sample_fromtimestamp (txt "Baltic Trader") (txt "2019-05-17")
    (txt "Gdansk") (txt "PL") (VInt 1000).
Proof.
  apply (proj1 (form_defaults sample_fromtimestamp (txt "Baltic Trader")
                  (txt "2019-05-17") (txt "Gdansk") (txt "PL") (VInt 0) VNone
                  (VBool false))).
  reflexivity.
Defined.

Lemma remove_by_name_takes_first_witness :
  let r := remove_boat_and_update sample_str_other sample_builtin_msg
             sample_clock 0 (txt "Aurora") (lit "Ready") aurora_added_twice in
  fst r = Ok (lit "Ready" ++ nl ++ lit "> " ++ emoji_check ++ lit " "
              ++ lit "Aurora" ++ lit " successfully removed from fleet") /\
  boats (fleet_at (snd r) 0) = [] ++ [0] /\
  current_fleet (boat_at (snd r) 0) = None.
Proof.
  assert (Hname : lit "Aurora" <> []) by (vm_compute; discriminate).
  apply (proj1 (remove_by_name_takes_first sample_str_other sample_builtin_msg
                  sample_clock 0 (lit "Aurora") (lit "Ready")
                  aurora_added_twice Hname)
           [] 0 [0]
           [txt "[2024-01-01 00:00:00] Aurora joined the fleet.";
            txt "[2024-01-01 00:00:01] Aurora joined the fleet."]).
  - reflexivity.
  - intros x Hx. inversion Hx.
  - reflexivity.
  - reflexivity.
  - vm_compute. lia.
Defined.

Lemma status_report_on_float_capacities_witness :
  exists text,
    generate_status_report 0 scenario_fleet = (Ok text, scenario_fleet).
Proof.
  apply (status_report_on_float_capacities 0 scenario_fleet).
  assert (E : boats (fleet_at scenario_fleet 0) = [0; 1]) by reflexivity.
  intros b c Hin Hc. rewrite E in Hin.
  apply elem_of_cons in Hin as [-> | Hin].
  - vm_compute in Hc. injection Hc as <-. eexists. reflexivity.
  - apply elem_of_cons in Hin as [-> | Hin].
    + vm_compute in Hc. discriminate Hc.
    + inversion Hin.
Defined.
